(** * YuanMingYuan project: CSV and TEI to RDF converters, TEI to HTML renderer

    A shallow embedding of [csv_to_rdf.py], [tei_to_rdf.py] and
    [xml_to_html.py], and the properties of the term resolution, of the
    two triple builders and of the renderer.

    A Python [str] is a [string] whose characters are the code points
    U+0000 to U+00FF: the character [c] stands for the code point
    [N_of_ascii c].  The multiplication sign of the unit markers is
    U+00D7 and lies in that range. *)

From Stdlib Require Import String Ascii List Bool Arith NArith ZArith Lia.
From Stdlib Require Import Decimal DecimalString.
From Stdlib Require Import Permutation.
Import ListNotations.

Local Open Scope string_scope.
Local Open Scope bool_scope.

(** ** Python built-ins used by the three scripts *)

Module Py.

Definition code (c : ascii) : N := N_of_ascii c.

Definition between (lo hi : N) (c : ascii) : bool :=
  (lo <=? code c)%N && (code c <=? hi)%N.

(** [str.isspace] on one character. *)
Definition isspace (c : ascii) : bool :=
  between 9 13 c || between 28 32 c || (code c =? 133)%N || (code c =? 160)%N.

(** [str.isupper] on one character. *)
Definition isupper (c : ascii) : bool :=
  between 65 90 c || between 192 214 c || between 216 222 c.

(** [str.lower] on one character: every upper-case letter of the range
    has its lower-case letter 32 code points above. *)
Definition lower_char (c : ascii) : ascii :=
  if isupper c then ascii_of_N (code c + 32) else c.

Definition isdigit09 (c : ascii) : bool := between 48 57 c.

(** The class [\w] of the [re] module on [str] patterns: the alphanumeric
    characters ([str.isalnum]) and the underscore. *)
Definition is_word (c : ascii) : bool :=
  isdigit09 c || between 65 90 c || (code c =? 95)%N || between 97 122 c
  || (code c =? 170)%N || between 178 179 c || (code c =? 181)%N
  || between 185 186 c || between 188 190 c || between 192 214 c
  || between 216 246 c || between 248 255 c.

Fixpoint lower (s : string) : string :=
  match s with
  | EmptyString => EmptyString
  | String c r => String (lower_char c) (lower r)
  end.

(** [s.startswith(p)]. *)
Fixpoint startswith (p s : string) : bool :=
  match p, s with
  | EmptyString, _ => true
  | String a p', String b s' => Ascii.eqb a b && startswith p' s'
  | String _ _, EmptyString => false
  end.

(** [sub in s]. *)
Fixpoint contains (sub s : string) : bool :=
  startswith sub s ||
  match s with
  | EmptyString => false
  | String _ r => contains sub r
  end.

Fixpoint lstrip (s : string) : string :=
  match s with
  | EmptyString => EmptyString
  | String c r => if isspace c then lstrip r else s
  end.

Fixpoint rstrip (s : string) : string :=
  match s with
  | EmptyString => EmptyString
  | String c r =>
      match rstrip r with
      | EmptyString => if isspace c then EmptyString else String c EmptyString
      | r' => String c r'
      end
  end.

(** [s.strip()]. *)
Definition strip (s : string) : string := rstrip (lstrip s).

(** [s.replace(old, new)] for a non-empty pattern [old]: the occurrences
    are replaced from the left, without overlap; [skip] counts the
    characters of an occurrence still to pass over. *)
Fixpoint replace_from (skip : nat) (old new s : string) : string :=
  match s with
  | EmptyString => EmptyString
  | String c r =>
      match skip with
      | S k => replace_from k old new r
      | O =>
          if startswith old s
          then new ++ replace_from (String.length old - 1) old new r
          else String c (replace_from 0 old new r)
      end
  end.

Definition replace (old new s : string) : string := replace_from 0 old new s.

(** [re.sub(cls, '', s)] for a pattern that is one character class: the
    characters of the class are deleted. *)
Fixpoint re_sub_del (cls : ascii -> bool) (s : string) : string :=
  match s with
  | EmptyString => EmptyString
  | String c r =>
      if cls c then re_sub_del cls r else String c (re_sub_del cls r)
  end.

(** [sep in s] and [s.split(sep, 1)] for a separator of one character:
    [None] when the separator does not occur, else the text before the
    first occurrence and the text after it. *)
Fixpoint split1 (sep : ascii) (s : string) : option (string * string) :=
  match s with
  | EmptyString => None
  | String c r =>
      if Ascii.eqb c sep then Some (EmptyString, r)
      else match split1 sep r with
           | Some (a, b) => Some (String c a, b)
           | None => None
           end
  end.

Fixpoint chars (s : string) : list ascii :=
  match s with
  | EmptyString => []
  | String c r => c :: chars r
  end.

(** *** [float(text)]

    [float] applied to a [str]: the text is brought to ASCII, underscores
    between digits are dropped, blanks around the number are skipped and
    the rest must read as a decimal number, an infinity or a nan.  Only
    whether the conversion succeeds matters to the scripts. *)

Definition is_ascii (s : string) : bool :=
  forallb (fun c => (code c <? 128)%N) (chars s).

(** Characters from U+007F on: a blank becomes a space, anything else a
    question mark that ends the text (the range has no decimal digit
    beyond ASCII). *)
Fixpoint transform_spaces (s : string) : string :=
  match s with
  | EmptyString => EmptyString
  | String c r =>
      if (code c <? 127)%N then String c (transform_spaces r)
      else if isspace c then String " " (transform_spaces r)
      else "?"
  end.

Definition to_ascii_form (s : string) : string :=
  if is_ascii s then s else transform_spaces s.

(** An underscore must stand between two digits; [prev] is the character
    before [s].  A NUL character ends a C string early and fails. *)
Fixpoint drop_underscores (prev : ascii) (s : string) : option string :=
  match s with
  | EmptyString => if Ascii.eqb prev "_" then None else Some EmptyString
  | String c r =>
      if Ascii.eqb c "000" then None
      else if Ascii.eqb c "_" then
        if isdigit09 prev then drop_underscores c r else None
      else if Ascii.eqb prev "_" && negb (isdigit09 c) then None
      else option_map (String c) (drop_underscores c r)
  end.

(** The blanks of C's [isspace]. *)
Definition c_isspace (c : ascii) : bool :=
  between 9 13 c || (code c =? 32)%N.

Fixpoint c_lstrip (s : string) : string :=
  match s with
  | EmptyString => EmptyString
  | String c r => if c_isspace c then c_lstrip r else s
  end.

Fixpoint c_rstrip (s : string) : string :=
  match s with
  | EmptyString => EmptyString
  | String c r =>
      match c_rstrip r with
      | EmptyString => if c_isspace c then EmptyString else String c EmptyString
      | r' => String c r'
      end
  end.

Definition c_tolower (c : ascii) : ascii :=
  if between 65 90 c then ascii_of_N (code c + 32) else c.

Fixpoint c_lower (s : string) : string :=
  match s with
  | EmptyString => EmptyString
  | String c r => String (c_tolower c) (c_lower r)
  end.

Definition skip_sign (s : string) : string :=
  match s with
  | String c r => if Ascii.eqb c "+" || Ascii.eqb c "-" then r else s
  | EmptyString => EmptyString
  end.

(** The leading digits and the text after them. *)
Fixpoint span_digits (s : string) : string * string :=
  match s with
  | EmptyString => (EmptyString, EmptyString)
  | String c r =>
      if isdigit09 c then let (d, t) := span_digits r in (String c d, t)
      else (EmptyString, s)
  end.

Definition is_empty (s : string) : bool :=
  match s with EmptyString => true | String _ _ => false end.

Definition is_inf_or_nan (s : string) : bool :=
  let l := c_lower s in
  String.eqb l "inf" || String.eqb l "infinity" || String.eqb l "nan".

Definition is_exponent (s : string) : bool :=
  match s with
  | EmptyString => true
  | String c r =>
      (Ascii.eqb c "e" || Ascii.eqb c "E") &&
      (let (d, t) := span_digits (skip_sign r) in
       negb (is_empty d) && is_empty t)
  end.

(** The digits before and after the point, and the text after them. *)
Definition span_mantissa (s : string) : string * string * string :=
  let (d1, r1) := span_digits s in
  match r1 with
  | String "." r => let (d2, r2) := span_digits r in (d1, d2, r2)
  | _ => (d1, EmptyString, r1)
  end.

(** A sign, then digits with at most one point and at least one digit,
    then an optional exponent; or a sign and an infinity or a nan. *)
Definition is_float_literal (s : string) : bool :=
  let b := skip_sign s in
  is_inf_or_nan b ||
  (let '(d1, d2, r2) := span_mantissa b in
   negb (is_empty (d1 ++ d2)) && is_exponent r2).

(** The text [float] reads, once it is ASCII, without underscores and
    without the blanks around it; [None] when an underscore is misplaced. *)
Definition float_text (s : string) : option string :=
  option_map (fun u => c_rstrip (c_lstrip u))
             (drop_underscores "000" (to_ascii_form s)).

(** [float(s)] returns (true) or raises [ValueError] (false). *)
Definition float_of_str_ok (s : string) : bool :=
  match float_text s with
  | None => false
  | Some w => is_float_literal w
  end.

(** The characters a text that [float] accepts is made of: digits, signs,
    the point, the exponent mark, the underscore, the letters of
    [infinity] and [nan], and the blanks [float] skips. *)
Definition float_char (c : ascii) : bool :=
  isdigit09 c || c_isspace c || (code c =? 133)%N || (code c =? 160)%N
  || existsb (Ascii.eqb (c_tolower c))
             (chars "+-._einfinityna").

Definition float_text_ok (s : string) : Prop :=
  forallb float_char (chars s) = true.

(** [s.split()]: the maximal runs of non-blank characters; [acc] is the
    run being read. *)
Fixpoint split_ws (acc s : string) : list string :=
  match s with
  | EmptyString => if is_empty acc then [] else [acc]
  | String c r =>
      if isspace c then
        (if is_empty acc then split_ws EmptyString r
         else acc :: split_ws EmptyString r)
      else split_ws (acc ++ String c EmptyString) r
  end.

(** [d.get(key)] on a dictionary written as its list of items. *)
Fixpoint lookup {A : Type} (key : string) (d : list (string * A)) : option A :=
  match d with
  | [] => None
  | (k, a) :: d' => if String.eqb key k then Some a else lookup key d'
  end.

(** *** Exceptions and results *)

Inductive exn : Type :=
| IndexError | KeyError | AttributeError | ValueError | OSError.

Inductive result (A : Type) : Type :=
| Ok (a : A)
| Raise (e : exn).

Arguments Ok {A} a.
Arguments Raise {A} e.

Definition bind {A B : Type} (m : result A) (k : A -> result B) : result B :=
  match m with
  | Ok a => k a
  | Raise e => Raise e
  end.

(** [xs[0]]. *)
Definition first {A : Type} (xs : list A) : result A :=
  match xs with
  | x :: _ => Ok x
  | [] => Raise IndexError
  end.

(** *** Values of a table cell

    The objects a cell of a [pandas] row holds.  A row of a table whose
    columns differ in type is an array of objects: text ([str]), a Python
    [int], a [float] or a [bool].  A row of a table whose columns all have
    one numeric type is an array of that type, and its cells are the
    scalars of [numpy]: [numpy.float64], which is a [float], and
    [numpy.int64] and [numpy.bool_], which are neither [int] nor [float].
    A float is given by a decimal numeral that denotes it ([nan] and the
    infinities apart). *)

Inductive pyfloat : Type :=
| Fnan
| Finf (neg : bool)
| Ffin (d : decimal).

Inductive value : Type :=
| VStr (s : string)
| VInt (z : Z)
| VFloat (f : pyfloat)
| VBool (b : bool)
| VNpInt (z : Z)
| VNpBool (b : bool).

Definition exponent_str (u : uint) : string :=
  match u with
  | Nil => "00"
  | D0 Nil | D1 Nil | D2 Nil | D3 Nil | D4 Nil
  | D5 Nil | D6 Nil | D7 Nil | D8 Nil | D9 Nil =>
      "0" ++ NilEmpty.string_of_uint u
  | _ => NilEmpty.string_of_uint u
  end.

(** [str(f)] for a float: the numeral in the layout of [repr]. *)
Definition float_str (f : pyfloat) : string :=
  match f with
  | Fnan => "nan"
  | Finf neg => if neg then "-inf" else "inf"
  | Ffin (Decimal i d) =>
      NilZero.string_of_int i ++ "." ++ NilZero.string_of_uint d
  | Ffin (DecimalExp i d e) =>
      NilZero.string_of_int i
      ++ match d with Nil => "" | _ => "." ++ NilEmpty.string_of_uint d end
      ++ "e"
      ++ match e with
         | Pos u => "+" ++ exponent_str u
         | Neg u => "-" ++ exponent_str u
         end
  end.

(** [str(value)]. *)
Definition str (v : value) : string :=
  match v with
  | VStr s => s
  | VInt z | VNpInt z => NilZero.string_of_int (Z.to_int z)
  | VFloat f => float_str f
  | VBool b | VNpBool b => if b then "True" else "False"
  end.

Definition digits_uint (d : string) : uint :=
  match NilEmpty.uint_of_string d with
  | Some u => u
  | None => Nil
  end.

Definition signed (neg : bool) (u : uint) : signed_int :=
  if neg then Neg u else Pos u.

(** The numeral written by a text that [is_float_literal] accepts.  The
    float is kept as the numeral that writes it: two numerals of one
    double are two values here, and a numeral beyond the range of a
    double stays finite where [float] gives an infinity. *)
Definition numeral_of (w : string) : pyfloat :=
  let neg := startswith "-" w in
  let b := skip_sign w in
  let l := c_lower b in
  if String.eqb l "nan" then Fnan
  else if String.eqb l "inf" || String.eqb l "infinity" then Finf neg
  else
    let '(d1, d2, r2) := span_mantissa b in
    match r2 with
    | EmptyString => Ffin (Decimal (signed neg (digits_uint d1)) (digits_uint d2))
    | String _ r3 =>
        let (d3, _) := span_digits (skip_sign r3) in
        Ffin (DecimalExp (signed neg (digits_uint d1)) (digits_uint d2)
                         (signed (startswith "-" r3) (digits_uint d3)))
    end.

(** [float(s)] on text. *)
Definition float_of_str (s : string) : result pyfloat :=
  match float_text s with
  | Some w => if is_float_literal w then Ok (numeral_of w) else Raise ValueError
  | None => Raise ValueError
  end.

(** Whether [float(value)] returns.  An integer too large for a double
    raises [OverflowError]: the largest double is [2^1024 - 2^971] and
    rounding is to nearest.  An integer of [numpy] has 64 bits at most. *)
Definition float_ok (v : value) : bool :=
  match v with
  | VStr s => float_of_str_ok s
  | VInt z => (Z.abs z <? 2 ^ 1024 - 2 ^ 970)%Z
  | VFloat _ => true
  | VBool _ => true
  | VNpInt _ => true
  | VNpBool _ => true
  end.

(** [isinstance(value, int)] and [isinstance(value, (int, float))]: a
    [bool] is an [int]; the integers and the booleans of [numpy] are
    neither. *)
Definition is_int (v : value) : bool :=
  match v with VInt _ | VBool _ => true | _ => false end.

Definition is_number (v : value) : bool :=
  match v with
  | VInt _ | VFloat _ | VBool _ => true
  | VStr _ | VNpInt _ | VNpBool _ => false
  end.

End Py.

Notation "x <- m ;; k" := (Py.bind m (fun x => k))
  (at level 61, m at next level, right associativity).

(** ** RDF terms, namespaces and the graph of [rdflib] *)

Module Rdf.
Import Py.

Inductive xsd : Type := XSD_integer | XSD_float | XSD_date | XSD_gYear.

(** [URIRef(iri)] and [Literal(v, datatype=..., lang=...)]. *)
Inductive term : Type :=
| URIRef (iri : string)
| Literal (v : value) (datatype : option xsd) (lang : option string).

Definition triple : Type := (term * term * term)%type.

Definition is_literal (t : term) : bool :=
  match t with Literal _ _ _ => true | URIRef _ => false end.

Definition is_reference (t : term) : bool :=
  match t with URIRef _ => true | Literal _ _ _ => false end.

Definition pyfloat_eq_dec (a b : pyfloat) : {a = b} + {a <> b}.
Proof. decide equality; [apply bool_dec | apply decimal_eq_dec]. Defined.

Definition value_eq_dec (a b : value) : {a = b} + {a <> b}.
Proof.
  decide equality;
    [apply string_dec | apply Z.eq_dec | apply pyfloat_eq_dec | apply bool_dec
    | apply Z.eq_dec | apply bool_dec].
Defined.

Definition xsd_eq_dec (a b : xsd) : {a = b} + {a <> b}.
Proof. decide equality. Defined.

Definition term_eq_dec (a b : term) : {a = b} + {a <> b}.
Proof.
  decide equality; try apply string_dec; try apply value_eq_dec;
    decide equality; try apply string_dec; apply xsd_eq_dec.
Defined.

Definition triple_eq_dec (a b : triple) : {a = b} + {a <> b}.
Proof. repeat decide equality; try apply string_dec; apply value_eq_dec. Defined.

(** A graph is a set of triples, kept in the order of first insertion. *)
Definition Graph : Type := list triple.

Definition mem (t : triple) (g : Graph) : bool :=
  if in_dec triple_eq_dec t g then true else false.

(** [g.add(t)]: adding a triple the graph holds changes nothing. *)
Definition add (t : triple) (g : Graph) : Graph :=
  if mem t g then g else (g ++ [t])%list.

Definition add_all (ts : list triple) (g : Graph) : Graph :=
  fold_left (fun acc t => add t acc) ts g.

(** [(s, None, None) in g]: some triple of the graph has subject [s]. *)
Definition has_subject (s : term) (g : Graph) : bool :=
  existsb (fun t => if term_eq_dec (fst (fst t)) s then true else false) g.

(** The vocabularies imported from [rdflib.namespace] by [csv_to_rdf.py].
    They are closed: asking one for a term it does not define raises. *)
Inductive vocabulary : Type := RDF | RDFS | DCTERMS | FOAF | OWL.

Definition vocabulary_base (v : vocabulary) : string :=
  match v with
  | RDF => "http://www.w3.org/1999/02/22-rdf-syntax-ns#"
  | RDFS => "http://www.w3.org/2000/01/rdf-schema#"
  | DCTERMS => "http://purl.org/dc/terms/"
  | FOAF => "http://xmlns.com/foaf/0.1/"
  | OWL => "http://www.w3.org/2002/07/owl#"
  end.

(** A namespace object: [Namespace(base)], open to every local name, or
    one of the imported vocabularies. *)
Inductive namespace : Type :=
| Namespace (base : string)
| Defined (v : vocabulary).

Definition base (ns : namespace) : string :=
  match ns with
  | Namespace b => b
  | Defined v => vocabulary_base v
  end.

(** [Namespace(base)[name]]. *)
Definition term_of (b : string) (name : string) : term := URIRef (b ++ name).

Section Vocabularies.

(** The names each imported vocabulary gives a term for, and the
    exception it raises for any other name: both are part of [rdflib],
    not of the scripts.  For a name that is no term of the vocabulary
    the exception is [AttributeError]; [rdflib] raises others for the
    names it reserves and for the empty name. *)
Variable defines : vocabulary -> string -> bool.
Variable refusal : vocabulary -> string -> exn.

Definition accepts (ns : namespace) (name : string) : bool :=
  match ns with
  | Namespace _ => true
  | Defined v => defines v name
  end.

(** [ns[name]]. *)
Definition getitem (ns : namespace) (name : string) : result term :=
  match ns with
  | Namespace b => Ok (term_of b name)
  | Defined v =>
      if defines v name then Ok (term_of (vocabulary_base v) name)
      else Raise (refusal v name)
  end.

End Vocabularies.

Inductive format : Type := Turtle | Xml.

(** The files on disk: the path and the graph serialized in it, the file
    written last first. *)
Definition files : Type := list (string * (format * Graph)).

(** [graph.serialize(destination=path, format=fmt)]: the file is written,
    or the target cannot be written and [OSError] is raised. *)
Definition serialize (writable : string -> bool) (g : Graph) (path : string)
  (fmt : format) (d : files) : result files :=
  if writable path then Ok ((path, (fmt, g)) :: d) else Raise OSError.

End Rdf.

(** ** [csv_to_rdf.py] *)

Module CsvToRdf.
Import Py Rdf.

Definition EX : string := "http://example.org/lodlam/".
Definition SCHEMA : string := "http://schema.org/".
Definition EDM : string := "http://www.europeana.eu/schemas/edm/".
Definition CRM : string := "http://www.cidoc-crm.org/cidoc-crm/".
Definition DC : string := "http://purl.org/dc/elements/1.1/".

Definition CSV_FILES : list string :=
  [ "1__Admonitions_of_the_Instructress_to_Court_Ladies.csv";
    "2__Brush_Holder.csv";
    "3__Boxer_Protocol.csv";
    "4__Summer_Palace_Grounds_Photograph.csv";
    "5__Throne.csv";
    "6__Grand_Porcelain_Tower_Stereograph.csv";
    "7__Jewelry.csv";
    "8__Longevity_Mountain_Carving.csv";
    "9__Longevity_Mountain_Stereograph.csv";
    "10__Beautiful_Winding_Corridor.csv" ].

(** The class [[(),]]. *)
Definition is_paren_or_comma (c : ascii) : bool :=
  Ascii.eqb c "(" || Ascii.eqb c ")" || Ascii.eqb c ",".

(** The class [[^\w\-_.]]. *)
Definition is_problematic (c : ascii) : bool :=
  negb (is_word c || Ascii.eqb c "-" || Ascii.eqb c "_" || Ascii.eqb c ".").

Definition clean_uri_string (text : string) : string :=
  let text := re_sub_del is_paren_or_comma text in
  let text := replace " " "_" text in
  re_sub_del is_problematic text.

Definition create_uri (text : value) : term :=
  let text_str := strip (str text) in
  if startswith "http://" text_str || startswith "https://" text_str
  then URIRef text_str
  else term_of EX (clean_uri_string text_str).

Definition namespace_map : list (string * namespace) :=
  [ ("rdf", Defined RDF);
    ("rdfs", Defined RDFS);
    ("dcterms", Defined DCTERMS);
    ("dc", Namespace DC);
    ("foaf", Defined FOAF);
    ("schema", Namespace SCHEMA);
    ("edm", Namespace EDM);
    ("crm", Namespace CRM);
    ("owl", Defined OWL);
    ("ex", Namespace EX) ].

(** The marker lists of [is_literal_value], in the order of the source. *)
Definition multiplication_sign : string := String "215" EmptyString.

Definition date_indicators : list string :=
  ["century"; "dynasty"; "period"; "year"; "ad"; "bc"; "-"].

Definition measurement_units : list string :=
  ["cm"; "mm"; "inch"; "meter"; "kg"; multiplication_sign].

Definition descriptive_phrases : list string :=
  ["made of"; "consists of"; "located at"; "depicts"; "shows";
   "approximately"; "height"; "width"; "print"; "photograph"].

(** [any(w in s for w in ws)]. *)
Definition any_in (ws : list string) (s : string) : bool :=
  existsb (fun w => contains w s) ws.

Definition is_literal_value (v : value) : bool :=
  let value_str := lower (str v) in
  if any_in date_indicators value_str then true
  else if any_in measurement_units value_str then true
  else if float_ok v then true
  else if any_in descriptive_phrases value_str then true
  else false.

Definition first_isupper (s : string) : bool :=
  match s with
  | EmptyString => false
  | String c _ => isupper c
  end.

Definition should_be_uri (v : value) : bool :=
  let value_str := strip (str v) in
  if startswith "http" value_str then true
  else if first_isupper value_str && negb (is_literal_value v) then true
  else false.

(** The object of a row, lines 213 to 221 of [csv_to_rdf]: a reference,
    a typed literal for a number, a plain literal otherwise. *)
Definition classify_object (obj_value : value) : term :=
  if should_be_uri obj_value then create_uri obj_value
  else if is_number obj_value then
    Literal obj_value
            (Some (if is_int obj_value then XSD_integer else XSD_float)) None
  else Literal (VStr (str obj_value)) None None.

(** What [print] writes. The ruler lines, the sample triples and the
    statistics are not recorded. *)
Inductive message : Type :=
| Processing (csv_file : string)
| MissingColumns (csv_file : string)
| RowWarning (idx : nat) (e : exn)
| Added (file_triples : nat)
| ReadError (csv_file : string) (e : exn)
| Complete (total_triples : nat)
| SavingTurtle
| SavedTurtle (output_file : string)
| ExportingXml
| SavedXml
| ExportFailed (e : exn)
| AllGenerated.

(** A table as [pandas] loads it: the header and the rows, a row being
    the cells in the order of the header. *)
Record DataFrame : Type := {
  columns : list string;
  rows : list (list value)
}.

Record world : Type := {
  stdout : list message;
  disk : files
}.

(** The state of the loop of [csv_to_rdf]. *)
Record state : Type := {
  graph : Graph;
  out : list message;
  total_triples : nat
}.

Fixpoint index_of (col : string) (cols : list string) : option nat :=
  match cols with
  | [] => None
  | c :: cols' =>
      if String.eqb col c then Some 0 else option_map S (index_of col cols')
  end.

(** [row[col]]: a cell the line of the file left out reads as [nan]. *)
Definition row_get (df : DataFrame) (row : list value) (col : string)
  : result value :=
  match index_of col (columns df) with
  | Some i => Ok (nth i row (VFloat Fnan))
  | None => Raise KeyError
  end.

Definition has_required_columns (df : DataFrame) : bool :=
  forallb (fun col => existsb (String.eqb col) (columns df))
          ["Subject"; "Property"; "Object"].

(** [df.iterrows()]. *)
Definition iterrows (df : DataFrame) : list (nat * list value) :=
  combine (seq 0 (length (rows df))) (rows df).

Section Builder.

Variable defines : vocabulary -> string -> bool.
Variable refusal : vocabulary -> string -> exn.

(** [pd.read_csv(path)]: the table, or the exception it raises. *)
Variable read_csv : string -> result DataFrame.

(** Whether a path can be written. *)
Variable writable : string -> bool.

Definition serialize := Rdf.serialize writable.

Definition parse_property (property_string : value) : result term :=
  let property_str := strip (str property_string) in
  match split1 ":" property_str with
  | Some (prefix, local_name) =>
      let prefix_lower := lower prefix in
      match lookup prefix_lower namespace_map with
      | Some ns => getitem defines refusal ns local_name
      | None => Ok (term_of EX (replace ":" "_" property_str))
      end
  | None => Ok (term_of EX property_str)
  end.

(** The body of the inner [try]: the triple of a row. *)
Definition row_triple (df : DataFrame) (row : list value) : result triple :=
  s <- row_get df row "Subject" ;;
  let subject := create_uri s in
  p <- row_get df row "Property" ;;
  predicate <- parse_property p ;;
  obj_value <- row_get df row "Object" ;;
  Ok (subject, predicate, classify_object obj_value).

(** One turn of the loop over the rows. *)
Definition row_step (df : DataFrame) (acc : Graph * list message * nat)
  (ir : nat * list value) : Graph * list message * nat :=
  let '(g, o, file_triples) := acc in
  match row_triple df (snd ir) with
  | Ok t => (add t g, o, S file_triples)
  | Raise e => (g, (o ++ [RowWarning (fst ir) e])%list, file_triples)
  end.

(** One turn of the loop over the files. *)
Definition source_step (st : state) (csv_file : string) : state :=
  let o := (out st ++ [Processing csv_file])%list in
  match read_csv csv_file with
  | Ok df =>
      if negb (has_required_columns df) then
        {| graph := graph st;
           out := (o ++ [MissingColumns csv_file])%list;
           total_triples := total_triples st |}
      else
        let '(g, o', file_triples) :=
          fold_left (row_step df) (iterrows df) (graph st, o, 0) in
        {| graph := g;
           out := (o' ++ [Added file_triples])%list;
           total_triples := total_triples st + file_triples |}
  | Raise e =>
      {| graph := graph st;
         out := (o ++ [ReadError csv_file e])%list;
         total_triples := total_triples st |}
  end.

(** The build phase: the loop over the files, from an empty graph. *)
Definition build_from (g : Graph) (csv_files : list string) : state :=
  fold_left source_step csv_files
            {| graph := g; out := []; total_triples := 0 |}.

Definition build (csv_files : list string) : state := build_from [] csv_files.

Definition csv_to_rdf (csv_files : list string) (output_file : string)
  (w : world) : result Graph * world :=
  let st := build csv_files in
  let o := (stdout w ++ out st
            ++ [Complete (total_triples st); SavingTurtle])%list in
  match serialize (graph st) output_file Turtle (disk w) with
  | Ok d =>
      (Ok (graph st),
       {| stdout := (o ++ [SavedTurtle output_file])%list; disk := d |})
  | Raise e => (Raise e, {| stdout := o; disk := disk w |})
  end.

Definition export_rdf_xml (g : Graph) (w : world) : world :=
  let o := (stdout w ++ [ExportingXml])%list in
  match serialize g "lodlam_dataset.rdf" Xml (disk w) with
  | Ok d => {| stdout := (o ++ [SavedXml])%list; disk := d |}
  | Raise e => {| stdout := (o ++ [ExportFailed e])%list; disk := disk w |}
  end.

(** The script run as a program. *)
Definition main (w : world) : result unit * world :=
  match csv_to_rdf CSV_FILES "lodlam_dataset.ttl" w with
  | (Ok rdf_graph, w1) =>
      let w2 := export_rdf_xml rdf_graph w1 in
      (Ok tt, {| stdout := (stdout w2 ++ [AllGenerated])%list;
                 disk := disk w2 |})
  | (Raise e, w1) => (Raise e, w1)
  end.

End Builder.

End CsvToRdf.

(** ** The element trees of [lxml] and the XPath queries of the scripts *)

Module Xml.
Import Py.

(** A node that [lxml] hands over as an element: its tag, its attributes,
    the text before its first child, its children and the text after its
    end.  The tag of an element is its name in Clark notation.  A comment
    and a processing instruction are children too: their tag is no name
    (it is a function of [lxml], equal to no text), their text is what
    they hold, and they have neither attributes nor children. *)
#[local] Unset Elimination Schemes.

Inductive node : Type :=
| Node (tag : option string) (attrib : list (string * string))
       (text : option string) (children : list node) (tail : option string).

#[local] Set Elimination Schemes.

Definition tag (n : node) : option string :=
  match n with Node t _ _ _ _ => t end.

(** [n.tag == name]. *)
Definition tag_is (n : node) (name : string) : bool :=
  match tag n with
  | Some t => String.eqb t name
  | None => false
  end.

(** An element, not a comment nor a processing instruction. *)
Definition is_element (n : node) : bool :=
  match tag n with
  | Some _ => true
  | None => false
  end.
Definition attrib (n : node) : list (string * string) :=
  match n with Node _ a _ _ _ => a end.
Definition text (n : node) : option string :=
  match n with Node _ _ x _ _ => x end.
Definition children (n : node) : list node :=
  match n with Node _ _ _ cs _ => cs end.
Definition tail (n : node) : option string :=
  match n with Node _ _ _ _ x => x end.

(** [element.get(key)] and [element.get(key, default)]. *)
Definition get (n : node) (key : string) : option string :=
  lookup key (attrib n).

Definition get_default (n : node) (key default : string) : string :=
  match get n key with
  | Some v => v
  | None => default
  end.

Definition tei (name : string) : string :=
  "{http://www.tei-c.org/ns/1.0}" ++ name.

Definition XML_ID : string := "{http://www.w3.org/XML/1998/namespace}id".

(** The node test [tei:name] and the predicate [[@key="v"]]. *)
Definition named (name : string) (n : node) : bool :=
  tag_is n (tei name).

Definition with_attr (key v : string) (n : node) : bool :=
  match get n key with
  | Some x => String.eqb x v
  | None => false
  end.

Definition some_list {A : Type} (o : option A) : list A :=
  match o with
  | Some a => [a]
  | None => []
  end.

(** The nodes of a document in document order: an element with its
    parent, or a text node with the element that holds it and the parent
    of that element. *)
Inductive item : Type :=
| IElem (parent : option node) (n : node)
| IText (holder : node) (parent : option node) (s : string).

Fixpoint walk (parent : option node) (n : node) : list item :=
  match n with
  | Node _ _ x cs _ =>
      (IElem parent n
       :: map (IText n parent) (some_list x)
       ++ flat_map (fun c => walk (Some n) c
                             ++ map (IText n parent) (some_list (tail c)))
                   cs)%list
  end.

Definition under (pp : node -> bool) (parent : option node) : bool :=
  match parent with
  | Some p => pp p
  | None => false
  end.

(** [root.xpath('//C')]. *)
Definition xp_all (pc : node -> bool) (root : node) : list node :=
  flat_map (fun it => match it with
                      | IElem _ n => if pc n then [n] else []
                      | IText _ _ _ => []
                      end) (walk None root).

(** [root.xpath('//P/C')]. *)
Definition xp_elems (pp pc : node -> bool) (root : node) : list node :=
  flat_map (fun it => match it with
                      | IElem parent n =>
                          if under pp parent && pc n then [n] else []
                      | IText _ _ _ => []
                      end) (walk None root).

(** [root.xpath('//P/C/text()')]. *)
Definition xp_texts (pp pc : node -> bool) (root : node) : list string :=
  flat_map (fun it => match it with
                      | IText n parent s =>
                          if under pp parent && pc n then [s] else []
                      | IElem _ _ => []
                      end) (walk None root).

(** [root.xpath('//P/C/@key')]. *)
Definition xp_attrs (pp pc : node -> bool) (key : string) (root : node)
  : list string :=
  flat_map (fun n => some_list (get n key)) (xp_elems pp pc root).

(** [e.xpath('./C')]. *)
Definition child_elems (pc : node -> bool) (e : node) : list node :=
  filter pc (children e).

(** The text nodes of an element: its text and the tails of its children. *)
Definition text_nodes (e : node) : list string :=
  (some_list (text e) ++ flat_map (fun c => some_list (tail c)) (children e))%list.

(** [e.xpath('./C/text()')]. *)
Definition child_texts (pc : node -> bool) (e : node) : list string :=
  flat_map text_nodes (child_elems pc e).

(** [e.xpath('./B/C/text()')]. *)
Definition grandchild_texts (pb pc : node -> bool) (e : node) : list string :=
  flat_map (child_texts pc) (child_elems pb e).

(** [e.xpath('.//C')]: the descendants of [e], without [e]. *)
Definition desc_elems (pc : node -> bool) (e : node) : list node :=
  flat_map (xp_all pc) (children e).

(** [e.xpath('.//C/@key')]. *)
Definition desc_attrs (pc : node -> bool) (key : string) (e : node)
  : list string :=
  flat_map (fun n => some_list (get n key)) (desc_elems pc e).

(** [''.join(e.itertext())]: the text of the element, then for each
    child its own text, when it is an element, and its tail; what a
    comment or a processing instruction holds is left out. *)
Fixpoint itertext (e : node) : string :=
  match e with
  | Node _ _ x cs _ =>
      String.concat EmptyString
        (some_list x
         ++ flat_map (fun c => (if is_element c then [itertext c] else [])
                               ++ some_list (tail c)) cs)%list
  end.

(** [x or '']. *)
Definition or_empty (o : option string) : string :=
  match o with
  | Some s => s
  | None => EmptyString
  end.

(** The header queries, the same in [tei_to_rdf] and in [tei_to_html]. *)
Definition q_title (root : node) : list string :=
  xp_texts (named "titleStmt") (named "title") root.
Definition q_author (root : node) : list string :=
  xp_texts (named "titleStmt") (named "author") root.
Definition q_date_when (root : node) : list string :=
  xp_attrs (named "publicationStmt") (named "date") "when" root.
Definition q_pubPlace (root : node) : list string :=
  xp_texts (named "publicationStmt") (named "pubPlace") root.
Definition q_sourceDesc (root : node) : list string :=
  xp_texts (named "sourceDesc") (named "p") root.

(** The entity lists of the back matter. *)
Definition q_persons (root : node) : list node :=
  xp_elems (named "listPerson") (named "person") root.
Definition q_places (root : node) : list node :=
  xp_elems (named "listPlace") (named "place") root.
Definition q_orgs (root : node) : list node :=
  xp_elems (named "listOrg") (named "org") root.

End Xml.

(** ** [tei_to_rdf.py] *)

Module TeiToRdf.
Import Py Rdf Xml.

Definition SCHEMA : string := "http://schema.org/".
Definition CRM : string := "http://www.cidoc-crm.org/cidoc-crm/".
Definition EDM : string := "http://www.europeana.eu/schemas/edm/".
Definition DC : string := "http://purl.org/dc/elements/1.1/".

(** The terms of the imported vocabularies the script names. *)
Definition rdf (name : string) : term := term_of (vocabulary_base RDF) name.
Definition rdfs (name : string) : term := term_of (vocabulary_base RDFS) name.
Definition dcterms (name : string) : term :=
  term_of (vocabulary_base DCTERMS) name.
Definition foaf (name : string) : term := term_of (vocabulary_base FOAF) name.
Definition dc (name : string) : term := term_of DC name.
Definition schema (name : string) : term := term_of SCHEMA name.
Definition crm (name : string) : term := term_of CRM name.

(** [Literal(s, lang="en")], [Literal(s, datatype=d)] and [Literal(s)]. *)
Definition lit_en (s : string) : term := Literal (VStr s) None (Some "en").
Definition lit_typed (s : string) (d : xsd) : term :=
  Literal (VStr s) (Some d) None.
Definition lit (s : string) : term := Literal (VStr s) None None.

Inductive message : Type :=
| Generated (output_file : string)
| TotalTriples (n : nat)
| GeneratedXml (xml_output : string).

Record world : Type := {
  stdout : list message;
  disk : files
}.

Section Builder.

(** The argument [base_uri]. *)
Variable base_uri : string.

Definition ex (name : string) : term := term_of base_uri name.

(** [EX[element.get(xml:id)]]: an absent identifier gives the empty local
    name. *)
Definition ex_id (e : node) : term := ex (or_empty (get e XML_ID)).

Definition doc_uri : term := ex "ImperialEdict_1901_02_13".

(** A [try] block around [xs[0]] and the triples made of it. *)
Definition try_first {A : Type} (xs : list A) (k : A -> list triple)
  (g : Graph) : Graph :=
  match first xs with
  | Ok x => add_all (k x) g
  | Raise _ => g
  end.

Definition title_triples (title : string) : list triple :=
  [ (doc_uri, dc "title", lit_en title);
    (doc_uri, dcterms "title", lit_en title) ].

Definition author_triples (author : string) : list triple :=
  let author_uri := ex "QingImperialCourt" in
  [ (author_uri, rdf "type", foaf "Organization");
    (author_uri, foaf "name", lit_en author);
    (doc_uri, dc "creator", author_uri);
    (doc_uri, dcterms "creator", author_uri) ].

Definition date_triples (date_str : string) : list triple :=
  [ (doc_uri, dc "date", lit_typed date_str XSD_date);
    (doc_uri, dcterms "created", lit_typed date_str XSD_date);
    (doc_uri, schema "dateCreated", lit_typed date_str XSD_date) ].

Definition pub_place_triples (pub_place : string) : list triple :=
  let place_uri := ex "Beijing" in
  [ (place_uri, rdf "type", schema "Place");
    (place_uri, foaf "name", lit_en pub_place);
    (doc_uri, schema "locationCreated", place_uri) ].

Definition source_desc_triples (source_desc : string) : list triple :=
  [ (doc_uri, dc "description", lit_en source_desc);
    (doc_uri, dcterms "description", lit_en source_desc) ].

(** Lines 51 to 90: five [try] blocks, one for each field of the header. *)
Definition add_metadata (root : node) (g : Graph) : Graph :=
  let g := try_first (q_title root) title_triples g in
  let g := try_first (q_author root) author_triples g in
  let g := try_first (q_date_when root) date_triples g in
  let g := try_first (q_pubPlace root) pub_place_triples g in
  try_first (q_sourceDesc root) source_desc_triples g.

Definition q_keywords (root : node) : list string :=
  xp_texts (fun n => named "keywords" n && with_attr "scheme" "LCSH" n)
           (named "term") root.

Definition keyword_triples (keyword : string) : list triple :=
  [ (doc_uri, dc "subject", lit_en keyword);
    (doc_uri, dcterms "subject", lit_en keyword) ].

Definition add_keywords (root : node) (g : Graph) : Graph :=
  fold_left (fun g keyword => add_all (keyword_triples keyword) g)
            (q_keywords root) g.

(** The name of an entity under three predicates. *)
Definition name_triples (uri : term) (name : string) : list triple :=
  [ (uri, foaf "name", lit_en name);
    (uri, rdfs "label", lit_en name);
    (uri, schema "name", lit_en name) ].

Definition note_triples (uri : term) (note : string) : list triple :=
  [ (uri, rdfs "comment", lit_en note);
    (uri, schema "description", lit_en note) ].

Definition mention_triples (uri : term) : list triple :=
  [ (doc_uri, schema "mentions", uri);
    (doc_uri, crm "P67_refers_to", uri) ].

Definition person_type_triples (person_uri : term) : list triple :=
  [ (person_uri, rdf "type", foaf "Person");
    (person_uri, rdf "type", schema "Person");
    (person_uri, rdf "type", crm "E21_Person") ].

Definition add_person (g : Graph) (person : node) : Graph :=
  let person_uri := ex_id person in
  let g := add_all (person_type_triples person_uri) g in
  let g := try_first (child_texts (named "persName") person)
                     (name_triples person_uri) g in
  let g := try_first (child_texts (named "note") person)
                     (note_triples person_uri) g in
  add_all (mention_triples person_uri) g.

Definition q_geo (place : node) : list string :=
  grandchild_texts (named "location") (named "geo") place.

Definition latitude_triple (place_uri : term) (flat : pyfloat) : triple :=
  (place_uri, schema "latitude", Literal (VFloat flat) (Some XSD_float) None).

Definition longitude_triple (place_uri : term) (flon : pyfloat) : triple :=
  (place_uri, schema "longitude", Literal (VFloat flon) (Some XSD_float) None).

(** The coordinates: the latitude is added before the longitude is read,
    so a bad longitude leaves the latitude in the graph. *)
Definition add_coordinates (place_uri : term) (place : node) (g : Graph)
  : Graph :=
  match first (q_geo place) with
  | Ok coords =>
      match split_ws EmptyString coords with
      | [lat; lon] =>
          match float_of_str lat with
          | Ok flat =>
              let g := add (latitude_triple place_uri flat) g in
              match float_of_str lon with
              | Ok flon => add (longitude_triple place_uri flon) g
              | Raise _ => g
              end
          | Raise _ => g
          end
      | _ => g
      end
  | Raise _ => g
  end.

Definition place_type_triples (place_uri : term) : list triple :=
  [ (place_uri, rdf "type", schema "Place");
    (place_uri, rdf "type", crm "E53_Place") ].

Definition add_place (g : Graph) (place : node) : Graph :=
  let place_uri := ex_id place in
  let g := add_all (place_type_triples place_uri) g in
  let g := try_first (child_texts (named "placeName") place)
                     (name_triples place_uri) g in
  let g := add_coordinates place_uri place g in
  let g := try_first (child_texts (named "note") place)
                     (note_triples place_uri) g in
  add_all (mention_triples place_uri) g.

Definition org_type_triples (org_uri : term) : list triple :=
  [ (org_uri, rdf "type", foaf "Organization");
    (org_uri, rdf "type", schema "Organization");
    (org_uri, rdf "type", crm "E74_Group") ].

Definition add_org (g : Graph) (org : node) : Graph :=
  let org_uri := ex_id org in
  let g := add_all (org_type_triples org_uri) g in
  let g := try_first (child_texts (named "orgName") org)
                     (name_triples org_uri) g in
  let g := try_first (child_texts (named "note") org)
                     (note_triples org_uri) g in
  add_all (mention_triples org_uri) g.

(** [str(idx)]. *)
Definition str_nat (n : nat) : string := NilZero.string_of_uint (Nat.to_uint n).

(** [enumerate(xs, 1)]. *)
Definition enumerate1 {A : Type} (xs : list A) : list (nat * A) :=
  combine (seq 1 (length xs)) xs.

Definition q_punishments (root : node) : list node :=
  xp_all (fun n => named "div" n && with_attr "type" "punishment" n) root.

Definition pun_num (ip : nat * node) : string :=
  get_default (snd ip) "n" (str_nat (fst ip)).

Definition event_uri (ip : nat * node) : term :=
  ex ("Punishment_" ++ pun_num ip).

Definition event_triples (ip : nat * node) : list triple :=
  let punishment := snd ip in
  let text_parts := map itertext (child_elems (named "p") punishment) in
  let full_text := String.concat " " text_parts in
  [ (event_uri ip, rdf "type", schema "Event");
    (event_uri ip, rdf "type", crm "E5_Event");
    (event_uri ip, rdfs "label", lit_en ("Punishment " ++ pun_num ip));
    (event_uri ip, schema "description", lit_en (substring 0 500 full_text));
    (doc_uri, schema "about", event_uri ip);
    (event_uri ip, schema "isPartOf", doc_uri) ].

Definition participant_triples (ip : nat * node) (ref : string) : list triple :=
  let person_uri := ex (replace "#" "" ref) in
  [ (event_uri ip, schema "actor", person_uri);
    (event_uri ip, crm "P11_had_participant", person_uri) ].

Definition add_punishment (g : Graph) (ip : nat * node) : Graph :=
  let g := add_all (event_triples ip) g in
  fold_left (fun g ref => add_all (participant_triples ip ref) g)
            (desc_attrs (named "persName") "ref" (snd ip)) g.

Definition boxer_event_uri : term := ex "BoxerRebellion".
Definition boxers_uri : term := ex "boxers".
Definition protocol_uri : term := ex "BoxerProtocol".

Definition boxer_rebellion_triples : list triple :=
  [ (boxer_event_uri, rdf "type", schema "Event");
    (boxer_event_uri, rdf "type", crm "E5_Event");
    (boxer_event_uri, rdfs "label", lit_en "Boxer Rebellion");
    (boxer_event_uri, schema "startDate", lit_typed "1899" XSD_gYear);
    (boxer_event_uri, schema "endDate", lit_typed "1901" XSD_gYear);
    (doc_uri, schema "about", boxer_event_uri) ].

Definition organizer_triple : triple :=
  (boxer_event_uri, schema "organizer", boxers_uri).

(** Lines 248 to 250: the organizer is linked when the graph holds a
    triple about the Boxers. *)
Definition link_boxers (g : Graph) : Graph :=
  if has_subject boxers_uri g then add organizer_triple g else g.

Definition protocol_triples : list triple :=
  [ (protocol_uri, rdf "type", schema "HistoricalDocument");
    (protocol_uri, rdfs "label", lit_en "Boxer Protocol");
    (protocol_uri, schema "dateCreated", lit_typed "1901-09-07" XSD_date);
    (doc_uri, dcterms "relation", protocol_uri);
    (doc_uri, schema "relatedLink", protocol_uri) ].

Definition doc_type_triples : list triple :=
  [ (doc_uri, rdf "type", schema "HistoricalDocument");
    (doc_uri, rdf "type", foaf "Document");
    (doc_uri, rdf "type", crm "E31_Document") ].

Definition language_triples : list triple :=
  [ (doc_uri, dc "language", lit "en");
    (doc_uri, dcterms "language", lit "eng") ].

(** The steps of the build phase that come before line 248. *)
Definition build_entities (root : node) (g : Graph) : Graph :=
  let g := add_all doc_type_triples g in
  let g := add_metadata root g in
  let g := add_all language_triples g in
  let g := add_keywords root g in
  let g := fold_left add_person (q_persons root) g in
  let g := fold_left add_place (q_places root) g in
  let g := fold_left add_org (q_orgs root) g in
  let g := fold_left add_punishment (enumerate1 (q_punishments root)) g in
  add_all boxer_rebellion_triples g.

(** The build phase, continued from the graph [g]. *)
Definition build_from (root : node) (g : Graph) : Graph :=
  add_all protocol_triples (link_boxers (build_entities root g)).

(** The build phase: lines 17 to 258, on the parsed document. *)
Definition build (root : node) : Graph := build_from root [].

Variable writable : string -> bool.

(** Lines 260 to 270: the two serializations, neither in a [try]. *)
Definition tei_to_rdf (root : node) (output_file : string) (w : world)
  : result Graph * world :=
  let g := build root in
  match serialize writable g output_file Turtle (disk w) with
  | Raise e => (Raise e, w)
  | Ok d =>
      let o := (stdout w ++ [Generated output_file;
                             TotalTriples (length g)])%list in
      let xml_output := replace ".ttl" ".rdf" output_file in
      match serialize writable g xml_output Xml d with
      | Raise e => (Raise e, {| stdout := o; disk := d |})
      | Ok d' =>
          (Ok g, {| stdout := (o ++ [GeneratedXml xml_output])%list;
                    disk := d' |})
      end
  end.

End Builder.

End TeiToRdf.

(** ** [xml_to_html.py] *)

Module XmlToHtml.
Import Py Xml.

Definition nl : string := String "010" EmptyString.

(** A text between double quotes. *)
Definition q (s : string) : string :=
  String "034" EmptyString ++ s ++ String "034" EmptyString.

(** The lines of a text, each ended by a line feed. *)
Definition lines (ls : list string) : string :=
  String.concat EmptyString (map (fun l => l ++ nl) ls).

Inductive message : Type :=
| GeneratedHtml (output_file : string).

(** The files on disk: the path and the text written in it. *)
Record world : Type := {
  stdout : list message;
  disk : list (string * string)
}.

Definition span (cls title body : string) : string :=
  "<span class=" ++ q cls ++ " title=" ++ q title ++ ">" ++ body ++ "</span>".

(** One child of an element, as [process_element_text] renders it, with
    the text after it. *)
Definition render_child (child : node) : string :=
  (if tag_is child (tei "persName") then
     span "person"
          ("Person ID: " ++ replace "#" "" (get_default child "ref" ""))
          (or_empty (text child))
   else if tag_is child (tei "placeName") then
     span "place"
          ("Place ID: " ++ replace "#" "" (get_default child "ref" ""))
          (or_empty (text child))
   else if tag_is child (tei "orgName") then
     span "org"
          ("Organization ID: " ++ replace "#" "" (get_default child "ref" ""))
          (or_empty (text child))
   else if tag_is child (tei "date") then
     "<span class=" ++ q "date" ++ " title=" ++ q (get_default child "when" "")
     ++ ">" ++ or_empty (text child) ++ "</span>"
   else or_empty (text child))
  ++ or_empty (tail child).

Definition process_element_text (element : node) : string :=
  fold_left (fun result child => result ++ render_child child)
            (children element) (or_empty (text element)).

Definition paragraph (para : node) : string :=
  "<p class=" ++ q "paragraph" ++ ">" ++ process_element_text para ++ "</p>"
  ++ nl.

Definition paragraphs (e : node) : string :=
  String.concat EmptyString (map paragraph (child_elems (named "p") e)).

Definition render_punishment (punishment : node) : string :=
  let pun_num := get_default punishment "n" "" in
  "<div class=" ++ q "punishment-box" ++ ">" ++ nl
  ++ "<div class=" ++ q "punishment-number" ++ ">Punishment " ++ pun_num
  ++ "</div>" ++ nl
  ++ paragraphs punishment
  ++ "</div>" ++ nl.

Definition section_title (t : string) : string :=
  "<h2 class=" ++ q "section-title" ++ ">" ++ t ++ "</h2>" ++ nl.

Definition render_section (div : node) : string :=
  let section_num := get_default div "n" "" in
  "<div class=" ++ q "section" ++ ">" ++ nl
  ++ match child_elems (named "head") div with
     | head :: _ => section_title (process_element_text head)
     | [] =>
         if is_empty section_num then EmptyString
         else section_title ("Section " ++ section_num)
     end
  ++ paragraphs div
  ++ String.concat EmptyString
       (map render_punishment
            (child_elems (fun n => named "div" n
                                   && with_attr "type" "punishment" n) div))
  ++ "</div>" ++ nl.

Definition render_conclusion (body : node) : string :=
  match desc_elems (fun n => named "div" n && with_attr "type" "conclusion" n)
                   body with
  | conclusion_div :: _ =>
      "<div class=" ++ q "conclusion" ++ ">" ++ nl
      ++ paragraphs conclusion_div ++ "</div>" ++ nl
  | [] => EmptyString
  end.

(** One entry of an index: the name is [names[0]], unguarded. *)
Definition index_entry (name_tag : string) (e : node) : result string :=
  name <- first (child_texts (named name_tag) e) ;;
  let note_text :=
    match child_texts (named "note") e with
    | n :: _ => n
    | [] => EmptyString
    end in
  Ok ("<li><span class=" ++ q "name" ++ ">" ++ name ++ "</span>"
      ++ (if is_empty note_text then EmptyString
          else "<span class=" ++ q "note" ++ ">- " ++ note_text ++ "</span>")
      ++ "</li>" ++ nl).

Fixpoint index_entries (name_tag : string) (es : list node) : result string :=
  match es with
  | [] => Ok EmptyString
  | e :: es' =>
      x <- index_entry name_tag e ;;
      xs <- index_entries name_tag es' ;;
      Ok (x ++ xs)
  end.

Definition render_index (heading name_tag : string) (es : list node)
  : result string :=
  match es with
  | [] => Ok EmptyString
  | _ =>
      items <- index_entries name_tag es ;;
      Ok ("<h3>" ++ heading ++ "</h3>" ++ nl
          ++ "<ul class=" ++ q "index-list" ++ ">" ++ nl
          ++ items ++ "</ul>" ++ nl)
  end.

Section Page.

(** The rules between [<style>] and [</style>], lines 32 to 220 of the
    template, with their line feeds. *)
Variable style_rules : string.

Definition page_head (title author date pub_place : string) : string :=
  lines [ "<!DOCTYPE html>";
          "<html lang=" ++ q "en" ++ ">";
          "<head>";
          "    <meta charset=" ++ q "UTF-8" ++ ">";
          "    <meta name=" ++ q "viewport" ++ " content="
            ++ q "width=device-width, initial-scale=1.0" ++ ">";
          "    <title>" ++ title ++ "</title>";
          "    <style>" ]
  ++ style_rules
  ++ lines [ "    </style>";
             "</head>";
             "<body>";
             "    <div class=" ++ q "container" ++ ">";
             "        <div class=" ++ q "header" ++ ">";
             "            <h1>" ++ title ++ "</h1>";
             "            <div class=" ++ q "metadata" ++ ">";
             "                <p><strong>Author:</strong> " ++ author ++ "</p>";
             "                <p><strong>Date:</strong> " ++ date ++ "</p>";
             "                <p><strong>Place:</strong> " ++ pub_place
               ++ "</p>";
             "            </div>";
             "        </div>";
             "        ";
             "        <div class=" ++ q "content" ++ ">" ].

Definition page_foot : string :=
  lines [ ""; "        </div>"; "    </div>"; "</body>"; "</html>" ].

(** The text of the page: every [xs[0]] outside a test raises
    [IndexError] on an empty result. *)
Definition html_content (root : node) : result string :=
  title <- first (q_title root) ;;
  author <- first (q_author root) ;;
  date <- first (q_date_when root) ;;
  pub_place <- first (q_pubPlace root) ;;
  body <- first (xp_elems (named "text") (named "body") root) ;;
  let sections :=
    String.concat EmptyString
      (map render_section
           (desc_elems (fun n => named "div" n
                                 && with_attr "type" "section" n) body)) in
  persons <- render_index "Index of Persons" "persName" (q_persons root) ;;
  places <- render_index "Index of Places" "placeName" (q_places root) ;;
  orgs <- render_index "Index of Organizations" "orgName" (q_orgs root) ;;
  Ok (page_head title author date pub_place
      ++ sections
      ++ render_conclusion body
      ++ "<div class=" ++ q "index" ++ ">" ++ nl
      ++ persons ++ places ++ orgs
      ++ "</div>" ++ nl
      ++ page_foot).

(** Whether a path can be opened for writing. *)
Variable writable : string -> bool.

(** The file is written once the whole text is built. *)
Definition tei_to_html (root : node) (output_file : string) (w : world)
  : result unit * world :=
  match html_content root with
  | Raise e => (Raise e, w)
  | Ok text =>
      if writable output_file then
        (Ok tt, {| stdout := (stdout w ++ [GeneratedHtml output_file])%list;
                   disk := (output_file, text) :: disk w |})
      else (Raise OSError, w)
  end.

End Page.

End XmlToHtml.

(** ** The wording of the specification

    Definitions that follow the words of the specification, to be
    compared with the functions of the scripts. *)

Module Spec.
Import Py Rdf CsvToRdf.

(** The literal-indicator substrings: the temporal markers, the unit
    markers and the descriptive-phrase markers. *)
Definition literal_indicators : list string :=
  (date_indicators ++ measurement_units ++ descriptive_phrases)%list.

(** The lower-cased text contains a literal-indicator substring. *)
Definition matches_indicator (v : value) : bool :=
  any_in literal_indicators (lower (str v)).

(** The URI-safe set: word characters, hyphen, underscore, period. *)
Definition uri_safe (c : ascii) : bool :=
  is_word c || Ascii.eqb c "-" || Ascii.eqb c "_" || Ascii.eqb c ".".

Fixpoint map_chars (f : ascii -> string) (s : string) : string :=
  match s with
  | EmptyString => EmptyString
  | String c r => f c ++ map_chars f r
  end.

(** Sanitizing as the specification words it: strip parentheses and
    commas, replace whitespace with underscores, strip every remaining
    character outside the URI-safe set. *)
Definition sanitize_spec (text : string) : string :=
  let text := re_sub_del is_paren_or_comma text in
  let text := map_chars (fun c => if isspace c then "_"
                                  else String c EmptyString) text in
  re_sub_del (fun c => negb (uri_safe c)) text.

(** Sanitizing in one pass over the text: a parenthesis or a comma is
    dropped, a space (U+0020) becomes an underscore, a character of the
    URI-safe set is kept and any other character is dropped. *)
Definition sanitize (text : string) : string :=
  map_chars (fun c => if is_paren_or_comma c then EmptyString
                      else if Ascii.eqb c " " then "_"
                      else if uri_safe c then String c EmptyString
                      else EmptyString) text.

(** The literal a numeric value is given: the datatype follows the type
    of the cell; text keeps its words without a datatype, and so does the
    text of an integer or a boolean of [numpy]. *)
Definition numeric_literal (v : value) : term :=
  match v with
  | VStr s => Literal (VStr s) None None
  | VInt _ | VBool _ => Literal v (Some XSD_integer) None
  | VFloat _ => Literal v (Some XSD_float) None
  | VNpInt _ | VNpBool _ => Literal (VStr (str v)) None None
  end.

(** A literal with the integer or the float datatype. *)
Definition has_numeric_datatype (t : term) : bool :=
  match t with
  | Literal _ (Some XSD_integer) _ | Literal _ (Some XSD_float) _ => true
  | _ => false
  end.

End Spec.

(** ** The triples a build hands to the graph

    For each builder, the list of the triples it adds, in order, written
    without a graph: what [add] receives when nothing is read back. *)

Module Emitted.
Import Py Rdf Xml.

Section Tabular.
Import CsvToRdf.

Variable defines : vocabulary -> string -> bool.
Variable refusal : vocabulary -> string -> exn.
Variable read_csv : string -> result DataFrame.

(** The rows of a table with the outcome of each. *)
Definition row_results (df : DataFrame) : list (nat * result triple) :=
  map (fun ir => (fst ir, row_triple defines refusal df (snd ir)))
      (iterrows df).

Definition successes (rs : list (nat * result triple)) : list triple :=
  flat_map (fun r => match snd r with Ok t => [t] | Raise _ => [] end) rs.

Definition warnings (rs : list (nat * result triple)) : list message :=
  flat_map (fun r => match snd r with
                     | Ok _ => []
                     | Raise e => [RowWarning (fst r) e]
                     end) rs.

(** The triples of one file: none when it cannot be read or lacks a
    required column. *)
Definition source_triples (csv_file : string) : list triple :=
  match read_csv csv_file with
  | Ok df =>
      if has_required_columns df then successes (row_results df) else []
  | Raise _ => []
  end.

(** What one file prints. *)
Definition source_out (csv_file : string) : list message :=
  Processing csv_file ::
  match read_csv csv_file with
  | Ok df =>
      if has_required_columns df then
        (warnings (row_results df)
         ++ [Added (length (successes (row_results df)))])%list
      else [MissingColumns csv_file]
  | Raise e => [ReadError csv_file e]
  end.

Definition batch_triples (csv_files : list string) : list triple :=
  flat_map source_triples csv_files.

End Tabular.

Section Document.
Import TeiToRdf.

Variable base_uri : string.

(** The triples of a [try] block around [xs[0]]. *)
Definition try_triples {A : Type} (xs : list A) (k : A -> list triple)
  : list triple :=
  match xs with
  | x :: _ => k x
  | [] => []
  end.

Definition metadata_triples (root : node) : list triple :=
  (try_triples (q_title root) (title_triples base_uri)
   ++ try_triples (q_author root) (author_triples base_uri)
   ++ try_triples (q_date_when root) (date_triples base_uri)
   ++ try_triples (q_pubPlace root) (pub_place_triples base_uri)
   ++ try_triples (q_sourceDesc root) (source_desc_triples base_uri))%list.

Definition person_triples (person : node) : list triple :=
  let person_uri := ex_id base_uri person in
  (person_type_triples person_uri
   ++ try_triples (child_texts (named "persName") person)
                  (name_triples person_uri)
   ++ try_triples (child_texts (named "note") person)
                  (note_triples person_uri)
   ++ mention_triples base_uri person_uri)%list.

Definition coordinate_triples (place_uri : term) (place : node)
  : list triple :=
  match q_geo place with
  | coords :: _ =>
      match split_ws EmptyString coords with
      | [lat; lon] =>
          match float_of_str lat with
          | Ok flat =>
              latitude_triple place_uri flat ::
              match float_of_str lon with
              | Ok flon => [longitude_triple place_uri flon]
              | Raise _ => []
              end
          | Raise _ => []
          end
      | _ => []
      end
  | [] => []
  end.

Definition place_triples (place : node) : list triple :=
  let place_uri := ex_id base_uri place in
  (place_type_triples place_uri
   ++ try_triples (child_texts (named "placeName") place)
                  (name_triples place_uri)
   ++ coordinate_triples place_uri place
   ++ try_triples (child_texts (named "note") place)
                  (note_triples place_uri)
   ++ mention_triples base_uri place_uri)%list.

Definition org_triples (org : node) : list triple :=
  let org_uri := ex_id base_uri org in
  (org_type_triples org_uri
   ++ try_triples (child_texts (named "orgName") org) (name_triples org_uri)
   ++ try_triples (child_texts (named "note") org) (note_triples org_uri)
   ++ mention_triples base_uri org_uri)%list.

Definition punishment_triples (ip : nat * node) : list triple :=
  (event_triples base_uri ip
   ++ flat_map (participant_triples base_uri ip)
               (desc_attrs (named "persName") "ref" (snd ip)))%list.

(** The triples added before line 248. *)
Definition entity_triples (root : node) : list triple :=
  (doc_type_triples base_uri
   ++ metadata_triples root
   ++ language_triples base_uri
   ++ flat_map (keyword_triples base_uri) (q_keywords root)
   ++ flat_map person_triples (q_persons root)
   ++ flat_map place_triples (q_places root)
   ++ flat_map org_triples (q_orgs root)
   ++ flat_map punishment_triples (enumerate1 (q_punishments root))
   ++ boxer_rebellion_triples base_uri)%list.

End Document.

End Emitted.

(** ** Sample inputs *)

Module Examples.
Import Py Rdf CsvToRdf.

(** A vocabulary table in which [dcterms] defines [creator] and nothing
    else is defined. *)
Definition creator_only (v : vocabulary) (name : string) : bool :=
  match v with
  | DCTERMS => String.eqb name "creator"
  | _ => false
  end.

(** Vocabularies that raise [AttributeError] for every name they do not
    give. *)
Definition attribute_errors (v : vocabulary) (name : string) : exn :=
  AttributeError.

(** A table of three rows; the predicate of the second row is not a term
    of the vocabulary [rdf]. *)
Definition throne_frame : DataFrame :=
  {| columns := ["Subject"; "Property"; "Object"];
     rows := [ [VStr "Throne"; VStr "dcterms:creator"; VStr "Qing Workshop"];
               [VStr "Throne"; VStr "rdf:foo"; VStr "x"];
               [VStr "Throne"; VStr "ex:height"; VStr "85 cm"] ] |}.

(** A table without the column [Object]. *)
Definition no_object_frame : DataFrame :=
  {| columns := ["Subject"; "Property"];
     rows := [ [VStr "Throne"; VStr "dcterms:creator"] ] |}.

(** A directory with the two tables; any other file is missing. *)
Definition sample_read_csv (path : string) : result DataFrame :=
  if String.eqb path "throne.csv" then Ok throne_frame
  else if String.eqb path "no_object.csv" then Ok no_object_frame
  else Raise OSError.

Definition empty_state : state :=
  {| graph := []; out := []; total_triples := 0 |}.

(** A disk on which every path but the Turtle file of [main] can be
    written, and one on which every path but its RDF/XML file can. *)
Definition turtle_locked (path : string) : bool :=
  negb (String.eqb path "lodlam_dataset.ttl").

Definition xml_locked (path : string) : bool :=
  negb (String.eqb path "lodlam_dataset.rdf").

Definition empty_world : world := {| stdout := []; disk := [] |}.

(** The default [base_uri] of [tei_to_rdf]. *)
Definition boxer_base : string := "http://example.org/boxer_protocol/".

(** A document with a root element and nothing else. *)
Definition bare_document : Xml.node :=
  Xml.Node (Some (Xml.tei "TEI")) [] None [] None.

Definition no_page : XmlToHtml.world :=
  {| XmlToHtml.stdout := []; XmlToHtml.disk := [] |}.

Definition any_path (path : string) : bool := true.

(** A graph that holds one triple about the Boxers. *)
Definition boxers_graph : Graph :=
  [ (TeiToRdf.boxers_uri boxer_base, TeiToRdf.rdf "type",
     TeiToRdf.foaf "Organization") ].

End Examples.

(** ** The report of [generate_statistics] *)

Module Reports.
Import Py Rdf.

Definition subject (t : triple) : term := fst (fst t).
Definition predicate (t : triple) : term := snd (fst t).
Definition object (t : triple) : term := snd t.

(** [str(term)]. *)
Definition term_str (t : term) : string :=
  match t with
  | URIRef iri => iri
  | Literal v _ _ => str v
  end.

(** [s.split(sep)[-1]]: the text after the last separator; [acc] is the
    segment being read. *)
Fixpoint last_segment_from (acc : string) (sep : ascii) (s : string) : string :=
  match s with
  | EmptyString => acc
  | String c r =>
      if Ascii.eqb c sep then last_segment_from EmptyString sep r
      else last_segment_from (acc ++ String c EmptyString) sep r
  end.

Definition last_segment (sep : ascii) (s : string) : string :=
  last_segment_from EmptyString sep s.

(** [pred.split('/')[-1].split('#')[-1]]. *)
Definition local_name (pred : string) : string :=
  last_segment "#" (last_segment "/" pred).

(** [len(set(xs))]. *)
Definition count_distinct (xs : list term) : nat :=
  length (nodup term_eq_dec xs).

(** [d[key] = d.get(key, 0) + 1] on a dictionary written as its list of
    items. *)
Fixpoint increment (key : string) (d : list (string * nat))
  : list (string * nat) :=
  match d with
  | [] => [(key, 1)]
  | (k, n) :: d' =>
      if String.eqb key k then (k, S n) :: d'
      else (k, n) :: increment key d'
  end.

(** The dictionary [predicate_counts] of [generate_statistics]; its items
    come in the order in which the graph is iterated. *)
Definition predicate_counts (g : Graph) : list (string * nat) :=
  fold_left (fun d t => increment (term_str (predicate t)) d) g [].

(** The four numbers [generate_statistics] prints first. *)
Record statistics : Type := {
  total_triples : nat;
  unique_subjects : nat;
  unique_predicates : nat;
  unique_objects : nat
}.

Definition generate_statistics (g : Graph) : statistics :=
  {| total_triples := length g;
     unique_subjects := count_distinct (map subject g);
     unique_predicates := count_distinct (map predicate g);
     unique_objects := count_distinct (map object g) |}.

(** The subject and the predicate of a triple are references. *)
Definition references (t : triple) : Prop :=
  is_reference (subject t) = true /\ is_reference (predicate t) = true.

(** A message [Processing]. *)
Definition is_processing (m : CsvToRdf.message) : bool :=
  match m with
  | CsvToRdf.Processing _ => true
  | _ => false
  end.

(** A warning about a row. *)
Definition is_row_warning (m : CsvToRdf.message) : bool :=
  match m with
  | CsvToRdf.RowWarning _ _ => true
  | _ => false
  end.

End Reports.

(** ** Notions about a document *)

Module Notions.
Import Py Xml.

(** A person, a place or an organization of the back matter has the
    identifier [boxers]. *)
Definition named_boxers (root : node) : Prop :=
  exists e : node,
    In e (q_persons root ++ q_places root ++ q_orgs root)%list
    /\ get e XML_ID = Some "boxers".

(** The text of the paragraphs of a punishment, joined by spaces. *)
Definition punishment_text (punishment : node) : string :=
  String.concat " " (map itertext (child_elems (named "p") punishment)).

(** An element cut below its children: each child keeps its tag, its
    attributes, its text and its tail, and loses its own children. *)
Definition leaf (c : node) : node :=
  Node (tag c) (attrib c) (text c) [] (tail c).

Definition shallow (e : node) : node :=
  Node (tag e) (attrib e) (text e) (map leaf (children e)) (tail e).

(** A child [process_element_text] gives no markup: none of [persName],
    [placeName], [orgName] and [date]. *)
Definition unmarked (c : node) : bool :=
  negb (named "persName" c || named "placeName" c || named "orgName" c
        || named "date" c).

(** An element that is not marked and has no children of its own. *)
Definition plain (c : node) : bool :=
  is_element c && unmarked c
  && match children c with [] => true | _ :: _ => false end.

(** The text of a term that is the predicate of a triple. *)
Definition predicate_text (t : Rdf.triple) : string :=
  Reports.term_str (Reports.predicate t).

(** The number of triples of a graph whose predicate has the text
    [key]. *)
Definition uses (key : string) (g : Rdf.Graph) : nat :=
  length (filter (fun t => String.eqb key (predicate_text t)) g).

(** The sum of the counts of a dictionary. *)
Definition total (d : list (string * nat)) : nat :=
  list_sum (map snd d).

(** A namespace separator. *)
Definition is_separator (c : ascii) : bool :=
  Ascii.eqb c "/" || Ascii.eqb c "#".

End Notions.

(** ** More sample inputs *)

Module Samples.
Import Py Rdf Xml.

(** A vocabulary table that gives the terms the predicates of
    [Examples.throne_frame] ask for: [creator] of [dcterms] and [foo] of
    [rdf]. *)
Definition throne_terms (v : vocabulary) (name : string) : bool :=
  match v with
  | DCTERMS => String.eqb name "creator"
  | RDF => String.eqb name "foo"
  | _ => false
  end.

(** Vocabularies that raise [KeyError] for the name [_NS], [IndexError]
    for the empty name and [AttributeError] for any other name they do
    not give. *)
Definition refusal_by_name (v : vocabulary) (name : string) : exn :=
  if String.eqb name "_NS" then KeyError
  else if is_empty name then IndexError
  else AttributeError.

(** The triple of the first row of [Examples.throne_frame]. *)
Definition throne_creator : triple :=
  (URIRef "http://example.org/lodlam/Throne",
   URIRef "http://purl.org/dc/terms/creator",
   URIRef "http://example.org/lodlam/Qing_Workshop").

(** A place whose coordinates have a good latitude and a bad longitude. *)
Definition half_located : node :=
  Node (Some (tei "place")) [(XML_ID, "bj")] None
    [ Node (Some (tei "location")) [] None
        [ Node (Some (tei "geo")) [] (Some "39.9 east") [] None ] None ] None.

Definition located_document : node :=
  Node (Some (tei "TEI")) [] None
    [ Node (Some (tei "listPlace")) [] None [half_located] None ] None.

(** A person with the identifier [boxers]. *)
Definition boxers_person : node :=
  Node (Some (tei "person")) [(XML_ID, "boxers")] None [] None.

Definition boxers_person_document : node :=
  Node (Some (tei "TEI")) [] None
    [ Node (Some (tei "listPerson")) [] None [boxers_person] None ] None.



Definition beijing_latitude : pyfloat :=
  Ffin (Decimal (Pos (D3 (D9 Nil))) (D9 Nil)).


(** A punishment of one short paragraph. *)
Definition exile : node :=
  Node (Some (tei "div")) [("type", "punishment"); ("n", "1")] None
    [ Node (Some (tei "p")) [] (Some "Exile to Turkestan.") [] None ] None.

Definition exile_document : node :=
  Node (Some (tei "TEI")) [] None [exile] None.

Definition no_files : TeiToRdf.world :=
  {| TeiToRdf.stdout := []; TeiToRdf.disk := [] |}.

(** A document with the four header fields and an empty body. *)
Definition minimal_page : node :=
  Node (Some (tei "TEI")) [] None
    [ Node (Some (tei "teiHeader")) [] None
        [ Node (Some (tei "titleStmt")) [] None
            [ Node (Some (tei "title")) [] (Some "Boxer Protocol") [] None;
              Node (Some (tei "author")) [] (Some "Eleven Powers") [] None ] None;
          Node (Some (tei "publicationStmt")) [] None
            [ Node (Some (tei "date")) [("when", "1901-09-07")] None [] None;
              Node (Some (tei "pubPlace")) [] (Some "Peking") [] None ] None ] None;
      Node (Some (tei "text")) [] None [ Node (Some (tei "body")) [] None [] None ] None ]
    None.

(** A paragraph whose emphasis holds a name. *)
Definition nested_paragraph : node :=
  Node (Some (tei "p")) [] (Some "Signed by ")
    [ Node (Some (tei "hi")) [] None
        [ Node (Some (tei "persName")) [("ref", "#li")] (Some "Li Hongzhang") []
            None ] (Some " in Peking.") ] None.

(** A paragraph that holds a comment. *)
Definition commented_paragraph : node :=
  Node (Some (tei "p")) [] (Some "Hello ")
    [ Node None [] (Some " secret ") [] (Some " world") ] None.

(** A paragraph with a plain emphasis. *)
Definition plain_paragraph : node :=
  Node (Some (tei "p")) [] (Some "Signed ")
    [ Node (Some (tei "hi")) [] (Some "today") [] (Some " in Peking.") ] None.

End Samples.

(** * Properties *)

(** ** Facts about the built-ins *)

Module PyFacts.
Import Py.

Ltac each_char c := destruct c as [[] [] [] [] [] [] [] []].

Lemma isupper_not_isspace (c : ascii) : isupper c = true -> isspace c = false.
Proof. each_char c; vm_compute; congruence. Qed.

Lemma lstrip_keeps (c : ascii) (r : string) :
  isspace c = false -> lstrip (String c r) = String c r.
Proof. intros H. simpl. now rewrite H. Qed.

Lemma rstrip_keeps (c : ascii) (r : string) :
  isspace c = false -> rstrip (String c r) = String c (rstrip r).
Proof. intros H. simpl. rewrite H. now destruct (rstrip r). Qed.

Lemma strip_keeps (c : ascii) (r : string) :
  isspace c = false -> strip (String c r) = String c (rstrip r).
Proof.
  intros H. unfold strip. rewrite lstrip_keeps by exact H.
  now apply rstrip_keeps.
Qed.

(** A prefix without blanks survives [rstrip]. *)
Lemma startswith_rstrip (p s : string) :
  forallb (fun c => negb (isspace c)) (chars p) = true ->
  startswith p s = true -> startswith p (rstrip s) = true.
Proof.
  revert s. induction p as [|a p IH]; intros s Hp Hs.
  - reflexivity.
  - destruct s as [|b s]; [discriminate|].
    simpl in Hp, Hs. apply andb_prop in Hp as [Ha Hp].
    apply andb_prop in Hs as [Hab Hs].
    apply Ascii.eqb_eq in Hab. subst b.
    rewrite rstrip_keeps by now apply negb_true_iff.
    simpl. rewrite Ascii.eqb_refl. simpl. now apply IH.
Qed.

Lemma startswith_strip (a : ascii) (p s : string) :
  forallb (fun c => negb (isspace c)) (chars (String a p)) = true ->
  startswith (String a p) s = true -> startswith (String a p) (strip s) = true.
Proof.
  intros Hp Hs. unfold strip.
  destruct s as [|b s]; [discriminate|].
  assert (Hb : isspace b = false).
  { simpl in Hp, Hs. apply andb_prop in Hp as [Ha _].
    apply andb_prop in Hs as [Hab _]. apply Ascii.eqb_eq in Hab. subst b.
    now apply negb_true_iff. }
  rewrite lstrip_keeps by exact Hb. now apply startswith_rstrip.
Qed.

Lemma lstrip_chars (s : string) (c : ascii) :
  In c (chars (lstrip s)) -> In c (chars s).
Proof.
  induction s as [|b s IH]; simpl; [tauto|].
  destruct (isspace b); simpl; tauto.
Qed.

Lemma rstrip_chars (s : string) (c : ascii) :
  In c (chars (rstrip s)) -> In c (chars s).
Proof.
  induction s as [|b s IH]; simpl; [tauto|].
  destruct (rstrip s) as [|d r].
  - destruct (isspace b); simpl; tauto.
  - simpl in *. tauto.
Qed.

Lemma strip_chars (s : string) (c : ascii) :
  In c (chars (strip s)) -> In c (chars s).
Proof. intros H. now apply lstrip_chars, rstrip_chars. Qed.

Lemma startswith_head (a : ascii) (p s : string) :
  startswith (String a p) s = true -> In a (chars s).
Proof.
  destruct s as [|b s]; simpl; [discriminate|].
  intros H. apply andb_prop in H as [H _]. apply Ascii.eqb_eq in H. now left.
Qed.

(** A text without the letter h does not start with [http], stripped or
    not. *)
Lemma no_h_not_http (s : string) :
  ~ In "h"%char (chars s) -> startswith "http" (strip s) = false.
Proof.
  intros H. destruct (startswith "http" (strip s)) eqn:E; [|reflexivity].
  exfalso. apply H. eapply strip_chars, startswith_head, E.
Qed.

Lemma chars_app (a b : string) : chars (a ++ b) = (chars a ++ chars b)%list.
Proof. induction a as [|c a IH]; simpl; [reflexivity | now rewrite IH]. Qed.

(** *** The characters of a text that [float] accepts *)

Lemma span_digits_spec (s d t : string) :
  span_digits s = (d, t) ->
  s = d ++ t /\ forallb isdigit09 (chars d) = true.
Proof.
  revert d t. induction s as [|c s IH]; simpl; intros d t H.
  - inversion H. now split.
  - destruct (isdigit09 c) eqn:Hc.
    + destruct (span_digits s) as [d' t'] eqn:E. inversion H. subst.
      destruct (IH d' t eq_refl) as [-> Hd]. simpl. now rewrite Hc.
    + inversion H. now split.
Qed.

Lemma digits_float_text (d : string) :
  forallb isdigit09 (chars d) = true -> float_text_ok d.
Proof.
  unfold float_text_ok. induction d as [|c d IH]; simpl; [reflexivity|].
  intros H. apply andb_prop in H as [Hc Hd]. rewrite (IH Hd), andb_true_r.
  unfold float_char. now rewrite Hc.
Qed.

Lemma float_text_app (a b : string) :
  float_text_ok a -> float_text_ok b -> float_text_ok (a ++ b).
Proof.
  unfold float_text_ok. intros Ha Hb. rewrite chars_app, forallb_app.
  now rewrite Ha, Hb.
Qed.

Lemma span_digits_float_text (s d t : string) :
  span_digits s = (d, t) -> float_text_ok t -> float_text_ok s.
Proof.
  intros H Ht. destruct (span_digits_spec _ _ _ H) as [-> Hd].
  apply float_text_app; [now apply digits_float_text | exact Ht].
Qed.

Lemma skip_sign_float_text (s : string) :
  float_text_ok (skip_sign s) -> float_text_ok s.
Proof.
  destruct s as [|c s]; [trivial|]. unfold float_text_ok. simpl.
  destruct (Ascii.eqb c "+") eqn:E1; simpl.
  - apply Ascii.eqb_eq in E1. subst c. intros ->. reflexivity.
  - destruct (Ascii.eqb c "-") eqn:E2; simpl; [|trivial].
    apply Ascii.eqb_eq in E2. subst c. intros ->. reflexivity.
Qed.

Lemma is_empty_eq (s : string) : is_empty s = true -> s = EmptyString.
Proof. now destruct s. Qed.

Lemma is_exponent_float_text (s : string) :
  is_exponent s = true -> float_text_ok s.
Proof.
  destruct s as [|c r]; [reflexivity|]. simpl. intros H.
  apply andb_prop in H as [Hc H].
  destruct (span_digits (skip_sign r)) as [d t] eqn:E.
  apply andb_prop in H as [_ Ht]. apply is_empty_eq in Ht. subst t.
  assert (Hr : float_text_ok r).
  { apply skip_sign_float_text. eapply span_digits_float_text; [exact E|].
    reflexivity. }
  unfold float_text_ok in *. simpl. rewrite Hr, andb_true_r.
  apply orb_prop in Hc as [Hc|Hc]; apply Ascii.eqb_eq in Hc; now subst c.
Qed.

Lemma c_lower_float_text (t b : string) :
  forallb (fun c => existsb (Ascii.eqb c) (chars "+-._einfinityna"))
          (chars t) = true ->
  String.eqb (c_lower b) t = true -> float_text_ok b.
Proof.
  intros Ht H. apply String.eqb_eq in H. subst t.
  unfold float_text_ok. induction b as [|c b IH]; [reflexivity|].
  change (chars (c_lower (String c b)))
    with (c_tolower c :: chars (c_lower b)) in Ht.
  change (chars (String c b)) with (c :: chars b).
  cbn [forallb] in Ht |- *. apply andb_prop in Ht as [Hc Ht].
  rewrite (IH Ht), andb_true_r. unfold float_char.
  rewrite Hc. now rewrite !orb_true_r.
Qed.

Lemma is_inf_or_nan_float_text (s : string) :
  is_inf_or_nan s = true -> float_text_ok s.
Proof.
  unfold is_inf_or_nan. intros H.
  apply orb_prop in H as [H|H]; [apply orb_prop in H as [H|H]|];
    (eapply c_lower_float_text; [|exact H]); reflexivity.
Qed.

Lemma is_float_literal_float_text (s : string) :
  is_float_literal s = true -> float_text_ok s.
Proof.
  unfold is_float_literal, span_mantissa. intros H.
  apply skip_sign_float_text.
  apply orb_prop in H as [H|H]; [now apply is_inf_or_nan_float_text|].
  destruct (span_digits (skip_sign s)) as [d1 r1] eqn:E1.
  eapply span_digits_float_text; [exact E1|].
  destruct r1 as [|c r].
  - apply andb_prop in H as [_ H]. now apply is_exponent_float_text.
  - destruct (Ascii.eqb c ".") eqn:Ec.
    + apply Ascii.eqb_eq in Ec. subst c.
      destruct (span_digits r) as [d2 r2] eqn:E2.
      apply andb_prop in H as [_ H].
      apply (float_text_app "." r); [reflexivity|].
      eapply span_digits_float_text; [exact E2|].
      now apply is_exponent_float_text.
    + assert (H' : is_exponent (String c r) = true).
      { destruct c as [[] [] [] [] [] [] [] []];
          try discriminate Ec; now apply andb_prop in H as [_ H]. }
      now apply is_exponent_float_text.
Qed.

Lemma c_isspace_float_char (c : ascii) :
  c_isspace c = true -> float_char c = true.
Proof. unfold float_char. intros ->. now rewrite orb_true_r. Qed.

Lemma c_lstrip_float_text (s : string) :
  float_text_ok (c_lstrip s) -> float_text_ok s.
Proof.
  unfold float_text_ok. induction s as [|c s IH]; [trivial|]. simpl.
  destruct (c_isspace c) eqn:Hc; [|trivial].
  intros H. now rewrite (c_isspace_float_char _ Hc), (IH H).
Qed.

Lemma c_rstrip_float_text (s : string) :
  float_text_ok (c_rstrip s) -> float_text_ok s.
Proof.
  unfold float_text_ok. induction s as [|c s IH]; [trivial|]. simpl.
  destruct (c_rstrip s) as [|d r] eqn:E.
  - destruct (c_isspace c) eqn:Hc; simpl; intros H.
    + now rewrite (c_isspace_float_char _ Hc), IH.
    + apply andb_prop in H as [-> _]. now rewrite IH.
  - simpl. intros H. apply andb_prop in H as [-> H]. now rewrite IH.
Qed.

Lemma drop_underscores_float_text (s u : string) (prev : ascii) :
  drop_underscores prev s = Some u -> float_text_ok u -> float_text_ok s.
Proof.
  unfold float_text_ok. revert prev u.
  induction s as [|c s IH]; intros prev u H Hu; [reflexivity|].
  simpl in H. destruct (Ascii.eqb c "000"); [discriminate|].
  destruct (Ascii.eqb c "_") eqn:Ec.
  - apply Ascii.eqb_eq in Ec. subst c.
    destruct (isdigit09 prev); [|discriminate].
    simpl. now apply (IH _ _ H).
  - destruct (Ascii.eqb prev "_" && negb (isdigit09 c)); [discriminate|].
    destruct (drop_underscores c s) as [u'|] eqn:E; [|discriminate].
    inversion H. subst u. simpl in Hu |- *.
    apply andb_prop in Hu as [-> Hu]. now apply (IH _ _ E).
Qed.

Lemma high_blank_float_char (c : ascii) :
  (code c <? 127)%N = false -> isspace c = true -> float_char c = true.
Proof. each_char c; vm_compute; congruence. Qed.

Lemma transform_spaces_float_text (s : string) :
  float_text_ok (transform_spaces s) -> float_text_ok s.
Proof.
  unfold float_text_ok. induction s as [|c s IH]; [trivial|]. simpl.
  destruct (code c <? 127)%N eqn:Hc.
  - simpl. intros H. apply andb_prop in H as [-> H]. now rewrite IH.
  - destruct (isspace c) eqn:Hs.
    + simpl. intros H. now rewrite (high_blank_float_char _ Hc Hs), IH.
    + discriminate.
Qed.

Lemma to_ascii_form_float_text (s : string) :
  float_text_ok (to_ascii_form s) -> float_text_ok s.
Proof.
  unfold to_ascii_form. destruct (is_ascii s); [trivial|].
  apply transform_spaces_float_text.
Qed.

(** Every character of a text that [float] converts is a [float_char]. *)
Lemma float_of_str_ok_float_text (s : string) :
  float_of_str_ok s = true -> float_text_ok s.
Proof.
  unfold float_of_str_ok, float_text. intros H.
  destruct (drop_underscores "000" (to_ascii_form s)) as [u|] eqn:E;
    [|discriminate].
  simpl in H. apply to_ascii_form_float_text.
  eapply drop_underscores_float_text; [exact E|].
  now apply c_lstrip_float_text, c_rstrip_float_text,
    is_float_literal_float_text.
Qed.

Lemma float_text_no_h (s : string) :
  float_text_ok s -> ~ In "h"%char (chars s).
Proof.
  unfold float_text_ok. intros H Hin.
  rewrite forallb_forall in H. now specialize (H _ Hin).
Qed.

End PyFacts.

(** ** Term resolution: [create_uri], [parse_property] and the object of a row *)

Module TermResolution.
Import Py Rdf CsvToRdf Spec Examples PyFacts.

Lemma uint_float_text (d : uint) : float_text_ok (NilEmpty.string_of_uint d).
Proof. unfold float_text_ok. induction d; simpl; auto. Qed.

Lemma uint0_float_text (d : uint) : float_text_ok (NilZero.string_of_uint d).
Proof. destruct d; try apply uint_float_text. reflexivity. Qed.

Lemma int_float_text (i : signed_int) : float_text_ok (NilZero.string_of_int i).
Proof.
  destruct i as [d|d]; simpl; [apply uint0_float_text|].
  apply (float_text_app "-"); [reflexivity | apply uint0_float_text].
Qed.

Lemma exponent_float_text (u : uint) : float_text_ok (exponent_str u).
Proof.
  destruct u as [|u|u|u|u|u|u|u|u|u|u]; try reflexivity;
    destruct u; try reflexivity; apply uint_float_text.
Qed.

Lemma float_str_float_text (f : pyfloat) : float_text_ok (float_str f).
Proof.
  destruct f as [|[]|[i d|i d e]]; try reflexivity;
    cbv beta iota delta [float_str].
  - repeat apply float_text_app; try reflexivity;
      [apply int_float_text | apply uint0_float_text].
  - apply float_text_app; [apply int_float_text|].
    apply float_text_app.
    + destruct d; try reflexivity;
        (apply float_text_app; [reflexivity | apply uint_float_text]).
    + apply float_text_app; [reflexivity|].
      destruct e; (apply float_text_app; [reflexivity|]);
        apply exponent_float_text.
Qed.

(** The text of a number never starts with [http]. *)
Lemma number_not_http (v : value) :
  is_number v = true -> startswith "http" (strip (str v)) = false.
Proof.
  destruct v as [s|z|f|b|z|b]; try discriminate; intros _.
  - apply no_h_not_http, float_text_no_h, int_float_text.
  - apply no_h_not_http, float_text_no_h, float_str_float_text.
  - now destruct b.
Qed.

Lemma float_ok_not_http (v : value) :
  float_ok v = true -> startswith "http" (strip (str v)) = false.
Proof.
  destruct v as [s|z|f|b|z|b]; intros H; try now apply number_not_http.
  - now apply no_h_not_http, float_text_no_h, float_of_str_ok_float_text.
  - apply no_h_not_http, float_text_no_h, int_float_text.
  - now destruct b.
Qed.

Lemma any_in_app (a b : list string) (s : string) :
  any_in (a ++ b)%list s = any_in a s || any_in b s.
Proof. apply existsb_app. Qed.

(** [is_literal_value] is the disjunction of its four rules. *)
Lemma is_literal_value_spec (v : value) :
  is_literal_value v = matches_indicator v || float_ok v.
Proof.
  unfold is_literal_value, matches_indicator, literal_indicators.
  rewrite !any_in_app.
  destruct (any_in date_indicators _), (any_in measurement_units _),
    (float_ok v), (any_in descriptive_phrases _); reflexivity.
Qed.

Lemma classify_object_literal (v : value) :
  should_be_uri v = false -> is_literal (classify_object v) = true.
Proof.
  unfold classify_object. intros ->. now destruct (is_number v).
Qed.

Lemma create_uri_is_reference (v : value) : is_reference (create_uri v) = true.
Proof. unfold create_uri. now destruct (_ || _). Qed.

(** *** The object of a row *)

(** C1 (amended). A value whose lower-cased text contains a
    literal-indicator substring, or that parses as a number, is given a
    literal, unless its stripped text starts with [http]: the test for
    [http] comes first in [should_be_uri]. *)
Theorem indicator_forces_literal (v : value) :
  matches_indicator v = true \/ float_ok v = true ->
  startswith "http" (strip (str v)) = false ->
  is_literal (classify_object v) = true.
Proof.
  intros Hind Hhttp. apply classify_object_literal.
  unfold should_be_uri. rewrite Hhttp, is_literal_value_spec.
  destruct Hind as [-> | ->]; simpl;
    now rewrite ?orb_true_r, ?andb_false_r.
Qed.

Lemma indicator_forces_literal_witness :
  (matches_indicator (VStr "18th century") = true
   \/ float_ok (VStr "18th century") = true)
  /\ startswith "http" (strip (str (VStr "18th century"))) = false
  /\ is_literal (classify_object (VStr "18th century")) = true.
Proof.
  split; [left; reflexivity|]. split; [reflexivity|].
  apply indicator_forces_literal; [left; reflexivity | reflexivity].
Defined.

(** C1 as stated fails: the text of an absolute URI that holds the
    markers [dynasty] and [-] is given a reference. *)
Lemma indicator_with_http_is_reference :
  ~ (forall v : value,
        matches_indicator v = true \/ float_ok v = true ->
        is_literal (classify_object v) = true).
Proof.
  intros H.
  specialize (H (VStr "http://example.org/qing-dynasty") (or_introl eq_refl)).
  discriminate H.
Qed.

Lemma first_isupper_strip (s : string) :
  first_isupper s = true -> first_isupper (strip s) = true.
Proof.
  destruct s as [|c r]; [discriminate|]. simpl. intros H.
  rewrite strip_keeps by now apply isupper_not_isspace. exact H.
Qed.

(** C2. A value whose text starts with [http] is given a reference
    whatever the indicators say, and so is a value whose first character
    is upper case when no indicator matches and it does not parse as a
    number; the reference is the one [create_uri] mints. *)
Theorem reference_rule (v : value) :
  startswith "http" (str v) = true
  \/ (first_isupper (str v) = true
      /\ matches_indicator v = false /\ float_ok v = false) ->
  classify_object v = create_uri v
  /\ is_reference (classify_object v) = true.
Proof.
  intros H.
  assert (Huri : should_be_uri v = true).
  { unfold should_be_uri. destruct H as [H | (Hup & Hind & Hnum)].
    - now rewrite (startswith_strip "h" "ttp" _ eq_refl H).
    - rewrite (first_isupper_strip _ Hup), is_literal_value_spec, Hind, Hnum.
      now destruct (startswith "http" _). }
  unfold classify_object. rewrite Huri.
  split; [reflexivity | apply create_uri_is_reference].
Qed.

Lemma reference_rule_witness :
  (startswith "http" (str (VStr "Mount_Longevity")) = true
   \/ (first_isupper (str (VStr "Mount_Longevity")) = true
       /\ matches_indicator (VStr "Mount_Longevity") = false
       /\ float_ok (VStr "Mount_Longevity") = false))
  /\ classify_object (VStr "Mount_Longevity")
     = URIRef "http://example.org/lodlam/Mount_Longevity".
Proof.
  split.
  - right. repeat split; reflexivity.
  - rewrite (proj1 (reference_rule (VStr "Mount_Longevity")
                      (or_intror (conj eq_refl (conj eq_refl eq_refl))))).
    reflexivity.
Defined.

(** C5 (amended). A value that parses as a number is given a literal
    whatever its capitalization; the datatype follows the type of the
    cell as [isinstance] sees it: integer for a Python [int] (a [bool]
    is one), float for a [float] ([numpy.float64] is one), and none for
    text, which stays a plain string literal and is not parsed again,
    nor for an integer or a boolean of [numpy], the cells of a table
    whose columns all have that type: they are neither [int] nor [float]
    and their text becomes a plain literal. *)
Theorem numeric_value_literal (v : value) :
  float_ok v = true ->
  classify_object v = numeric_literal v
  /\ is_literal (classify_object v) = true.
Proof.
  intros H.
  assert (Huri : should_be_uri v = false).
  { unfold should_be_uri.
    rewrite (float_ok_not_http _ H), is_literal_value_spec, H.
    now rewrite orb_true_r, andb_false_r. }
  split; [|now apply classify_object_literal].
  unfold classify_object. rewrite Huri. now destruct v.
Qed.

Lemma numeric_value_literal_witness :
  float_ok (VStr "Infinity") = true
  /\ classify_object (VStr "Infinity") = Literal (VStr "Infinity") None None
  /\ classify_object (VInt 42) = Literal (VInt 42) (Some XSD_integer) None
  /\ classify_object (VNpInt 42) = Literal (VStr "42") None None.
Proof.
  split; [reflexivity|]. split; [|split].
  - exact (proj1 (numeric_value_literal (VStr "Infinity") eq_refl)).
  - exact (proj1 (numeric_value_literal (VInt 42) eq_refl)).
  - exact (proj1 (numeric_value_literal (VNpInt 42) eq_refl)).
Defined.

(** C5 as stated fails: the text [42] parses as a number and its literal
    carries no datatype. *)
Lemma numeric_text_has_no_datatype :
  ~ (forall v : value,
        float_ok v = true -> has_numeric_datatype (classify_object v) = true).
Proof.
  intros H. specialize (H (VStr "42") eq_refl). discriminate H.
Qed.

(** *** [create_uri] *)

Lemma replace_char_step (a c : ascii) (new r : string) :
  replace (String a EmptyString) new (String c r)
  = if Ascii.eqb a c then new ++ replace (String a EmptyString) new r
    else String c (replace (String a EmptyString) new r).
Proof.
  unfold replace. simpl. rewrite andb_true_r. reflexivity.
Qed.

Lemma re_sub_del_app (cls : ascii -> bool) (a b : string) :
  re_sub_del cls (a ++ b) = re_sub_del cls a ++ re_sub_del cls b.
Proof.
  induction a as [|c a IH]; simpl; [reflexivity|].
  destruct (cls c); simpl; now rewrite IH.
Qed.

Lemma is_problematic_uri_safe (c : ascii) :
  is_problematic c = negb (uri_safe c).
Proof. reflexivity. Qed.

(** The three passes of [clean_uri_string] are one pass over the text. *)
Lemma clean_uri_string_sanitize (text : string) :
  clean_uri_string text = sanitize text.
Proof.
  unfold clean_uri_string, sanitize.
  induction text as [|c r IH]; [reflexivity|].
  cbn [re_sub_del map_chars].
  destruct (is_paren_or_comma c) eqn:Hp; [exact IH|].
  rewrite replace_char_step, Ascii.eqb_sym.
  destruct (Ascii.eqb c " ") eqn:Hs.
  - rewrite re_sub_del_app, IH. reflexivity.
  - cbn [re_sub_del]. rewrite is_problematic_uri_safe.
    destruct (uri_safe c); simpl; now rewrite IH.
Qed.

Lemma sanitize_uri_safe (text : string) :
  forallb uri_safe (chars (sanitize text)) = true.
Proof.
  unfold sanitize. induction text as [|c r IH]; [reflexivity|].
  cbn [map_chars].
  destruct (is_paren_or_comma c); [exact IH|].
  destruct (Ascii.eqb c " "); [exact IH|].
  destruct (uri_safe c) eqn:Hc; [|exact IH].
  simpl. now rewrite Hc.
Qed.

(** C3 (amended). A trimmed text that begins with [http://] or
    [https://] is returned unchanged. Any other trimmed text gives the
    default namespace followed by the sanitized text, where sanitizing
    drops parentheses and commas, turns each space (U+0020) into an
    underscore and drops every other character outside the URI-safe set,
    other blanks included; the local name may be empty. *)
Theorem create_uri_resolves (text : string) :
  strip text = text ->
  (startswith "http://" text || startswith "https://" text = true ->
   create_uri (VStr text) = URIRef text)
  /\ (startswith "http://" text || startswith "https://" text = false ->
      create_uri (VStr text) = URIRef (EX ++ sanitize text)
      /\ forallb uri_safe (chars (sanitize text)) = true).
Proof.
  intros Htrim. unfold create_uri. simpl str. rewrite Htrim.
  split; intros ->.
  - reflexivity.
  - rewrite clean_uri_string_sanitize. split; [reflexivity|].
    apply sanitize_uri_safe.
Qed.

Lemma create_uri_resolves_witness :
  strip "Summer Palace (Beijing), China" = "Summer Palace (Beijing), China"
  /\ create_uri (VStr "Summer Palace (Beijing), China")
     = URIRef "http://example.org/lodlam/Summer_Palace_Beijing_China".
Proof.
  split; [reflexivity|].
  rewrite (proj1 (proj2 (create_uri_resolves
                           "Summer Palace (Beijing), China" eq_refl)
                        eq_refl)).
  reflexivity.
Defined.

(** C3 as stated fails: a tab between two letters is dropped, it is not
    replaced by an underscore. *)
Lemma tab_is_not_underscored :
  ~ (forall text : string,
        strip text = text ->
        startswith "http://" text || startswith "https://" text = false ->
        create_uri (VStr text) = URIRef (EX ++ sanitize_spec text)).
Proof.
  intros H.
  specialize (H (String "a" (String "009" "b")) eq_refl eq_refl).
  discriminate H.
Qed.

(** *** [parse_property] *)

Lemma contains_char_cons (a c : ascii) (s : string) :
  contains (String a EmptyString) (String c s)
  = Ascii.eqb a c || contains (String a EmptyString) s.
Proof. cbn [contains startswith]. now rewrite andb_true_r. Qed.

Lemma split1_found (prefix local : string) :
  contains ":" prefix = false ->
  split1 ":" (prefix ++ ":" ++ local) = Some (prefix, local).
Proof.
  induction prefix as [|c p IH]; intros H; [reflexivity|].
  rewrite contains_char_cons in H. apply orb_false_elim in H as [Hc Hp].
  cbn [append split1]. rewrite Ascii.eqb_sym, Hc.
  cbn [append] in IH. now rewrite (IH Hp).
Qed.

Lemma split1_none (s : string) :
  contains ":" s = false -> split1 ":" s = None.
Proof.
  induction s as [|c s IH]; intros H; [reflexivity|].
  rewrite contains_char_cons in H. apply orb_false_elim in H as [Hc Hs].
  cbn [split1]. now rewrite Ascii.eqb_sym, Hc, (IH Hs).
Qed.

Section Predicates.

Variable defines : vocabulary -> string -> bool.
Variable refusal : vocabulary -> string -> exn.

Lemma getitem_accepted (ns : namespace) (name : string) :
  accepts defines ns name = true ->
  getitem defines refusal ns name = Ok (URIRef (base ns ++ name)).
Proof.
  destruct ns as [b|v]; cbn [accepts getitem base]; [reflexivity|].
  now intros ->.
Qed.

Lemma getitem_refused (ns : namespace) (name : string) :
  accepts defines ns name = false ->
  exists v : vocabulary,
    ns = Defined v /\ getitem defines refusal ns name = Raise (refusal v name).
Proof.
  destruct ns as [b|v]; cbn [accepts getitem]; [discriminate|].
  intros ->. now exists v.
Qed.

Variable property_string : value.

Let property_str : string := strip (str property_string).

(** C4 (amended). The text, once stripped, is split at its first colon. A
    prefix that the namespace table knows, whatever its case, gives the
    base of the namespace followed by the local name as written when the
    namespace gives that name: the namespaces the script opens give
    every name, but the vocabularies imported from [rdflib] are closed,
    and for a name such a vocabulary does not give the lookup raises and
    no reference is returned. An unknown prefix gives the default
    namespace followed by the whole text with its colons turned into
    underscores, and a text without a colon the default namespace
    followed by the text. *)
Theorem parse_property_resolves :
  (forall (prefix local : string) (ns : namespace),
      property_str = prefix ++ ":" ++ local ->
      contains ":" prefix = false ->
      lookup (lower prefix) namespace_map = Some ns ->
      (accepts defines ns local = true ->
       parse_property defines refusal property_string
       = Ok (URIRef (base ns ++ local)))
      /\ (accepts defines ns local = false ->
          exists v : vocabulary,
            ns = Defined v
            /\ parse_property defines refusal property_string
               = Raise (refusal v local)))
  /\ (forall prefix local : string,
         property_str = prefix ++ ":" ++ local ->
         contains ":" prefix = false ->
         lookup (lower prefix) namespace_map = None ->
         parse_property defines refusal property_string
         = Ok (URIRef (EX ++ replace ":" "_" property_str)))
  /\ (contains ":" property_str = false ->
      parse_property defines refusal property_string
      = Ok (URIRef (EX ++ property_str))).
Proof.
  unfold parse_property. fold property_str.
  split; [|split].
  - intros prefix local ns -> Hp Hns.
    rewrite (split1_found _ _ Hp), Hns. split.
    + apply getitem_accepted.
    + apply getitem_refused.
  - intros prefix local Heq Hp Hns. rewrite Heq at 1.
    now rewrite (split1_found _ _ Hp), Hns.
  - intros H. now rewrite (split1_none _ H).
Qed.

End Predicates.

Lemma parse_property_resolves_witness :
  parse_property creator_only attribute_errors (VStr "dcterms:creator")
  = Ok (URIRef (vocabulary_base DCTERMS ++ "creator"))
  /\ parse_property creator_only attribute_errors (VStr "DCTerms:creator")
     = Ok (URIRef (vocabulary_base DCTERMS ++ "creator"))
  /\ parse_property creator_only attribute_errors (VStr "schema:anything")
     = Ok (URIRef (CsvToRdf.SCHEMA ++ "anything"))
  /\ parse_property creator_only attribute_errors (VStr "unknownprefix:foo")
     = Ok (URIRef (EX ++ "unknownprefix_foo"))
  /\ parse_property creator_only attribute_errors (VStr "height")
     = Ok (URIRef (EX ++ "height")).
Proof.
  split; [|split; [|split; [|split]]].
  - exact (proj1 (proj1 (parse_property_resolves creator_only attribute_errors
                           (VStr "dcterms:creator"))
                        "dcterms" "creator" (Defined DCTERMS)
                        eq_refl eq_refl eq_refl) eq_refl).
  - exact (proj1 (proj1 (parse_property_resolves creator_only attribute_errors
                           (VStr "DCTerms:creator"))
                        "DCTerms" "creator" (Defined DCTERMS)
                        eq_refl eq_refl eq_refl) eq_refl).
  - exact (proj1 (proj1 (parse_property_resolves creator_only attribute_errors
                           (VStr "schema:anything"))
                        "schema" "anything" (Namespace CsvToRdf.SCHEMA)
                        eq_refl eq_refl eq_refl) eq_refl).
  - exact (proj1 (proj2 (parse_property_resolves creator_only attribute_errors
                           (VStr "unknownprefix:foo")))
                 "unknownprefix" "foo" eq_refl eq_refl eq_refl).
  - exact (proj2 (proj2 (parse_property_resolves creator_only attribute_errors
                           (VStr "height")))
                 eq_refl).
Defined.

(** C4 as stated fails: [rdf] is a closed vocabulary without a term
    [foo], and for the text [rdf:foo] the lookup raises where the claim
    has the base of [rdf] followed by [foo]. *)
Lemma closed_vocabulary_refuses_name :
  parse_property creator_only attribute_errors (VStr "rdf:foo")
  = Raise AttributeError
  /\ ~ (forall (defines : vocabulary -> string -> bool)
               (refusal : vocabulary -> string -> exn)
               (property_string : value) (prefix local : string)
               (ns : namespace),
           strip (str property_string) = prefix ++ ":" ++ local ->
           contains ":" prefix = false ->
           lookup (lower prefix) namespace_map = Some ns ->
           parse_property defines refusal property_string
           = Ok (URIRef (base ns ++ local))).
Proof.
  split; [reflexivity|]. intros H.
  specialize (H creator_only attribute_errors (VStr "rdf:foo") "rdf" "foo"
                (Defined RDF) eq_refl eq_refl eq_refl).
  discriminate H.
Qed.

End TermResolution.

(** ** Facts about the graph *)

Module GraphFacts.
Import Py Rdf.

Lemma mem_In (t : triple) (g : Graph) : mem t g = true <-> In t g.
Proof. unfold mem. destruct (in_dec triple_eq_dec t g); intuition congruence. Qed.

Lemma in_add (t x : triple) (g : Graph) : In t (add x g) <-> t = x \/ In t g.
Proof.
  unfold add. destruct (mem x g) eqn:E.
  - apply mem_In in E. intuition congruence.
  - rewrite in_app_iff. simpl. intuition congruence.
Qed.

Lemma add_all_nil (g : Graph) : add_all [] g = g.
Proof. reflexivity. Qed.

Lemma add_all_cons (t : triple) (ts : list triple) (g : Graph) :
  add_all (t :: ts) g = add_all ts (add t g).
Proof. reflexivity. Qed.

Lemma add_all_app (a b : list triple) (g : Graph) :
  add_all (a ++ b) g = add_all b (add_all a g).
Proof. apply fold_left_app. Qed.

Lemma in_add_all (t : triple) (ts : list triple) (g : Graph) :
  In t (add_all ts g) <-> In t ts \/ In t g.
Proof.
  revert g. induction ts as [|x ts IH]; intros g.
  - simpl. tauto.
  - rewrite add_all_cons, IH, in_add. simpl. intuition congruence.
Qed.

(** A loop that adds the triples of each element adds the triples of all
    the elements. *)
Lemma fold_add_all {A : Type} (f : A -> list triple) (xs : list A) (g : Graph) :
  fold_left (fun acc x => add_all (f x) acc) xs g = add_all (flat_map f xs) g.
Proof.
  revert g. induction xs as [|x xs IH]; intros g; [reflexivity|].
  simpl. now rewrite IH, add_all_app.
Qed.

Lemma fold_left_ext {A B : Type} (f h : A -> B -> A) (xs : list B) (a : A) :
  (forall a b, f a b = h a b) -> fold_left f xs a = fold_left h xs a.
Proof.
  intros E. revert a. induction xs as [|x xs IH]; intros a; [reflexivity|].
  simpl. now rewrite E, IH.
Qed.

End GraphFacts.

(** ** The tabular builder: the loops of [csv_to_rdf] *)

Module TabularBuilder.
Import Py Rdf CsvToRdf Emitted Examples GraphFacts.

Section Loops.

Variable defines : vocabulary -> string -> bool.
Variable refusal : vocabulary -> string -> exn.
Variable read_csv : string -> result DataFrame.

#[local] Abbreviation row_results := (row_results defines refusal).
#[local] Abbreviation source_triples := (source_triples defines refusal
    read_csv).
#[local] Abbreviation source_out := (source_out defines refusal read_csv).
#[local] Abbreviation batch_triples := (batch_triples defines refusal read_csv).
#[local] Abbreviation source_step := (source_step defines refusal read_csv).
#[local] Abbreviation build_from := (build_from defines refusal read_csv).
#[local] Abbreviation build := (build defines refusal read_csv).

(** The loop over the rows: the triples of the rows that convert are
    added, a warning is printed for each of the others, and the count is
    the number of rows that convert. *)
Lemma rows_loop (df : DataFrame) (irs : list (nat * list value))
  (g : Graph) (o : list message) (n : nat) :
  let rs := map (fun ir => (fst ir, row_triple defines refusal df (snd ir))) irs
      in
  fold_left (row_step defines refusal df) irs (g, o, n)
  = (add_all (successes rs) g, (o ++ warnings rs)%list,
     n + length (successes rs)).
Proof.
  revert g o n. induction irs as [|ir irs IH]; intros g o n.
  - simpl. now rewrite app_nil_r, Nat.add_0_r.
  - cbn [fold_left map]. unfold Emitted.successes, Emitted.warnings.
    cbn [flat_map fst snd]. fold (successes) (warnings).
    unfold row_step at 2.
    destruct (row_triple defines refusal df (snd ir)) as [t|e]; rewrite IH.
    + unfold Emitted.successes, Emitted.warnings. simpl.
      now rewrite Nat.add_succ_r.
    + unfold Emitted.successes, Emitted.warnings. simpl.
      now rewrite <- app_assoc.
Qed.

(** One file: its triples are added, its messages printed. *)
Lemma source_step_spec (st : state) (csv_file : string) :
  source_step st csv_file
  = {| graph := add_all (source_triples csv_file) (graph st);
       out := (out st ++ source_out csv_file)%list;
       total_triples := total_triples st + length (source_triples csv_file) |}.
Proof.
  unfold CsvToRdf.source_step, Emitted.source_triples, Emitted.source_out.
  destruct (read_csv csv_file) as [df|e].
  - destruct (has_required_columns df); simpl.
    + unfold Emitted.row_results. rewrite rows_loop. simpl.
      now rewrite <- !app_assoc.
    + now rewrite Nat.add_0_r, <- app_assoc.
  - simpl. now rewrite Nat.add_0_r, <- app_assoc.
Qed.

(** The loop over the files. *)
Lemma sources_loop (csv_files : list string) (st : state) :
  fold_left source_step csv_files st
  = {| graph := add_all (batch_triples csv_files) (graph st);
       out := (out st ++ flat_map source_out csv_files)%list;
       total_triples := total_triples st + length (batch_triples csv_files) |}.
Proof.
  revert st. induction csv_files as [|f fs IH]; intros st; simpl.
  - rewrite app_nil_r, Nat.add_0_r. now destruct st.
  - rewrite IH, source_step_spec. simpl.
    unfold Emitted.batch_triples. simpl.
    now rewrite add_all_app, length_app, Nat.add_assoc, <- app_assoc.
Qed.

Lemma build_from_spec (g : Graph) (csv_files : list string) :
  build_from g csv_files
  = {| graph := add_all (batch_triples csv_files) g;
       out := flat_map source_out csv_files;
       total_triples := length (batch_triples csv_files) |}.
Proof. unfold CsvToRdf.build_from. now rewrite sources_loop. Qed.

Lemma batch_triples_app (a b : list string) :
  batch_triples (a ++ b) = (batch_triples a ++ batch_triples b)%list.
Proof. apply flat_map_app. Qed.

Lemma flat_map_cons_app {A B : Type} (f : A -> list B) (a : list A) (x : A)
  (b : list A) :
  flat_map f (a ++ x :: b) = (flat_map f a ++ f x ++ flat_map f b)%list.
Proof. now rewrite flat_map_app. Qed.

(** A batch around one file: what the files before it did, then the
    file, then the files after it. *)
Lemma build_around (pre post : list string) (csv_file : string) :
  graph (build (pre ++ csv_file :: post))
  = add_all (batch_triples post)
            (add_all (source_triples csv_file) (graph (build pre)))
  /\ out (build (pre ++ csv_file :: post))
     = (out (build pre) ++ source_out csv_file
        ++ flat_map source_out post)%list
  /\ total_triples (build (pre ++ csv_file :: post))
     = total_triples (build pre) + length (source_triples csv_file)
       + length (batch_triples post).
Proof.
  unfold CsvToRdf.build. rewrite !build_from_spec. simpl.
  unfold Emitted.batch_triples. rewrite !flat_map_cons_app.
  rewrite !add_all_app, !length_app. repeat split; lia.
Qed.

Lemma build_without (pre post : list string) :
  graph (build (pre ++ post))
  = add_all (batch_triples post) (graph (build pre))
  /\ total_triples (build (pre ++ post))
     = total_triples (build pre) + length (batch_triples post).
Proof.
  unfold CsvToRdf.build. rewrite !build_from_spec. simpl.
  unfold Emitted.batch_triples. rewrite flat_map_app, add_all_app, length_app.
  now split.
Qed.

(** C6. A file whose table lacks one of the columns [Subject],
    [Property], [Object] adds no triple: the step prints the diagnostic and
    changes neither the graph nor the count, no exception leaves it, and
    the batch goes on with the files after it, so that the graph and the
    count of the batch are those of the batch without the file. *)
Theorem missing_columns_skip_source (csv_file : string) (df : DataFrame) :
  read_csv csv_file = Ok df ->
  has_required_columns df = false ->
  (forall st : state,
      source_step st csv_file
      = {| graph := graph st;
           out := (out st ++ [Processing csv_file; MissingColumns csv_file])%list;
           total_triples := total_triples st |})
  /\ (forall pre post : list string,
         graph (build (pre ++ csv_file :: post)) = graph (build (pre ++ post))
         /\ total_triples (build (pre ++ csv_file :: post))
            = total_triples (build (pre ++ post))
         /\ out (build (pre ++ csv_file :: post))
            = (out (build pre)
               ++ [Processing csv_file; MissingColumns csv_file]
               ++ flat_map source_out post)%list).
Proof.
  intros Hread Hcols.
  assert (Ht : source_triples csv_file = []).
  { unfold Emitted.source_triples. now rewrite Hread, Hcols. }
  assert (Ho : source_out csv_file
               = [Processing csv_file; MissingColumns csv_file]).
  { unfold Emitted.source_out. now rewrite Hread, Hcols. }
  split.
  - intros st. rewrite source_step_spec, Ht, Ho. simpl.
    now rewrite Nat.add_0_r.
  - intros pre post.
    destruct (build_around pre post csv_file) as (Hg & Hout & Hn).
    destruct (build_without pre post) as (Hg' & Hn').
    rewrite Hg, Hout, Hn, Hg', Hn', Ht, Ho. simpl.
    now rewrite Nat.add_0_r.
Qed.

Lemma nth_error_combine_seq {A : Type} (l : list A) (s i : nat) (x : A) :
  nth_error l i = Some x -> In (s + i, x) (combine (seq s (length l)) l).
Proof.
  revert s i. induction l as [|y l IH]; intros s i H.
  - now destruct i.
  - destruct i as [|i]; simpl in H |- *.
    + inversion H. left. now rewrite Nat.add_0_r.
    + right. rewrite Nat.add_succ_r. now apply (IH (S s)).
Qed.

Lemma in_iterrows (df : DataFrame) (i : nat) (row : list value) :
  nth_error (rows df) i = Some row -> In (i, row) (iterrows df).
Proof. intros H. now apply (nth_error_combine_seq _ 0) in H. Qed.

(** C7. In a file whose table has the three columns, a row whose
    conversion raises is caught: a warning with the index of the row is
    printed and the row adds nothing; every other row adds its triple, so
    that the graph gains exactly the triples of the rows that convert. A
    file with failing rows, or a file that cannot be read, does not stop
    the batch: the files after it are processed. *)
Theorem failing_row_skips_row_only (csv_file : string) (df : DataFrame) :
  read_csv csv_file = Ok df ->
  has_required_columns df = true ->
  (forall st : state,
      source_step st csv_file
      = {| graph := add_all (successes (row_results df)) (graph st);
           out := (out st ++ Processing csv_file
                   :: warnings (row_results df)
                   ++ [Added (length (successes (row_results df)))])%list;
           total_triples :=
             total_triples st + length (successes (row_results df)) |})
  /\ (forall (st : state) (i : nat) (row : list value),
         nth_error (rows df) i = Some row ->
         match row_triple defines refusal df row with
         | Ok t => In t (graph (source_step st csv_file))
         | Raise e => In (RowWarning i e) (out (source_step st csv_file))
         end)
  /\ (forall pre post : list string,
         graph (build (pre ++ csv_file :: post))
         = add_all (batch_triples post)
                   (add_all (successes (row_results df)) (graph (build pre))))
  /\ (forall (unreadable : string) (e : exn) (pre post : list string),
         read_csv unreadable = Raise e ->
         graph (build (pre ++ unreadable :: post)) = graph (build (pre ++ post))
         /\ out (build (pre ++ unreadable :: post))
            = (out (build pre)
               ++ [Processing unreadable; ReadError unreadable e]
               ++ flat_map source_out post)%list).
Proof.
  intros Hread Hcols.
  assert (Ht : source_triples csv_file = successes (row_results df)).
  { unfold Emitted.source_triples. now rewrite Hread, Hcols. }
  assert (Ho : source_out csv_file
               = Processing csv_file
                 :: (warnings (row_results df)
                     ++ [Added (length (successes (row_results df)))])%list).
  { unfold Emitted.source_out. now rewrite Hread, Hcols. }
  assert (Hstep : forall st : state,
             source_step st csv_file
             = {| graph := add_all (successes (row_results df)) (graph st);
                  out := (out st ++ Processing csv_file
                          :: warnings (row_results df)
                          ++ [Added (length (successes (row_results df)))])%list;
                  total_triples :=
                    total_triples st + length (successes (row_results df)) |}).
  { intros st. now rewrite source_step_spec, Ht, Ho. }
  split; [exact Hstep|]. split; [|split].
  - intros st i row Hrow. rewrite Hstep. simpl.
    apply in_iterrows in Hrow.
    assert (Hin : In (i, row_triple defines refusal df row) (row_results df)).
    { unfold Emitted.row_results.
      apply (in_map (fun ir => (fst ir, row_triple defines refusal df (snd
          ir)))) in Hrow.
      exact Hrow. }
    destruct (row_triple defines refusal df row) as [t|e] eqn:E.
    + apply in_add_all. left. unfold Emitted.successes.
      apply in_flat_map. exists (i, Ok t). split; [exact Hin | now left].
    + apply in_or_app. right. right. apply in_or_app. left.
      unfold Emitted.warnings.
      apply in_flat_map. exists (i, Raise e). split; [exact Hin | now left].
  - intros pre post.
    destruct (build_around pre post csv_file) as (Hg & _). now rewrite Hg, Ht.
  - intros unreadable e pre post Hbad.
    assert (Ht' : source_triples unreadable = []).
    { unfold Emitted.source_triples. now rewrite Hbad. }
    assert (Ho' : source_out unreadable
                  = [Processing unreadable; ReadError unreadable e]).
    { unfold Emitted.source_out. now rewrite Hbad. }
    destruct (build_around pre post unreadable) as (Hg & Hout & _).
    destruct (build_without pre post) as (Hg' & _).
    now rewrite Hg, Hout, Hg', Ht', Ho'.
Qed.

End Loops.

Lemma missing_columns_skip_source_witness :
  sample_read_csv "no_object.csv" = Ok no_object_frame
  /\ has_required_columns no_object_frame = false
  /\ graph (build creator_only attribute_errors sample_read_csv
              ["throne.csv"; "no_object.csv"; "throne.csv"])
     = graph (build creator_only attribute_errors sample_read_csv
                ["throne.csv"; "throne.csv"]).
Proof.
  split; [reflexivity|]. split; [reflexivity|].
  exact (proj1 (proj2 (missing_columns_skip_source
                         creator_only attribute_errors sample_read_csv
                         "no_object.csv" no_object_frame eq_refl eq_refl)
                      ["throne.csv"] ["throne.csv"])).
Defined.

Lemma failing_row_skips_row_only_witness :
  sample_read_csv "throne.csv" = Ok throne_frame
  /\ has_required_columns throne_frame = true
  /\ row_triple creator_only attribute_errors throne_frame
                [VStr "Throne"; VStr "rdf:foo"; VStr "x"]
     = Raise AttributeError
  /\ In (RowWarning 1 AttributeError)
        (out (source_step creator_only attribute_errors sample_read_csv
                          empty_state "throne.csv"))
  /\ graph (source_step creator_only attribute_errors sample_read_csv
                        empty_state "throne.csv")
     = [ (URIRef "http://example.org/lodlam/Throne",
          URIRef "http://purl.org/dc/terms/creator",
          URIRef "http://example.org/lodlam/Qing_Workshop");
         (URIRef "http://example.org/lodlam/Throne",
          URIRef "http://example.org/lodlam/height",
          Literal (VStr "85 cm") None None) ].
Proof.
  split; [reflexivity|]. split; [reflexivity|]. split; [reflexivity|].
  pose proof (failing_row_skips_row_only creator_only attribute_errors
      sample_read_csv
                "throne.csv" throne_frame eq_refl eq_refl) as (Hstep & Hrow & _).
  split.
  - exact (Hrow empty_state 1 [VStr "Throne"; VStr "rdf:foo"; VStr "x"] eq_refl).
  - rewrite Hstep. reflexivity.
Defined.

End TabularBuilder.

(** ** The document builder: the steps of [tei_to_rdf] *)

Module DocumentBuilder.
Import Py Rdf Xml TeiToRdf Emitted GraphFacts.

Section Steps.

Variable base_uri : string.

#[local] Abbreviation try_first := (@try_first).
#[local] Abbreviation metadata_triples := (metadata_triples base_uri).
#[local] Abbreviation person_triples := (person_triples base_uri).
#[local] Abbreviation place_triples := (place_triples base_uri).
#[local] Abbreviation org_triples := (org_triples base_uri).
#[local] Abbreviation punishment_triples := (punishment_triples base_uri).
#[local] Abbreviation entity_triples := (entity_triples base_uri).

Lemma try_first_spec {A : Type} (xs : list A) (k : A -> list triple)
  (g : Graph) :
  try_first A xs k g = add_all (try_triples xs k) g.
Proof. now destruct xs. Qed.

Lemma add_metadata_spec (root : node) (g : Graph) :
  add_metadata base_uri root g = add_all (metadata_triples root) g.
Proof.
  unfold add_metadata, Emitted.metadata_triples.
  now rewrite !try_first_spec, !add_all_app.
Qed.

Lemma add_keywords_spec (root : node) (g : Graph) :
  add_keywords base_uri root g
  = add_all (flat_map (keyword_triples base_uri) (q_keywords root)) g.
Proof. apply fold_add_all. Qed.

Lemma add_person_spec (g : Graph) (person : node) :
  add_person base_uri g person = add_all (person_triples person) g.
Proof.
  unfold add_person, Emitted.person_triples.
  now rewrite !try_first_spec, !add_all_app.
Qed.

Lemma add_coordinates_spec (place_uri : term) (place : node) (g : Graph) :
  add_coordinates place_uri place g
  = add_all (coordinate_triples place_uri place) g.
Proof.
  unfold add_coordinates, coordinate_triples.
  destruct (q_geo place) as [|coords rest]; [reflexivity|]. simpl.
  destruct (split_ws EmptyString coords) as [|lat [|lon [|x l]]];
    try reflexivity.
  destruct (float_of_str lat); [|reflexivity].
  now destruct (float_of_str lon).
Qed.

Lemma add_place_spec (g : Graph) (place : node) :
  add_place base_uri g place = add_all (place_triples place) g.
Proof.
  unfold add_place, Emitted.place_triples.
  now rewrite !try_first_spec, add_coordinates_spec, !add_all_app.
Qed.

Lemma add_org_spec (g : Graph) (org : node) :
  add_org base_uri g org = add_all (org_triples org) g.
Proof.
  unfold add_org, Emitted.org_triples.
  now rewrite !try_first_spec, !add_all_app.
Qed.

Lemma add_punishment_spec (g : Graph) (ip : nat * node) :
  add_punishment base_uri g ip = add_all (punishment_triples ip) g.
Proof.
  unfold add_punishment, Emitted.punishment_triples.
  now rewrite fold_add_all, add_all_app.
Qed.

Lemma fold_step_spec {A : Type} (step : Graph -> A -> Graph)
  (f : A -> list triple) (xs : list A) (g : Graph) :
  (forall g x, step g x = add_all (f x) g) ->
  fold_left step xs g = add_all (flat_map f xs) g.
Proof.
  intros H. rewrite <- fold_add_all. now apply fold_left_ext.
Qed.

(** Before line 248 the builder only adds the triples of the document. *)
Lemma build_entities_spec (root : node) (g : Graph) :
  build_entities base_uri root g = add_all (entity_triples root) g.
Proof.
  unfold build_entities, Emitted.entity_triples.
  rewrite add_metadata_spec, add_keywords_spec.
  rewrite (fold_step_spec _ _ _ _ add_person_spec).
  rewrite (fold_step_spec _ _ _ _ add_place_spec).
  rewrite (fold_step_spec _ _ _ _ add_org_spec).
  rewrite (fold_step_spec _ _ _ _ add_punishment_spec).
  now rewrite !add_all_app.
Qed.

Lemma link_boxers_incl (g : Graph) (t : triple) :
  In t g -> In t (link_boxers base_uri g).
Proof.
  unfold link_boxers. destruct (has_subject _ g); [|trivial].
  intros H. apply in_add. now right.
Qed.

(** The build only adds: what the graph holds stays in it. *)
Lemma build_from_incl (root : node) (g : Graph) (t : triple) :
  In t g -> In t (build_from base_uri root g).
Proof.
  intros H. unfold build_from. apply in_add_all. right.
  apply link_boxers_incl. rewrite build_entities_spec.
  apply in_add_all. now right.
Qed.

End Steps.

End DocumentBuilder.

(** ** Serialization, the use of the graph and the header of the page *)

Module Pipelines.
Import Py Rdf Xml Emitted Examples GraphFacts.

(** *** Failures of serialization *)

Section Sinks.

Variable defines : vocabulary -> string -> bool.
Variable refusal : vocabulary -> string -> exn.
Variable read_csv : string -> result CsvToRdf.DataFrame.
Variable writable : string -> bool.
Variable base_uri : string.

#[local] Abbreviation main := (CsvToRdf.main defines refusal read_csv writable).
#[local] Abbreviation export_rdf_xml := (CsvToRdf.export_rdf_xml writable).
#[local] Abbreviation tei_to_rdf := (TeiToRdf.tei_to_rdf base_uri writable).

(** C8 (amended). In [csv_to_rdf.py] the RDF/XML export is best effort:
    when its target cannot be written the failure is printed, no exception
    leaves [export_rdf_xml] and the disk, with the Turtle file, is left as
    it was; so [main] ends well and the Turtle file holds the graph
    whenever the Turtle target can be written. The Turtle serialization
    is not guarded: when its target cannot be written [main] stops with
    the exception, before the RDF/XML export, and writes nothing. In
    [tei_to_rdf.py] the Turtle file is written before the RDF/XML one is
    tried, so a failure of the second leaves the first on the disk. *)
Theorem secondary_export_is_best_effort :
  (writable "lodlam_dataset.rdf" = false ->
   forall (g : Graph) (w : CsvToRdf.world),
     export_rdf_xml g w
     = {| CsvToRdf.stdout :=
            (CsvToRdf.stdout w
             ++ [CsvToRdf.ExportingXml; CsvToRdf.ExportFailed OSError])%list;
          CsvToRdf.disk := CsvToRdf.disk w |})
  /\ (writable "lodlam_dataset.ttl" = true ->
      forall w : CsvToRdf.world,
        fst (main w) = Ok tt
        /\ lookup "lodlam_dataset.ttl" (CsvToRdf.disk (snd (main w)))
           = Some (Turtle,
                   CsvToRdf.graph
                     (CsvToRdf.build defines refusal read_csv
                         CsvToRdf.CSV_FILES)))
  /\ (writable "lodlam_dataset.ttl" = false ->
      forall w : CsvToRdf.world,
        fst (main w) = Raise OSError
        /\ CsvToRdf.disk (snd (main w)) = CsvToRdf.disk w)
  /\ (forall (root : node) (output_file : string) (w : TeiToRdf.world),
         writable output_file = true ->
         writable (replace ".ttl" ".rdf" output_file) = false ->
         TeiToRdf.disk (snd (tei_to_rdf root output_file w))
         = (output_file, (Turtle, TeiToRdf.build base_uri root))
           :: TeiToRdf.disk w).
Proof.
  split; [|split; [|split]].
  - intros Hxml g w. unfold CsvToRdf.export_rdf_xml, CsvToRdf.serialize,
      serialize. rewrite Hxml. now rewrite <- app_assoc.
  - intros Httl w. unfold CsvToRdf.main, CsvToRdf.csv_to_rdf,
      CsvToRdf.export_rdf_xml, CsvToRdf.serialize, serialize.
    rewrite Httl. destruct (writable "lodlam_dataset.rdf"); now split.
  - intros Httl w. unfold CsvToRdf.main, CsvToRdf.csv_to_rdf,
      CsvToRdf.serialize, serialize. rewrite Httl. now split.
  - intros root output_file w Httl Hxml.
    unfold TeiToRdf.tei_to_rdf, serialize. now rewrite Httl, Hxml.
Qed.

End Sinks.

Lemma secondary_export_is_best_effort_witness :
  xml_locked "lodlam_dataset.rdf" = false
  /\ xml_locked "lodlam_dataset.ttl" = true
  /\ fst (CsvToRdf.main creator_only attribute_errors sample_read_csv xml_locked
      empty_world)
     = Ok tt
  /\ lookup "lodlam_dataset.ttl"
            (CsvToRdf.disk
               (snd (CsvToRdf.main creator_only attribute_errors sample_read_csv
                   xml_locked
                                   empty_world)))
     = Some (Turtle, []).
Proof.
  split; [reflexivity|]. split; [reflexivity|].
  destruct (proj1 (proj2 (secondary_export_is_best_effort
                            creator_only attribute_errors sample_read_csv
                                xml_locked boxer_base))
                  eq_refl empty_world) as [Hrun Hfile].
  split; [exact Hrun|]. rewrite Hfile. reflexivity.
Defined.

(** C8 as stated fails: when the Turtle target cannot be written the run
    stops, and the RDF/XML file, whose target can be written, is not
    produced. *)
Lemma turtle_failure_aborts_run :
  ~ (forall (writable : string -> bool) (w : CsvToRdf.world),
        writable "lodlam_dataset.rdf" = true ->
        fst (CsvToRdf.main creator_only attribute_errors sample_read_csv
            writable w) = Ok tt
        /\ lookup "lodlam_dataset.rdf"
                  (CsvToRdf.disk
                     (snd (CsvToRdf.main creator_only attribute_errors
                         sample_read_csv
                                         writable w)))
           <> None).
Proof.
  intros H. destruct (H turtle_locked empty_world eq_refl) as [Hrun _].
  discriminate Hrun.
Qed.

(** *** The graph during the build *)

(** C9 (amended). [csv_to_rdf] only adds triples: from any graph, its
    loop leaves that graph with the triples of the files added, and its
    messages and count do not depend on the graph. [tei_to_rdf] only adds
    triples too, and what the graph holds stays in it, but it reads the
    graph once before it serializes: at lines 248 to 250 the organizer
    triple is added when, and only when, the graph holds a triple whose
    subject is the Boxers; every other step adds triples that depend on
    the document alone. *)
Theorem graph_is_read_once :
  (forall (defines : vocabulary -> string -> bool)
          (refusal : vocabulary -> string -> exn)
          (read_csv : string -> result CsvToRdf.DataFrame)
          (g : Graph) (csv_files : list string),
      CsvToRdf.build_from defines refusal read_csv g csv_files
      = {| CsvToRdf.graph :=
             add_all (batch_triples defines refusal read_csv csv_files) g;
           CsvToRdf.out :=
             flat_map (source_out defines refusal read_csv) csv_files;
           CsvToRdf.total_triples :=
             length (batch_triples defines refusal read_csv csv_files) |})
  /\ (forall (base_uri : string) (root : node) (g : Graph),
         TeiToRdf.build_from base_uri root g
         = add_all (TeiToRdf.protocol_triples base_uri)
             (let g' := add_all (entity_triples base_uri root) g in
              if has_subject (TeiToRdf.boxers_uri base_uri) g'
              then add (TeiToRdf.organizer_triple base_uri) g'
              else g'))
  /\ (forall (base_uri : string) (root : node) (g : Graph) (t : triple),
         In t g -> In t (TeiToRdf.build_from base_uri root g)).
Proof.
  split; [|split].
  - intros. apply TabularBuilder.build_from_spec.
  - intros. unfold TeiToRdf.build_from, TeiToRdf.link_boxers.
    now rewrite DocumentBuilder.build_entities_spec.
  - intros. now apply DocumentBuilder.build_from_incl.
Qed.

Lemma graph_is_read_once_witness :
  In (TeiToRdf.boxers_uri boxer_base, TeiToRdf.rdf "type",
      TeiToRdf.foaf "Organization")
     (TeiToRdf.build_from boxer_base bare_document boxers_graph).
Proof.
  apply (proj2 (proj2 graph_is_read_once)). now left.
Defined.

(** C9 as stated fails: were the graph never read, the build continued
    from any graph would add to it a list of triples fixed by the
    document. On a document without entities the organizer triple is
    added to a graph that holds a triple about the Boxers and to no
    other. *)
Lemma organizer_depends_on_graph :
  ~ (forall (base_uri : string) (root : node),
        exists ts : list triple,
          forall g : Graph,
            TeiToRdf.build_from base_uri root g = add_all ts g).
Proof.
  intros H. destruct (H boxer_base bare_document) as [ts Hts].
  pose (t := TeiToRdf.organizer_triple boxer_base).
  assert (Hin : In t (TeiToRdf.build_from boxer_base bare_document
                        boxers_graph)).
  { apply (proj1 (mem_In t _)). vm_compute. reflexivity. }
  assert (Hout : ~ In t (TeiToRdf.build_from boxer_base bare_document [])).
  { intros Habs. apply (proj2 (mem_In t _)) in Habs.
    vm_compute in Habs. discriminate Habs. }
  rewrite Hts in Hin. apply in_add_all in Hin as [Hin | Hin].
  - apply Hout. rewrite Hts. apply in_add_all. now left.
  - apply (proj2 (mem_In t _)) in Hin. vm_compute in Hin. discriminate Hin.
Qed.

(** *** The header of the document *)

Section Header.

Variable style_rules : string.
Variable writable : string -> bool.
Variable base_uri : string.

#[local] Abbreviation tei_to_html := (XmlToHtml.tei_to_html style_rules writable).
#[local] Abbreviation tei_to_rdf := (TeiToRdf.tei_to_rdf base_uri writable).
#[local] Abbreviation metadata_triples := (metadata_triples base_uri).
#[local] Abbreviation for_title :=
  (fun root => try_triples (q_title root) (TeiToRdf.title_triples base_uri)).
#[local] Abbreviation for_author :=
  (fun root => try_triples (q_author root) (TeiToRdf.author_triples base_uri)).
#[local] Abbreviation for_date :=
  (fun root => try_triples (q_date_when root) (TeiToRdf.date_triples base_uri)).
#[local] Abbreviation for_place :=
  (fun root =>
     try_triples (q_pubPlace root) (TeiToRdf.pub_place_triples base_uri)).
#[local] Abbreviation for_source :=
  (fun root =>
     try_triples (q_sourceDesc root) (TeiToRdf.source_desc_triples base_uri)).

Lemma doc_types_in_build (root : node) (t : triple) :
  In t (TeiToRdf.doc_type_triples base_uri) ->
  In t (TeiToRdf.build base_uri root).
Proof.
  intros H. unfold TeiToRdf.build, TeiToRdf.build_from.
  apply in_add_all. right. apply DocumentBuilder.link_boxers_incl.
  rewrite DocumentBuilder.build_entities_spec. apply in_add_all. left.
  unfold entity_triples. apply in_or_app. now left.
Qed.

(** C10. A document that lacks the title, the author, the date of
    publication or the place of publication makes [tei_to_html] raise
    [IndexError]: nothing is printed and no file is written. The same
    document goes through [tei_to_rdf]: each field of the header has its
    own [try] block, a missing field leaves out its triples and the other
    fields keep theirs, the graph holds the triples of the document, and
    the function returns it when its two targets can be written. *)
Theorem missing_header_field_raises (root : node) :
  q_title root = [] \/ q_author root = []
  \/ q_date_when root = [] \/ q_pubPlace root = [] ->
  (forall (output_file : string) (w : XmlToHtml.world),
      tei_to_html root output_file w = (Raise IndexError, w))
  /\ (forall g : Graph,
         TeiToRdf.add_metadata base_uri root g
         = add_all (metadata_triples root) g)
  /\ (q_title root = [] ->
      metadata_triples root
      = (for_author root ++ for_date root ++ for_place root
         ++ for_source root)%list)
  /\ (q_author root = [] ->
      metadata_triples root
      = (for_title root ++ for_date root ++ for_place root
         ++ for_source root)%list)
  /\ (q_date_when root = [] ->
      metadata_triples root
      = (for_title root ++ for_author root ++ for_place root
         ++ for_source root)%list)
  /\ (q_pubPlace root = [] ->
      metadata_triples root
      = (for_title root ++ for_author root ++ for_date root
         ++ for_source root)%list)
  /\ (forall t : triple,
         In t (TeiToRdf.doc_type_triples base_uri) ->
         In t (TeiToRdf.build base_uri root))
  /\ (forall (output_file : string) (w : TeiToRdf.world),
         writable output_file = true ->
         writable (replace ".ttl" ".rdf" output_file) = true ->
         fst (tei_to_rdf root output_file w)
         = Ok (TeiToRdf.build base_uri root)).
Proof.
  intros Hmissing.
  split; [|split; [|split; [|split; [|split; [|split; [|split]]]]]].
  - intros output_file w. unfold XmlToHtml.tei_to_html.
    assert (Hraise : XmlToHtml.html_content style_rules root
                     = Raise IndexError).
    { unfold XmlToHtml.html_content.
      destruct Hmissing as [H | [H | [H | H]]]; rewrite H.
      - reflexivity.
      - now destruct (q_title root).
      - now destruct (q_title root), (q_author root).
      - now destruct (q_title root), (q_author root), (q_date_when root). }
    now rewrite Hraise.
  - intros g. apply DocumentBuilder.add_metadata_spec.
  - intros H. unfold Emitted.metadata_triples. now rewrite H.
  - intros H. unfold Emitted.metadata_triples. now rewrite H.
  - intros H. unfold Emitted.metadata_triples. now rewrite H.
  - intros H. unfold Emitted.metadata_triples. now rewrite H.
  - intros t. apply doc_types_in_build.
  - intros output_file w Httl Hxml.
    unfold TeiToRdf.tei_to_rdf, serialize. now rewrite Httl, Hxml.
Qed.

End Header.

Lemma missing_header_field_raises_witness :
  q_title bare_document = []
  /\ XmlToHtml.tei_to_html "" any_path bare_document "page.html" no_page
     = (Raise IndexError, no_page)
  /\ fst (TeiToRdf.tei_to_rdf boxer_base any_path bare_document "out.ttl"
            {| TeiToRdf.stdout := []; TeiToRdf.disk := [] |})
     = Ok (TeiToRdf.build boxer_base bare_document).
Proof.
  assert (Hq : q_title bare_document = []) by reflexivity.
  destruct (missing_header_field_raises "" any_path boxer_base bare_document
              (or_introl Hq)) as (Hhtml & _ & _ & _ & _ & _ & _ & Hrdf).
  split; [exact Hq|]. split; [apply Hhtml|].
  apply Hrdf; reflexivity.
Defined.

End Pipelines.

(** ** More on the built-ins: [strip] and [replace] *)

Module StringFacts.
Import Py PyFacts.

Lemma rstrip_idempotent (s : string) : rstrip (rstrip s) = rstrip s.
Proof.
  induction s as [|c r IH]; [reflexivity|]. simpl.
  destruct (rstrip r) as [|d r'] eqn:E.
  - destruct (isspace c) eqn:Hc; [reflexivity|]. simpl. now rewrite Hc.
  - change (rstrip (String c (String d r')))
      with (match rstrip (String d r') with
            | EmptyString =>
                if isspace c then EmptyString else String c EmptyString
            | String _ _ as r'' => String c r''
            end).
    now rewrite IH.
Qed.

Lemma lstrip_head (s : string) :
  lstrip s = EmptyString
  \/ exists c r, lstrip s = String c r /\ isspace c = false.
Proof.
  induction s as [|c r IH]; [now left|]. simpl.
  destruct (isspace c) eqn:Hc; [exact IH|]. right. now exists c, r.
Qed.

(** [strip] is idempotent. *)
Lemma strip_idempotent (s : string) : strip (strip s) = strip s.
Proof.
  unfold strip. destruct (lstrip_head s) as [E | (c & r & E & Hc)]; rewrite E.
  - reflexivity.
  - rewrite (rstrip_keeps _ _ Hc), (lstrip_keeps _ _ Hc).
    rewrite <- (rstrip_keeps _ _ Hc). apply rstrip_idempotent.
Qed.

Lemma rstrip_no_blank (s : string) :
  forallb (fun c => negb (isspace c)) (chars s) = true -> rstrip s = s.
Proof.
  induction s as [|c r IH]; [reflexivity|]. simpl. intros H.
  apply andb_prop in H as [Hc Hr]. apply negb_true_iff in Hc.
  rewrite (IH Hr), Hc. now destruct r.
Qed.

(** A text without blanks is its own [strip]. *)
Lemma strip_no_blank (s : string) :
  forallb (fun c => negb (isspace c)) (chars s) = true -> strip s = s.
Proof.
  intros H. unfold strip. destruct s as [|c r]; [reflexivity|].
  assert (Hc : isspace c = false).
  { simpl in H. apply andb_prop in H as [Hc _]. now apply negb_true_iff. }
  rewrite (lstrip_keeps _ _ Hc). now apply rstrip_no_blank.
Qed.

(** A text of blanks strips to the empty text. *)
Lemma strip_blank (s : string) :
  forallb isspace (chars s) = true -> strip s = EmptyString.
Proof.
  intros H. unfold strip.
  assert (E : lstrip s = EmptyString).
  { induction s as [|c r IH]; [reflexivity|]. simpl in H |- *.
    apply andb_prop in H as [-> Hr]. now apply IH. }
  now rewrite E.
Qed.

Lemma replace_char_cons (a c : ascii) (new r : string) :
  replace (String a EmptyString) new (String c r)
  = if Ascii.eqb a c then new ++ replace (String a EmptyString) new r
    else String c (replace (String a EmptyString) new r).
Proof. unfold replace. simpl. now rewrite andb_true_r. Qed.

Lemma contains_char_step (a c : ascii) (s : string) :
  contains (String a EmptyString) (String c s)
  = Ascii.eqb a c || contains (String a EmptyString) s.
Proof. cbn [contains startswith]. now rewrite andb_true_r. Qed.

Lemma contains_char_app (a : ascii) (s t : string) :
  contains (String a EmptyString) (s ++ t)
  = contains (String a EmptyString) s || contains (String a EmptyString) t.
Proof.
  induction s as [|c s IH].
  - simpl. destruct t; reflexivity.
  - cbn [append]. rewrite !contains_char_step, IH. now rewrite orb_assoc.
Qed.

(** Replacing a character by a text that does not hold it leaves no
    occurrence of the character. *)
Lemma replace_char_removes (a : ascii) (new s : string) :
  contains (String a EmptyString) new = false ->
  contains (String a EmptyString) (replace (String a EmptyString) new s)
  = false.
Proof.
  intros Hnew. induction s as [|c s IH]; [reflexivity|].
  rewrite replace_char_cons. destruct (Ascii.eqb a c) eqn:E.
  - now rewrite contains_char_app, Hnew, IH.
  - now rewrite contains_char_step, E, IH.
Qed.

(** Without an occurrence of the character nothing is replaced. *)
Lemma replace_char_absent (a : ascii) (new s : string) :
  contains (String a EmptyString) s = false ->
  replace (String a EmptyString) new s = s.
Proof.
  induction s as [|c s IH]; [reflexivity|].
  rewrite contains_char_step, replace_char_cons. intros H.
  apply orb_false_elim in H as [-> Hs]. now rewrite (IH Hs).
Qed.

Lemma append_nil_r (s : string) : s ++ EmptyString = s.
Proof.
  induction s as [|c s IH]; [reflexivity|]. cbn [append]. now rewrite IH.
Qed.

Lemma append_assoc (a b c : string) : (a ++ b) ++ c = a ++ b ++ c.
Proof.
  induction a as [|x a IH]; [reflexivity|]. cbn [append]. now rewrite IH.
Qed.

End StringFacts.

(** ** More on term resolution *)

Module Minting.
Import Py Rdf CsvToRdf Spec PyFacts StringFacts TermResolution.

Lemma uri_safe_not_blank (c : ascii) : uri_safe c = true -> isspace c = false.
Proof. each_char c; vm_compute; congruence. Qed.

Lemma uri_safe_kept (c : ascii) :
  uri_safe c = true ->
  is_paren_or_comma c = false /\ Ascii.eqb c " " = false.
Proof. each_char c; vm_compute; intuition congruence. Qed.

Lemma sanitize_safe_text (text : string) :
  forallb uri_safe (chars text) = true -> sanitize text = text.
Proof.
  unfold sanitize. induction text as [|c r IH]; [reflexivity|].
  simpl. intros H. apply andb_prop in H as [Hc Hr].
  destruct (uri_safe_kept _ Hc) as [-> ->]. rewrite Hc. simpl.
  now rewrite (IH Hr).
Qed.

(** X1. Cleaning a local name twice is cleaning it once. *)
Theorem clean_uri_string_idempotent (text : string) :
  clean_uri_string (clean_uri_string text) = clean_uri_string text.
Proof.
  rewrite !clean_uri_string_sanitize.
  apply sanitize_safe_text, sanitize_uri_safe.
Qed.

Lemma forallb_chars_app (p : ascii -> bool) (a b : string) :
  forallb p (chars (a ++ b)) = forallb p (chars a) && forallb p (chars b).
Proof. now rewrite chars_app, forallb_app. Qed.

Lemma safe_text_no_blank (s : string) :
  forallb uri_safe (chars s) = true ->
  forallb (fun c => negb (isspace c)) (chars s) = true.
Proof.
  induction s as [|c r IH]; [reflexivity|]. simpl. intros H.
  apply andb_prop in H as [Hc Hr].
  now rewrite (uri_safe_not_blank _ Hc), (IH Hr).
Qed.

(** The text of a reference. *)
Lemma create_uri_cases (v : value) :
  let text_str := strip (str v) in
  (startswith "http://" text_str || startswith "https://" text_str = true
   /\ create_uri v = URIRef text_str)
  \/ (startswith "http://" text_str || startswith "https://" text_str = false
      /\ create_uri v = URIRef (EX ++ sanitize text_str)).
Proof.
  cbv zeta. unfold create_uri.
  destruct (startswith "http://" (strip (str v))
            || startswith "https://" (strip (str v))) eqn:E.
  - left. now split.
  - right. split; [reflexivity|].
    now rewrite clean_uri_string_sanitize.
Qed.

(** X2. Minting is stable: the reference minted from the text of a minted
    reference is that reference. *)
Theorem create_uri_stable (v : value) (iri : string) :
  create_uri v = URIRef iri -> create_uri (VStr iri) = URIRef iri.
Proof.
  intros H. destruct (create_uri_cases v) as [[Hp E] | [Hp E]]; rewrite E in H.
  - assert (G : create_uri (VStr (strip (str v))) = URIRef (strip (str v))).
    { unfold create_uri. cbn [str]. now rewrite strip_idempotent, Hp. }
    injection H as <-. exact G.
  - assert (Hs : strip (EX ++ sanitize (strip (str v)))
                 = EX ++ sanitize (strip (str v))).
    { apply strip_no_blank. rewrite forallb_chars_app.
      rewrite (safe_text_no_blank _ (sanitize_uri_safe _)). reflexivity. }
    assert (G : create_uri (VStr (EX ++ sanitize (strip (str v))))
                = URIRef (EX ++ sanitize (strip (str v)))).
    { unfold create_uri. cbn [str]. rewrite Hs. reflexivity. }
    injection H as <-. exact G.
Qed.

(** X3. Every reference [create_uri] mints is an absolute [http] or [https]
    IRI, the default namespace included. *)
Theorem create_uri_absolute (v : value) :
  exists iri : string,
    create_uri v = URIRef iri
    /\ startswith "http://" iri || startswith "https://" iri = true.
Proof.
  destruct (create_uri_cases v) as [[Hp E] | [Hp E]]; rewrite E.
  - eexists. split; [reflexivity | exact Hp].
  - eexists. split; reflexivity.
Qed.

(** X4. A cell whose text is blanks and nothing else is minted to the bare
    default namespace, and as an object it is a plain literal with its
    blanks. The empty field of a file is not such a text: [pandas] hands
    it over as [nan], which is minted under the local name [nan] and as
    an object is a float literal. *)
Theorem blank_cell (s : string) :
  s <> EmptyString ->
  forallb isspace (chars s) = true ->
  (create_uri (VStr s) = URIRef EX
   /\ classify_object (VStr s) = Literal (VStr s) None None)
  /\ create_uri (VFloat Fnan) = URIRef (EX ++ "nan")
  /\ classify_object (VFloat Fnan)
     = Literal (VFloat Fnan) (Some XSD_float) None.
Proof.
  intros _ H. split; [|split; reflexivity].
  unfold classify_object, should_be_uri, create_uri. cbn [str].
  rewrite (strip_blank _ H). split; reflexivity.
Qed.

Lemma blank_cell_witness :
  forallb isspace (chars "   ") = true
  /\ create_uri (VStr "   ") = URIRef "http://example.org/lodlam/"
  /\ classify_object (VStr "   ") = Literal (VStr "   ") None None.
Proof.
  split; [reflexivity|].
  exact (proj1 (blank_cell "   " ltac:(discriminate) eq_refl)).
Defined.

Lemma create_uri_stable_witness :
  create_uri (VStr "Summer Palace") = URIRef "http://example.org/lodlam/Summer_Palace"
  /\ create_uri (VStr "http://example.org/lodlam/Summer_Palace")
     = URIRef "http://example.org/lodlam/Summer_Palace".
Proof.
  split; [reflexivity|].
  exact (create_uri_stable (VStr "Summer Palace") _ eq_refl).
Defined.

End Minting.

(** ** When [parse_property] raises *)

Module PredicateFailures.
Import Py Rdf CsvToRdf StringFacts TermResolution.

Section Failures.

Variable defines : vocabulary -> string -> bool.
Variable refusal : vocabulary -> string -> exn.

Lemma split1_not_found (s : string) :
  split1 ":" s = None -> contains ":" s = false.
Proof.
  induction s as [|c s IH]; [reflexivity|].
  cbn [split1]. rewrite contains_char_step, (Ascii.eqb_sym ":" c).
  destruct (Ascii.eqb c ":"); [discriminate|].
  destruct (split1 ":" s) as [[a b]|]; [discriminate|].
  intros _. now rewrite IH.
Qed.

Lemma parse_property_raise_inv (property_string : value) (e : exn) :
  parse_property defines refusal property_string = Raise e ->
  exists (prefix local_name : string) (v : vocabulary),
    split1 ":" (strip (str property_string)) = Some (prefix, local_name)
    /\ lookup (lower prefix) namespace_map = Some (Defined v)
    /\ defines v local_name = false
    /\ e = refusal v local_name.
Proof.
  unfold parse_property, getitem.
  destruct (split1 ":" (strip (str property_string))) as [[prefix local]|];
    [|discriminate].
  destruct (lookup (lower prefix) namespace_map) as [[b|v]|] eqn:Hns;
    try discriminate.
  destruct (defines v local) eqn:Hd; [discriminate|].
  intros H. inversion H. now exists prefix, local, v.
Qed.

(** X5. [parse_property] raises exactly when the prefix names one of the
    vocabularies imported from [rdflib] and that vocabulary does not
    give the local name; the exception is the one the vocabulary raises
    for that name. A prefix of the namespaces the script opens, an
    unknown prefix and a text without a colon never raise. *)
Theorem parse_property_raises (property_string : value) (e : exn) :
  parse_property defines refusal property_string = Raise e <->
  exists (prefix local_name : string) (v : vocabulary),
    split1 ":" (strip (str property_string)) = Some (prefix, local_name)
    /\ lookup (lower prefix) namespace_map = Some (Defined v)
    /\ defines v local_name = false
    /\ e = refusal v local_name.
Proof.
  split; [apply parse_property_raise_inv|].
  intros (prefix & local & v & Hs & Hns & Hd & ->).
  unfold parse_property, getitem. now rewrite Hs, Hns, Hd.
Qed.

(** X6. When [parse_property] falls back on the default namespace, for an
    unknown prefix or a text without a colon, the local name is the
    stripped text with every colon turned into an underscore, so it
    holds no colon; without a colon it is the stripped text itself. *)
Theorem parse_property_fallback (property_string : value) :
  split1 ":" (strip (str property_string)) = None
  \/ (exists prefix local_name : string,
         split1 ":" (strip (str property_string)) = Some (prefix, local_name)
         /\ lookup (lower prefix) namespace_map = None) ->
  parse_property defines refusal property_string
  = Ok (URIRef (EX ++ replace ":" "_" (strip (str property_string))))
  /\ contains ":" (replace ":" "_" (strip (str property_string))) = false
  /\ (split1 ":" (strip (str property_string)) = None ->
      replace ":" "_" (strip (str property_string))
      = strip (str property_string)).
Proof.
  intros H.
  assert (Hnone : split1 ":" (strip (str property_string)) = None ->
                  replace ":" "_" (strip (str property_string))
                  = strip (str property_string)).
  { intros E. now apply replace_char_absent, split1_not_found. }
  split; [|split; [now apply replace_char_removes | exact Hnone]].
  unfold parse_property. destruct H as [E | (prefix & local & E & Hns)].
  - rewrite (Hnone E). now rewrite E.
  - now rewrite E, Hns.
Qed.

End Failures.

Lemma parse_property_raises_witness :
  parse_property Examples.creator_only Samples.refusal_by_name
                 (VStr "rdf:_NS")
  = Raise KeyError.
Proof.
  apply (proj2 (parse_property_raises Examples.creator_only
                  Samples.refusal_by_name (VStr "rdf:_NS") KeyError)).
  exists "rdf", "_NS", RDF. repeat split; reflexivity.
Defined.

Lemma parse_property_fallback_witness :
  parse_property Examples.creator_only Examples.attribute_errors
                 (VStr "a:b:c")
  = Ok (URIRef "http://example.org/lodlam/a_b_c").
Proof.
  exact (proj1 (parse_property_fallback Examples.creator_only
                  Examples.attribute_errors (VStr "a:b:c")
                  (or_intror (ex_intro _ "a" (ex_intro _ "b:c"
                                (conj eq_refl eq_refl)))))).
Defined.

End PredicateFailures.

(** ** More on the graph *)

Module GraphInvariants.
Import Py Rdf GraphFacts.

Lemma add_present (t : triple) (g : Graph) : In t g -> add t g = g.
Proof. intros H. unfold add. apply mem_In in H. now rewrite H. Qed.

(** Adding triples the graph holds changes nothing. *)
Lemma add_all_present (ts : list triple) (g : Graph) :
  (forall t, In t ts -> In t g) -> add_all ts g = g.
Proof.
  induction ts as [|x ts IH]; intros H; [reflexivity|].
  rewrite add_all_cons, add_present by (apply H; now left).
  apply IH. intros t Ht. apply H. now right.
Qed.

Lemma add_all_twice (ts : list triple) (g : Graph) :
  add_all ts (add_all ts g) = add_all ts g.
Proof.
  apply add_all_present. intros t Ht. apply in_add_all. now left.
Qed.

Lemma length_add (t : triple) (g : Graph) : length (add t g) <= S (length g).
Proof.
  unfold add. destruct (mem t g); [lia|]. rewrite length_app. simpl. lia.
Qed.

Lemma length_add_all (ts : list triple) (g : Graph) :
  length (add_all ts g) <= length g + length ts.
Proof.
  revert g. induction ts as [|x ts IH]; intros g; simpl; [lia|].
  specialize (IH (add x g)). pose proof (length_add x g).
  change (fold_left (fun acc t => add t acc) ts (add x g))
    with (add_all ts (add x g)). lia.
Qed.

Lemma NoDup_add (t : triple) (g : Graph) : NoDup g -> NoDup (add t g).
Proof.
  intros H. unfold add. destruct (mem t g) eqn:E; [exact H|].
  apply NoDup_app; [exact H | repeat constructor; auto |].
  intros x Hx [<- | []]. apply mem_In in Hx. congruence.
Qed.

Lemma NoDup_add_all (ts : list triple) (g : Graph) :
  NoDup g -> NoDup (add_all ts g).
Proof.
  revert g. induction ts as [|x ts IH]; intros g H; [exact H|].
  rewrite add_all_cons. now apply IH, NoDup_add.
Qed.

Lemma length_add_all_NoDup (ts : list triple) :
  NoDup ts -> add_all ts [] = ts.
Proof.
  assert (G : forall g, NoDup (g ++ ts) -> add_all ts g = (g ++ ts)%list).
  { induction ts as [|x ts IH]; intros g H.
    - now rewrite app_nil_r.
    - rewrite add_all_cons. unfold add.
      assert (Hx : mem x g = false).
      { destruct (mem x g) eqn:E; [|reflexivity]. apply mem_In in E.
        apply NoDup_remove_2 in H. exfalso. apply H. apply in_or_app. now left. }
      rewrite Hx. rewrite IH; rewrite <- app_assoc; [reflexivity | exact H]. }
  intros H. now apply (G []).
Qed.

End GraphInvariants.

(** ** More on the tabular builder *)

Module TabularInvariants.
Import Py Rdf CsvToRdf Emitted Examples GraphFacts GraphInvariants.
Import TabularBuilder PredicateFailures.

Lemma index_of_found (col : string) (cols : list string) :
  existsb (String.eqb col) cols = true -> exists i, index_of col cols = Some i.
Proof.
  induction cols as [|c cols IH]; [discriminate|]. simpl.
  destruct (String.eqb col c); [now exists 0|].
  intros H. destruct (IH H) as [i ->]. now exists (S i).
Qed.

Lemma required_columns_found (df : DataFrame) :
  has_required_columns df = true ->
  exists i j k,
    index_of "Subject" (columns df) = Some i
    /\ index_of "Property" (columns df) = Some j
    /\ index_of "Object" (columns df) = Some k.
Proof.
  unfold has_required_columns. cbn [forallb]. intros H.
  apply andb_prop in H as [Hs H]. apply andb_prop in H as [Hp H].
  apply andb_prop in H as [Ho _].
  destruct (index_of_found _ _ Hs) as [i Hi].
  destruct (index_of_found _ _ Hp) as [j Hj].
  destruct (index_of_found _ _ Ho) as [k Hk].
  now exists i, j, k.
Qed.

Lemma iterrows_nth (df : DataFrame) (i : nat) (row : list value) :
  In (i, row) (iterrows df) -> nth_error (rows df) i = Some row.
Proof.
  unfold iterrows.
  assert (G : forall (l : list (list value)) s,
             In (i, row) (combine (seq s (length l)) l) ->
             s <= i /\ nth_error l (i - s) = Some row).
  { induction l as [|y l IH]; intros s H; [contradiction|].
    simpl in H. destruct H as [H | H].
    - inversion H. subst. rewrite Nat.sub_diag. now split.
    - destruct (IH (S s) H) as [Hle Hn]. split; [lia|].
      replace (i - s) with (S (i - S s)) by lia. exact Hn. }
  intros H. destruct (G _ _ H) as [_ Hn]. now rewrite Nat.sub_0_r in Hn.
Qed.

Section Invariants.

Variable defines : vocabulary -> string -> bool.
Variable refusal : vocabulary -> string -> exn.
Variable read_csv : string -> result DataFrame.

#[local] Abbreviation row_results := (row_results defines refusal).
#[local] Abbreviation batch_triples := (batch_triples defines refusal read_csv).
#[local] Abbreviation source_step := (source_step defines refusal read_csv).
#[local] Abbreviation build_from := (build_from defines refusal read_csv).
#[local] Abbreviation build := (build defines refusal read_csv).

Lemma row_triple_valid (df : DataFrame) (row : list value) :
  has_required_columns df = true ->
  exists i j k : nat,
    index_of "Subject" (columns df) = Some i
    /\ index_of "Property" (columns df) = Some j
    /\ index_of "Object" (columns df) = Some k
    /\ row_triple defines refusal df row
       = match parse_property defines refusal (nth j row (VFloat Fnan)) with
         | Ok predicate =>
             Ok (create_uri (nth i row (VFloat Fnan)), predicate,
                 classify_object (nth k row (VFloat Fnan)))
         | Raise e => Raise e
         end.
Proof.
  intros H. destruct (required_columns_found df H) as (i & j & k & Hi & Hj & Hk).
  exists i, j, k. repeat (split; [assumption|]).
  unfold row_triple, row_get. rewrite Hi, Hj, Hk. simpl.
  now destruct (parse_property defines refusal (nth j row (VFloat Fnan))).
Qed.

(** X7. In a table with the three columns, the triple of a row is the minted
    subject, the resolved predicate and the classified object of its
    cells, a cell the line left out reading as [nan]; the row fails only
    when [parse_property] does: for a predicate whose prefix names a
    vocabulary of [rdflib] that does not give the local name, with the
    exception of that vocabulary, and never for a missing column. *)
Theorem valid_row_fails_on_predicate_only (df : DataFrame) (row : list value) :
  has_required_columns df = true ->
  exists i j k : nat,
    index_of "Subject" (columns df) = Some i
    /\ index_of "Property" (columns df) = Some j
    /\ index_of "Object" (columns df) = Some k
    /\ row_triple defines refusal df row
       = match parse_property defines refusal (nth j row (VFloat Fnan)) with
         | Ok predicate =>
             Ok (create_uri (nth i row (VFloat Fnan)), predicate,
                 classify_object (nth k row (VFloat Fnan)))
         | Raise e => Raise e
         end
    /\ forall e : exn,
         row_triple defines refusal df row = Raise e ->
         exists (prefix local_name : string) (v : vocabulary),
           split1 ":" (strip (str (nth j row (VFloat Fnan))))
           = Some (prefix, local_name)
           /\ lookup (lower prefix) namespace_map = Some (Defined v)
           /\ defines v local_name = false
           /\ e = refusal v local_name.
Proof.
  intros H.
  destruct (row_triple_valid df row H) as (i & j & k & Hi & Hj & Hk & E).
  exists i, j, k. repeat (split; [assumption|]).
  intros e. rewrite E.
  destruct (parse_property defines refusal (nth j row (VFloat Fnan))) eqn:Hp;
    [discriminate|].
  intros He. inversion He. subst.
  now apply (parse_property_raise_inv defines refusal).
Qed.

Lemma in_successes (rs : list (nat * result triple)) (t : triple) :
  In t (successes rs) <-> exists i, In (i, Ok t) rs.
Proof.
  unfold successes. rewrite in_flat_map. split.
  - intros ([i r] & Hin & Ht). simpl in Ht. destruct r as [t'|e]; [|contradiction].
    destruct Ht as [<- | []]. now exists i.
  - intros (i & Hin). exists (i, Ok t). split; [exact Hin | now left].
Qed.

Lemma in_warnings (rs : list (nat * result triple)) (i : nat) (e : exn) :
  In (RowWarning i e) (warnings rs) <-> In (i, Raise e) rs.
Proof.
  unfold warnings. rewrite in_flat_map. split.
  - intros ([j r] & Hin & Hw). simpl in Hw. destruct r as [t|e']; [contradiction|].
    destruct Hw as [Hw | []]. now inversion Hw; subst.
  - intros Hin. exists (i, Raise e). split; [exact Hin | now left].
Qed.

Lemma in_row_results (df : DataFrame) (i : nat) (r : result triple) :
  In (i, r) (row_results df) <->
  exists row, nth_error (rows df) i = Some row /\ row_triple defines refusal df
      row = r.
Proof.
  unfold Emitted.row_results. rewrite in_map_iff. split.
  - intros ([j row] & E & Hin). simpl in E. inversion E. subst.
    exists row. split; [now apply iterrows_nth | reflexivity].
  - intros (row & Hn & <-). exists (i, row). split; [reflexivity|].
    now apply in_iterrows.
Qed.

(** X8. The step of a file with the three columns is sound: a triple it
    leaves in the graph was there before or is the triple of one of its
    rows, and a warning it leaves in the log was there before or names a
    row of the file that fails with that exception. *)
Theorem source_step_sound (csv_file : string) (df : DataFrame) (st : state) :
  read_csv csv_file = Ok df ->
  has_required_columns df = true ->
  (forall t : triple,
      In t (graph (source_step st csv_file)) ->
      In t (graph st)
      \/ exists (i : nat) (row : list value),
           nth_error (rows df) i = Some row
           /\ row_triple defines refusal df row = Ok t)
  /\ (forall (i : nat) (e : exn),
         In (RowWarning i e) (out (source_step st csv_file)) ->
         In (RowWarning i e) (out st)
         \/ exists row : list value,
              nth_error (rows df) i = Some row
              /\ row_triple defines refusal df row = Raise e).
Proof.
  intros Hread Hcols. rewrite source_step_spec.
  unfold Emitted.source_triples, Emitted.source_out. rewrite Hread, Hcols.
  simpl. split.
  - intros t Ht. apply in_add_all in Ht as [Ht | Ht]; [|now left].
    right. apply in_successes in Ht as [i Hi].
    apply in_row_results in Hi as (row & Hn & Hr). now exists i, row.
  - intros i e Hw. apply in_app_or in Hw as [Hw | Hw]; [now left|].
    right. destruct Hw as [Hw | Hw]; [discriminate Hw|].
    apply in_app_or in Hw as [Hw | [Hw | []]]; [|discriminate Hw].
    apply in_warnings in Hw. now apply in_row_results in Hw.
Qed.

Lemma in_batch_graph (csv_files : list string) (t : triple) :
  In t (graph (build csv_files)) <-> In t (batch_triples csv_files).
Proof.
  unfold CsvToRdf.build. rewrite build_from_spec. simpl.
  rewrite in_add_all. simpl. tauto.
Qed.

(** X9. The order of the files does not matter to what the graph holds nor
    to the count: two batches with the same files in another order give
    graphs with the same triples and the same total. *)
Theorem batch_order_irrelevant (csv_files csv_files' : list string) :
  Permutation csv_files csv_files' ->
  (forall t : triple,
      In t (graph (build csv_files)) <-> In t (graph (build csv_files')))
  /\ total_triples (build csv_files) = total_triples (build csv_files').
Proof.
  intros Hperm.
  assert (Hp : Permutation (batch_triples csv_files) (batch_triples csv_files')).
  { unfold Emitted.batch_triples. now apply Permutation_flat_map. }
  split.
  - intros t. rewrite !in_batch_graph. split; apply Permutation_in;
      [exact Hp | now apply Permutation_sym].
  - unfold CsvToRdf.build. rewrite !build_from_spec. simpl.
    now apply Permutation_length.
Qed.

(** X10. The graph holds each triple once, and the total the script prints
    counts the rows that convert: it is at least the number of triples of
    the graph, and equal to it when no triple comes twice. *)
Theorem total_counts_rows (csv_files : list string) :
  NoDup (graph (build csv_files))
  /\ length (graph (build csv_files)) <= total_triples (build csv_files)
  /\ (NoDup (batch_triples csv_files) ->
      length (graph (build csv_files)) = total_triples (build csv_files)).
Proof.
  unfold CsvToRdf.build. rewrite build_from_spec. simpl. split; [|split].
  - apply NoDup_add_all. constructor.
  - apply (length_add_all _ []).
  - intros H. now rewrite length_add_all_NoDup.
Qed.

(** X11. Files listed a second time add nothing to the graph, which holds a
    triple once, but their rows are counted again in the total the
    script prints. *)
Theorem repeated_files_counted_twice (csv_files : list string) :
  graph (build (csv_files ++ csv_files)) = graph (build csv_files)
  /\ total_triples (build (csv_files ++ csv_files))
     = 2 * total_triples (build csv_files).
Proof.
  unfold CsvToRdf.build. rewrite !build_from_spec.
  cbn [graph total_triples]. rewrite batch_triples_app. split.
  - rewrite add_all_app. apply add_all_twice.
  - rewrite length_app. lia.
Qed.

Lemma row_triple_references (df : DataFrame) (row : list value) (t : triple) :
  row_triple defines refusal df row = Ok t ->
  is_reference (fst (fst t)) = true /\ is_reference (snd (fst t)) = true.
Proof.
  unfold row_triple, row_get.
  destruct (index_of "Subject" (columns df)); [|discriminate]. simpl.
  destruct (index_of "Property" (columns df)); [|discriminate]. simpl.
  destruct (parse_property defines refusal _) as [p|] eqn:Hp; [|discriminate].
      simpl.
  destruct (index_of "Object" (columns df)); [|discriminate]. simpl.
  intros H. inversion H. subst. simpl. split.
  - apply TermResolution.create_uri_is_reference.
  - unfold parse_property, getitem in Hp.
    destruct (split1 ":" _) as [[a b]|]; [|now inversion Hp].
    destruct (lookup _ _) as [[base|v]|]; try now inversion Hp.
    destruct (defines v b); now inversion Hp.
Qed.

(** X12. Every triple of the graph of a batch has a reference for subject and
    a reference for predicate. *)
Theorem batch_triples_well_formed (csv_files : list string) (t : triple) :
  In t (graph (build csv_files)) ->
  is_reference (fst (fst t)) = true /\ is_reference (snd (fst t)) = true.
Proof.
  rewrite in_batch_graph. unfold Emitted.batch_triples.
  rewrite in_flat_map. intros (f & _ & Ht).
  unfold Emitted.source_triples in Ht.
  destruct (read_csv f) as [df|]; [|contradiction].
  destruct (has_required_columns df); [|contradiction].
  apply in_successes in Ht as [i Hi].
  apply in_row_results in Hi as (row & _ & Hr).
  now apply (row_triple_references df row).
Qed.

Lemma warnings_not_processing (rs : list (nat * result triple)) :
  filter Reports.is_processing (warnings rs) = [].
Proof.
  unfold warnings. induction rs as [|[i r] rs IH]; [reflexivity|].
  simpl. destruct r; simpl; exact IH.
Qed.

Lemma source_out_processing (csv_file : string) :
  filter Reports.is_processing (source_out defines refusal read_csv csv_file)
  = [Processing csv_file].
Proof.
  unfold Emitted.source_out. simpl. f_equal.
  destruct (read_csv csv_file) as [df|e]; [|reflexivity].
  destruct (has_required_columns df); [|reflexivity].
  now rewrite filter_app, warnings_not_processing.
Qed.

(** X13. Each file of the batch is taken up once, in the order of the list,
    whatever happens to the files before it: the messages [Processing] of
    the log are those of the files, in order. *)
Theorem each_file_attempted_once (csv_files : list string) :
  filter Reports.is_processing (out (build csv_files)) = map Processing csv_files.
Proof.
  unfold CsvToRdf.build. rewrite build_from_spec. simpl.
  induction csv_files as [|f fs IH]; [reflexivity|].
  cbn [flat_map map]. now rewrite filter_app, source_out_processing, IH.
Qed.

Lemma successes_all_ok (rs : list (nat * result triple)) :
  (forall i e, ~ In (i, Raise e) rs) ->
  length (successes rs) = length rs /\ warnings rs = [].
Proof.
  unfold successes, warnings.
  induction rs as [|[i r] rs IH]; intros H; [now split|].
  destruct r as [t|e]; [|exfalso; apply (H i e); now left].
  simpl. destruct IH as [-> ->]; [|now split].
  intros j e Hin. apply (H j e). now right.
Qed.

Lemma length_iterrows (df : DataFrame) :
  length (iterrows df) = length (rows df).
Proof.
  unfold iterrows. rewrite length_combine, length_seq. apply Nat.min_id.
Qed.

(** X14. When the vocabularies of [rdflib] give every term the predicates of
    a table ask of them, no row of the table fails, the three columns
    being there: the step adds to the count the number of rows of the
    table and prints no warning. *)
Theorem defined_predicates_convert_every_row (csv_file : string)
  (df : DataFrame) (st : state) :
  (forall (row : list value) (j : nat) (prefix local_name : string)
          (v : vocabulary),
      In row (rows df) ->
      index_of "Property" (columns df) = Some j ->
      split1 ":" (strip (str (nth j row (VFloat Fnan))))
      = Some (prefix, local_name) ->
      lookup (lower prefix) namespace_map = Some (Defined v) ->
      defines v local_name = true) ->
  read_csv csv_file = Ok df ->
  has_required_columns df = true ->
  total_triples (source_step st csv_file)
  = total_triples st + length (rows df)
  /\ out (source_step st csv_file)
     = (out st ++ [Processing csv_file; Added (length (rows df))])%list.
Proof.
  intros Hasked Hread Hcols. rewrite source_step_spec.
  unfold Emitted.source_triples, Emitted.source_out. rewrite Hread, Hcols.
  assert (Hok : forall i e, ~ In (i, Raise e) (row_results df)).
  { intros i e Hin. apply in_row_results in Hin as (row & Hrow & Hr).
    destruct (row_triple_valid df row Hcols) as (a & j & k & _ & Hj & _ & E).
    rewrite E in Hr.
    destruct (parse_property defines refusal (nth j row (VFloat Fnan))) eqn:Hp;
      [discriminate Hr|].
    apply (parse_property_raise_inv defines refusal) in Hp
      as (prefix & local & v & Hs & Hns & Hd & _).
    apply nth_error_In in Hrow.
    now rewrite (Hasked row j prefix local v Hrow Hj Hs Hns) in Hd. }
  destruct (successes_all_ok _ Hok) as [Hlen Hwarn].
  simpl. rewrite Hlen, Hwarn.
  unfold Emitted.row_results. rewrite length_map, length_iterrows.
  now split.
Qed.

End Invariants.

Lemma valid_row_fails_on_predicate_only_witness :
  has_required_columns throne_frame = true
  /\ forall e : exn,
       row_triple creator_only Samples.refusal_by_name throne_frame
                  [VStr "Throne"; VStr "rdf:_NS"; VStr "x"] = Raise e ->
       e = KeyError.
Proof.
  split; [reflexivity|].
  destruct (valid_row_fails_on_predicate_only creator_only
              Samples.refusal_by_name throne_frame
              [VStr "Throne"; VStr "rdf:_NS"; VStr "x"] eq_refl)
    as (i & j & k & _ & Hj & _ & _ & H).
  intros e He. destruct (H e He) as (prefix & local & v & Hs & _ & _ & ->).
  injection Hj as <-. injection Hs as _ <-. reflexivity.
Defined.

Lemma source_step_sound_witness :
  sample_read_csv "throne.csv" = Ok throne_frame
  /\ has_required_columns throne_frame = true
  /\ (In (RowWarning 1 AttributeError)
         (out (source_step creator_only attribute_errors sample_read_csv
             empty_state
                           "throne.csv")) ->
      In (RowWarning 1 AttributeError) (out empty_state)
      \/ exists row : list value,
           nth_error (rows throne_frame) 1 = Some row
           /\ row_triple creator_only attribute_errors throne_frame row = Raise
               AttributeError).
Proof.
  split; [reflexivity|]. split; [reflexivity|].
  exact (proj2 (source_step_sound creator_only attribute_errors sample_read_csv
      "throne.csv"
                  throne_frame empty_state eq_refl eq_refl) 1 AttributeError).
Defined.

Lemma batch_order_irrelevant_witness :
  Permutation ["throne.csv"; "no_object.csv"] ["no_object.csv"; "throne.csv"]
  /\ total_triples (build creator_only attribute_errors sample_read_csv
                          ["throne.csv"; "no_object.csv"])
     = total_triples (build creator_only attribute_errors sample_read_csv
                            ["no_object.csv"; "throne.csv"]).
Proof.
  assert (Hp : Permutation ["throne.csv"; "no_object.csv"]
                           ["no_object.csv"; "throne.csv"])
    by apply perm_swap.
  split; [exact Hp|].
  exact (proj2 (batch_order_irrelevant creator_only attribute_errors
      sample_read_csv _ _ Hp)).
Defined.

Lemma total_counts_rows_witness :
  length (graph (build creator_only attribute_errors sample_read_csv
                       ["throne.csv"; "throne.csv"])) = 2
  /\ total_triples (build creator_only attribute_errors sample_read_csv
                          ["throne.csv"; "throne.csv"]) = 4
  /\ length (graph (build creator_only attribute_errors sample_read_csv
                          ["throne.csv"; "throne.csv"]))
     <= total_triples (build creator_only attribute_errors sample_read_csv
                             ["throne.csv"; "throne.csv"]).
Proof.
  split; [reflexivity|]. split; [reflexivity|].
  exact (proj1 (proj2 (total_counts_rows creator_only attribute_errors
      sample_read_csv
                         ["throne.csv"; "throne.csv"]))).
Defined.

Lemma batch_triples_well_formed_witness :
  In Samples.throne_creator
     (graph (build creator_only attribute_errors sample_read_csv
         ["throne.csv"]))
  /\ is_reference (fst (fst Samples.throne_creator)) = true
  /\ is_reference (snd (fst Samples.throne_creator)) = true.
Proof.
  assert (Hin : In Samples.throne_creator
                   (graph (build creator_only attribute_errors sample_read_csv
                       ["throne.csv"])))
    by (now left).
  split; [exact Hin|].
  exact (batch_triples_well_formed creator_only attribute_errors sample_read_csv
           ["throne.csv"] Samples.throne_creator Hin).
Defined.

Lemma defined_predicates_convert_every_row_witness :
  sample_read_csv "throne.csv" = Ok throne_frame
  /\ has_required_columns throne_frame = true
  /\ total_triples (source_step Samples.throne_terms attribute_errors
                                sample_read_csv empty_state "throne.csv")
     = 0 + 3.
Proof.
  split; [reflexivity|]. split; [reflexivity|].
  refine (proj1 (defined_predicates_convert_every_row
                   Samples.throne_terms attribute_errors sample_read_csv
                   "throne.csv" throne_frame empty_state _ eq_refl eq_refl)).
  intros row j prefix local v Hrow Hj Hs Hns.
  injection Hj as <-.
  destruct Hrow as [<- | [<- | [<- | []]]];
    injection Hs as <- <-;
    first [discriminate Hns | injection Hns as <-; reflexivity].
Defined.

End TabularInvariants.

(** ** More on the document builder *)

Module DocumentInvariants.
Import Py Rdf Xml TeiToRdf Emitted Examples GraphFacts GraphInvariants.
Import StringFacts DocumentBuilder.

Lemma Forall_flat_map_in {A B : Type} (P : B -> Prop) (f : A -> list B)
  (xs : list A) :
  (forall x, In x xs -> Forall P (f x)) -> Forall P (flat_map f xs).
Proof.
  intros H. apply Forall_forall. intros b Hb.
  apply in_flat_map in Hb as (x & Hx & Hb).
  specialize (H x Hx). rewrite Forall_forall in H. now apply H.
Qed.

Lemma Forall_try_triples {A : Type} (P : triple -> Prop) (xs : list A)
  (k : A -> list triple) :
  (forall x, Forall P (k x)) -> Forall P (try_triples xs k).
Proof. intros H. destruct xs; [constructor | apply H]. Qed.

Lemma coordinate_triples_Forall (P : triple -> Prop) (place_uri : term)
  (place : node) :
  (forall f, P (latitude_triple place_uri f)) ->
  (forall f, P (longitude_triple place_uri f)) ->
  Forall P (Emitted.coordinate_triples place_uri place).
Proof.
  intros Hlat Hlon. unfold Emitted.coordinate_triples.
  destruct (q_geo place) as [|coords rest]; [constructor|].
  destruct (split_ws EmptyString coords) as [|lat [|lon [|x l]]];
    try constructor.
  destruct (float_of_str lat); [|constructor].
  constructor; [apply Hlat|].
  destruct (float_of_str lon); repeat constructor. apply Hlon.
Qed.

(** Splits a goal [Forall P l] along the appends, the loops and the [try]
    blocks of [l], down to its triples, which [leaf] proves. *)
Ltac through_lists leaf coordinates :=
  repeat first
    [ apply Forall_nil
    | apply Forall_cons; [leaf|]
    | apply Forall_app; split
    | coordinates
    | apply Forall_try_triples; intro; cbv beta zeta
    | apply Forall_flat_map_in; intros ? ?; cbv beta zeta ].

Section Invariants.

Variable base_uri : string.

#[local] Abbreviation build := (TeiToRdf.build base_uri).
#[local] Abbreviation entity_triples := (entity_triples base_uri).

(** A property of every triple added before line 248 follows from the
    property of the triples of each step. *)
Ltac through_entities_with leaf coordinates :=
  unfold Emitted.entity_triples, Emitted.metadata_triples,
    Emitted.person_triples, Emitted.place_triples, Emitted.org_triples,
    Emitted.punishment_triples,
    doc_type_triples, title_triples, author_triples, date_triples,
    pub_place_triples, source_desc_triples, language_triples,
    keyword_triples, person_type_triples, place_type_triples,
    org_type_triples, name_triples, note_triples, mention_triples,
    event_triples, participant_triples, boxer_rebellion_triples;
  cbv beta zeta;
  through_lists leaf coordinates.

Ltac through_entities leaf :=
  through_entities_with leaf
    ltac:(apply coordinate_triples_Forall; intro; leaf).

Lemma entity_triples_references (root : node) :
  Forall Reports.references (entity_triples root).
Proof. through_entities ltac:(now split). Qed.

Lemma has_subject_iff (s : term) (g : Graph) :
  has_subject s g = true <-> exists t, In t g /\ Reports.subject t = s.
Proof.
  unfold has_subject. rewrite existsb_exists. split.
  - intros (t & Hin & E). exists t. split; [exact Hin|].
    now destruct (term_eq_dec (fst (fst t)) s).
  - intros (t & Hin & E). exists t. split; [exact Hin|].
    unfold Reports.subject in E.
    now destruct (term_eq_dec (fst (fst t)) s).
Qed.

Lemma append_inv (a b c : string) : a ++ b = a ++ c -> b = c.
Proof.
  induction a as [|x a IH]; simpl; intros H; [exact H|].
  injection H as H. now apply IH.
Qed.

Lemma term_of_inv (b x y : string) : term_of b x = term_of b y -> x = y.
Proof. unfold term_of. intros H. injection H as H. now apply append_inv in H. Qed.

(** The graph of a document, by its three parts. *)
Lemma build_parts (root : node) :
  build root
  = add_all (protocol_triples base_uri)
      (let g := add_all (entity_triples root) [] in
       if has_subject (boxers_uri base_uri) g
       then add (organizer_triple base_uri) g else g).
Proof.
  unfold TeiToRdf.build, build_from, link_boxers.
  now rewrite build_entities_spec.
Qed.

Lemma in_build (root : node) (t : triple) :
  In t (build root) <->
  In t (protocol_triples base_uri)
  \/ In t (entity_triples root)
  \/ (t = organizer_triple base_uri
      /\ exists t', In t' (entity_triples root)
                    /\ Reports.subject t' = boxers_uri base_uri).
Proof.
  rewrite build_parts. cbv zeta. rewrite in_add_all.
  destruct (has_subject (boxers_uri base_uri)
              (add_all (entity_triples root) [])) eqn:E.
  - apply has_subject_iff in E as (t' & Hin & Hs).
    apply in_add_all in Hin as [Hin | []].
    rewrite in_add, in_add_all. split.
    + intros [H | [H | [H | []]]];
        [now left | right; right; split; [exact H | now exists t']
        | right; now left].
    + intros [H | [H | (H & _)]];
        [now left | right; right; now left | right; now left].
  - rewrite in_add_all. split.
    + intros [H | [H | []]]; [now left | right; now left].
    + intros [H | [H | (_ & t' & Hin & Hs)]];
        [now left | right; now left |].
      exfalso. assert (has_subject (boxers_uri base_uri)
                         (add_all (entity_triples root) []) = true);
        [|congruence].
      apply has_subject_iff. exists t'. split; [|exact Hs].
      apply in_add_all. now left.
Qed.

(** X15. Every triple of the graph of a document has a reference for subject
    and a reference for predicate. *)
Theorem document_triples_well_formed (root : node) (t : triple) :
  In t (build root) -> Reports.references t.
Proof.
  intros H. apply (proj1 (in_build root _)) in H as [H | [H | (-> & _)]].
  - revert t H. apply Forall_forall. unfold protocol_triples.
    repeat (apply Forall_cons; [now split|]). apply Forall_nil.
  - revert t H. apply Forall_forall. apply entity_triples_references.
  - now split.
Qed.

(** X16. Whatever the document, the graph types and dates the Boxer
    Rebellion, describes the Boxer Protocol and gives the document its
    three types and its two language triples. *)
Theorem fixed_triples_always_present (root : node) (t : triple) :
  In t (doc_type_triples base_uri ++ language_triples base_uri
        ++ boxer_rebellion_triples base_uri
        ++ protocol_triples base_uri)%list ->
  In t (build root).
Proof.
  intros H. apply (proj2 (in_build root _)).
  apply in_app_or in H as [H | H]; [right; left|].
  { unfold Emitted.entity_triples. apply in_or_app. now left. }
  apply in_app_or in H as [H | H]; [right; left|].
  { unfold Emitted.entity_triples. do 2 (apply in_or_app; right).
    apply in_or_app. now left. }
  apply in_app_or in H as [H | H]; [right; left | now left].
  unfold Emitted.entity_triples. do 8 (apply in_or_app; right). exact H.
Qed.

(** *** The organizer of the rebellion *)

Lemma or_empty_boxers (o : option string) :
  or_empty o = "boxers" -> o = Some "boxers".
Proof. destruct o; simpl; [congruence | discriminate]. Qed.

Ltac boxers_leaf root :=
  let Hs := fresh "Hs" in
  intros Hs; unfold Reports.subject in Hs; cbn [fst] in Hs;
  unfold ex_id, doc_uri, event_uri, boxer_event_uri, boxers_uri, ex in Hs;
  apply term_of_inv in Hs;
  first
    [ discriminate Hs
    | apply or_empty_boxers in Hs;
      match goal with
      | H : In ?x (q_persons root) |- _ =>
          exists x; split; [apply in_or_app; left; exact H | exact Hs]
      | H : In ?x (q_places root) |- _ =>
          exists x; split;
          [apply in_or_app; right; apply in_or_app; left; exact H | exact Hs]
      | H : In ?x (q_orgs root) |- _ =>
          exists x; split;
          [apply in_or_app; right; apply in_or_app; right; exact H | exact Hs]
      end ].

Lemma boxers_subject_named (root : node) :
  Forall (fun t => Reports.subject t = boxers_uri base_uri -> Notions.named_boxers root)
         (entity_triples root).
Proof. through_entities ltac:(boxers_leaf root). Qed.

Ltac predicate_leaf :=
  let Hp := fresh "Hp" in
  intros Hp; unfold Reports.predicate in Hp; cbn [fst snd] in Hp;
  vm_compute in Hp; discriminate Hp.

Lemma organizer_not_entity (root : node) :
  Forall (fun t => Reports.predicate t <> schema "organizer")
         (entity_triples root).
Proof. through_entities ltac:(predicate_leaf). Qed.

(** X17. The organizer triple is in the graph exactly when a person, a place
    or an organization of the back matter has the identifier [boxers]:
    line 249 asks for any triple about that reference, whatever the kind
    of the entity. *)
Theorem organizer_iff_named_boxers (root : node) :
  In (organizer_triple base_uri) (build root) <->
  exists e : node,
    In e (q_persons root ++ q_places root ++ q_orgs root)%list
    /\ get e XML_ID = Some "boxers".
Proof.
  rewrite in_build. split.
  - intros [H | [H | (_ & t' & Hin & Hs)]].
    + exfalso. unfold protocol_triples in H.
      repeat (destruct H as [H | H];
              [injection H as _ H _; vm_compute in H; discriminate H|]).
      exact H.
    + exfalso. pose proof (organizer_not_entity root) as Hall.
      rewrite Forall_forall in Hall. now apply (Hall _ H).
    + pose proof (boxers_subject_named root) as Hall.
      rewrite Forall_forall in Hall. exact (Hall _ Hin Hs).
  - intros (e & Hin & Hid). right. right. split; [reflexivity|].
    assert (Hex : ex_id base_uri e = boxers_uri base_uri).
    { unfold ex_id. now rewrite Hid. }
    unfold Emitted.entity_triples.
    apply in_app_or in Hin as [Hin | Hin];
      [|apply in_app_or in Hin as [Hin | Hin]].
    + exists (ex_id base_uri e, rdf "type", foaf "Person"). split; [|exact Hex].
      do 4 (apply in_or_app; right). apply in_or_app. left.
      apply in_flat_map. exists e. split; [exact Hin|].
      unfold Emitted.person_triples. apply in_or_app. left. now left.
    + exists (ex_id base_uri e, rdf "type", schema "Place"). split; [|exact Hex].
      do 5 (apply in_or_app; right). apply in_or_app. left.
      apply in_flat_map. exists e. split; [exact Hin|].
      unfold Emitted.place_triples. apply in_or_app. left. now left.
    + exists (ex_id base_uri e, rdf "type", foaf "Organization").
      split; [|exact Hex].
      do 6 (apply in_or_app; right). apply in_or_app. left.
      apply in_flat_map. exists e. split; [exact Hin|].
      unfold Emitted.org_triples. apply in_or_app. left. now left.
Qed.

(** *** Coordinates *)




(** *** The description of a punishment *)

Lemma length_substring_le (n : nat) (s : string) :
  String.length (substring 0 n s) <= n.
Proof.
  revert s. induction n as [|n IH]; intros s.
  - destruct s; simpl; lia.
  - destruct s as [|c s]; simpl; [lia|]. specialize (IH s). lia.
Qed.

Lemma substring_prefix (n : nat) (s : string) :
  startswith (substring 0 n s) s = true.
Proof.
  revert s. induction n as [|n IH]; intros s.
  - now destruct s.
  - destruct s as [|c s]; [reflexivity|]. simpl.
    now rewrite Ascii.eqb_refl, IH.
Qed.

Lemma substring_whole (n : nat) (s : string) :
  String.length s <= n -> substring 0 n s = s.
Proof.
  revert s. induction n as [|n IH]; intros s H.
  - destruct s; [reflexivity | simpl in H; lia].
  - destruct s as [|c s]; [reflexivity|]. simpl in *.
    rewrite IH; [reflexivity | lia].
Qed.

(** X19. The description of a punishment is the text of its paragraphs cut at
    500 characters: it is a prefix of that text, at most 500 characters
    long, and the whole text when that is short enough. *)
Theorem punishment_description_bounded (root : node) (i : nat)
  (punishment : node) :
  In (i, punishment) (enumerate1 (q_punishments root)) ->
  exists d : string,
    In (event_uri base_uri (i, punishment), schema "description", lit_en d)
       (build root)
    /\ String.length d <= 500
    /\ startswith d (Notions.punishment_text punishment) = true
    /\ (String.length (Notions.punishment_text punishment) <= 500 ->
        d = Notions.punishment_text punishment).
Proof.
  intros Hin.
  exists (substring 0 500 (Notions.punishment_text punishment)).
  split; [|split; [apply length_substring_le
                  |split; [apply substring_prefix | apply substring_whole]]].
  apply (proj2 (in_build root _)). right. left. unfold Emitted.entity_triples.
  do 7 (apply in_or_app; right). apply in_or_app. left.
  apply in_flat_map. exists (i, punishment). split; [exact Hin|].
  unfold Emitted.punishment_triples. apply in_or_app. left.
  unfold event_triples. cbn [snd]. do 3 right. now left.
Qed.

End Invariants.

Lemma document_triples_well_formed_witness :
  In (organizer_triple boxer_base)
     (TeiToRdf.build boxer_base Samples.boxers_person_document)
  /\ Reports.references (organizer_triple boxer_base).
Proof.
  assert (Hin : In (organizer_triple boxer_base)
                   (TeiToRdf.build boxer_base Samples.boxers_person_document)).
  { apply (proj1 (mem_In _ _)). vm_compute. reflexivity. }
  split; [exact Hin|].
  exact (document_triples_well_formed boxer_base _ _ Hin).
Defined.

Lemma fixed_triples_always_present_witness :
  In (protocol_uri boxer_base, rdfs "label", lit_en "Boxer Protocol")
     (TeiToRdf.build boxer_base bare_document).
Proof.
  apply fixed_triples_always_present.
  do 3 (apply in_or_app; right). right. now left.
Defined.

Lemma organizer_iff_named_boxers_witness :
  In (organizer_triple boxer_base)
     (TeiToRdf.build boxer_base Samples.boxers_person_document).
Proof.
  apply (proj2 (organizer_iff_named_boxers boxer_base
                  Samples.boxers_person_document)).
  exists Samples.boxers_person.
  split; [vm_compute; left; reflexivity | reflexivity].
Defined.


Lemma punishment_description_bounded_witness :
  In (1, Samples.exile) (enumerate1 (q_punishments Samples.exile_document))
  /\ exists d : string,
       In (event_uri boxer_base (1, Samples.exile), schema "description",
           lit_en d)
          (TeiToRdf.build boxer_base Samples.exile_document)
       /\ String.length d <= 500.
Proof.
  assert (Hin : In (1, Samples.exile)
                   (enumerate1 (q_punishments Samples.exile_document)))
    by (vm_compute; left; reflexivity).
  split; [exact Hin|].
  destruct (punishment_description_bounded boxer_base _ _ _ Hin)
    as (d & Hd & Hlen & _).
  exists d. exact (conj Hd Hlen).
Defined.

End DocumentInvariants.

(** ** More on the runs of [tei_to_rdf.py] *)

Module DocumentRuns.
Import Py Rdf Xml Examples Reports.

Lemma replace_absent (old new s : string) :
  contains old s = false -> replace old new s = s.
Proof.
  unfold replace. induction s as [|c s IH]; [reflexivity|].
  cbn [contains replace_from]. intros H.
  apply orb_false_elim in H as [-> Hs]. now rewrite (IH Hs).
Qed.

Section Runs.

Variable writable : string -> bool.
Variable base_uri : string.

#[local] Abbreviation tei_to_rdf := (TeiToRdf.tei_to_rdf base_uri writable).

(** X20. An output path without [.ttl] is also the path of the RDF/XML file:
    when it can be written, the second serialization overwrites the
    Turtle file, and the path ends up holding RDF/XML. *)
Theorem xml_overwrites_turtle (root : node) (output_file : string)
  (w : TeiToRdf.world) :
  contains ".ttl" output_file = false ->
  writable output_file = true ->
  fst (tei_to_rdf root output_file w) = Ok (TeiToRdf.build base_uri root)
  /\ lookup output_file (TeiToRdf.disk (snd (tei_to_rdf root output_file w)))
     = Some (Xml, TeiToRdf.build base_uri root).
Proof.
  intros Hext Hw. unfold TeiToRdf.tei_to_rdf, serialize.
  rewrite (replace_absent _ _ _ Hext), Hw. simpl.
  now rewrite String.eqb_refl.
Qed.

End Runs.

Lemma xml_overwrites_turtle_witness :
  contains ".ttl" "edict" = false
  /\ any_path "edict" = true
  /\ lookup "edict"
       (TeiToRdf.disk
          (snd (TeiToRdf.tei_to_rdf boxer_base any_path bare_document "edict"
                                    Samples.no_files)))
     = Some (Xml, TeiToRdf.build boxer_base bare_document).
Proof.
  split; [reflexivity|]. split; [reflexivity|].
  exact (proj2 (xml_overwrites_turtle any_path boxer_base bare_document
                  "edict" Samples.no_files eq_refl eq_refl)).
Defined.

End DocumentRuns.

(** ** When the page is rendered *)

Module Rendering.
Import Py Xml XmlToHtml Examples.

Lemma index_entries_ok (name_tag : string) (es : list node) :
  (exists x, index_entries name_tag es = Ok x) <->
  Forall (fun e => child_texts (named name_tag) e <> []) es.
Proof.
  induction es as [|e es IH].
  - split; [constructor | now exists EmptyString].
  - cbn [index_entries]. unfold index_entry at 1.
    destruct (child_texts (named name_tag) e) as [|name names] eqn:E.
    + split.
      * intros [x H]. discriminate H.
      * intros H. inversion H. congruence.
    + cbn [first bind]. split.
      * intros [x H]. constructor; [congruence|]. apply IH.
        destruct (index_entries name_tag es) as [xs|]; [now exists xs|].
        discriminate H.
      * intros H. inversion H as [|? ? _ Hes]. subst. apply IH in Hes as [xs ->].
        cbn [bind]. eexists. reflexivity.
Qed.

Lemma index_entries_error (name_tag : string) (es : list node) (e : exn) :
  index_entries name_tag es = Raise e -> e = IndexError.
Proof.
  induction es as [|x es IH]; [discriminate|].
  cbn [index_entries]. unfold index_entry at 1.
  destruct (child_texts (named name_tag) x) as [|name names].
  - cbn [first bind]. congruence.
  - cbn [first bind]. destruct (index_entries name_tag es) as [xs|e'].
    + discriminate.
    + cbn [bind]. intros H. inversion H. subst. now apply IH.
Qed.

Lemma render_index_ok (heading name_tag : string) (es : list node) :
  (exists x, render_index heading name_tag es = Ok x) <->
  Forall (fun e => child_texts (named name_tag) e <> []) es.
Proof.
  rewrite <- index_entries_ok. unfold render_index.
  destruct es as [|e es].
  - split; intros _; eexists; reflexivity.
  - destruct (index_entries name_tag (e :: es)) as [xs|err].
    + split; intros _; eexists; reflexivity.
    + split; intros [x H]; discriminate H.
Qed.

Lemma render_index_error (heading name_tag : string) (es : list node)
  (e : exn) :
  render_index heading name_tag es = Raise e -> e = IndexError.
Proof.
  unfold render_index. destruct es as [|x es]; [discriminate|].
  destruct (index_entries name_tag (x :: es)) as [xs|err] eqn:E;
    [discriminate|].
  cbn [bind]. intros H. inversion H. subst.
  now apply (index_entries_error name_tag (x :: es)).
Qed.

Section Page.

Variable style_rules : string.

(** X22. The page is rendered exactly when the header has a title, an author,
    a date with [@when] and a place of publication, the text has a body,
    and every person, place and organization of the back matter has a
    name; otherwise [IndexError] is raised, whatever is missing. *)
Theorem page_rendered_iff (root : node) :
  ((exists text, html_content style_rules root = Ok text) <->
   q_title root <> [] /\ q_author root <> []
   /\ q_date_when root <> [] /\ q_pubPlace root <> []
   /\ xp_elems (named "text") (named "body") root <> []
   /\ Forall (fun e => child_texts (named "persName") e <> []) (q_persons root)
   /\ Forall (fun e => child_texts (named "placeName") e <> []) (q_places root)
   /\ Forall (fun e => child_texts (named "orgName") e <> []) (q_orgs root))
  /\ (forall e, html_content style_rules root = Raise e -> e = IndexError).
Proof.
  rewrite <- (render_index_ok "Index of Persons"),
          <- (render_index_ok "Index of Places"),
          <- (render_index_ok "Index of Organizations").
  unfold html_content.
  destruct (q_title root) as [|title ?];
    [split; [split; [intros [x H]; discriminate H | intros (H & _); congruence]
            | cbn [first bind]; congruence]|].
  destruct (q_author root) as [|author ?];
    [split; [split; [intros [x H]; discriminate H
                    | intros (_ & H & _); congruence]
            | cbn [first bind]; congruence]|].
  destruct (q_date_when root) as [|date ?];
    [split; [split; [intros [x H]; discriminate H
                    | intros (_ & _ & H & _); congruence]
            | cbn [first bind]; congruence]|].
  destruct (q_pubPlace root) as [|pub_place ?];
    [split; [split; [intros [x H]; discriminate H
                    | intros (_ & _ & _ & H & _); congruence]
            | cbn [first bind]; congruence]|].
  destruct (xp_elems (named "text") (named "body") root) as [|body ?];
    [split; [split; [intros [x H]; discriminate H
                    | intros (_ & _ & _ & _ & H & _); congruence]
            | cbn [first bind]; congruence]|].
  cbn [first bind].
  destruct (render_index "Index of Persons" "persName" (q_persons root))
    as [persons|e1] eqn:E1.
  2:{ split; [split; [intros [x H]; discriminate H
                     | intros (_ & _ & _ & _ & _ & [x H] & _); discriminate H]|].
      cbn [bind]. intros e H. inversion H. subst.
      now apply render_index_error in E1. }
  destruct (render_index "Index of Places" "placeName" (q_places root))
    as [places|e2] eqn:E2.
  2:{ split; [split; [intros [x H]; discriminate H
                     | intros (_ & _ & _ & _ & _ & _ & [x H] & _);
                       discriminate H]|].
      cbn [bind]. intros e H. inversion H. subst.
      now apply render_index_error in E2. }
  destruct (render_index "Index of Organizations" "orgName" (q_orgs root))
    as [orgs|e3] eqn:E3.
  2:{ split; [split; [intros [x H]; discriminate H
                     | intros (_ & _ & _ & _ & _ & _ & _ & [x H]);
                       discriminate H]|].
      cbn [bind]. intros e H. inversion H. subst.
      now apply render_index_error in E3. }
  cbn [bind]. split; [|discriminate].
  split; [|intros _; eexists; reflexivity].
  intros _. repeat split; try discriminate; eexists; reflexivity.
Qed.

End Page.

Lemma page_rendered_iff_witness :
  exists text, html_content EmptyString Samples.minimal_page = Ok text.
Proof.
  apply (proj2 (proj1 (page_rendered_iff EmptyString Samples.minimal_page))).
  vm_compute. repeat split; try discriminate; constructor.
Defined.

Lemma fold_render_leaf (cs : list node) (acc : string) :
  fold_left (fun result child => result ++ render_child child)
            (map Notions.leaf cs) acc
  = fold_left (fun result child => result ++ render_child child) cs acc.
Proof.
  revert acc. induction cs as [|c cs IH]; [reflexivity|].
  intros acc. cbn [map fold_left]. rewrite IH.
  replace (render_child (Notions.leaf c)) with (render_child c)
    by now destruct c.
  reflexivity.
Qed.

(** X23. [process_element_text] reads an element no deeper than its children:
    what lies below them, text and marked names alike, never reaches the
    page. *)
Theorem nested_text_never_rendered (element : node) :
  process_element_text (Notions.shallow element)
  = process_element_text element.
Proof.
  destruct element as [t a x cs tl]. unfold process_element_text.
  cbn [Notions.shallow children text tag attrib tail].
  apply fold_render_leaf.
Qed.

Lemma concat_empty_cons (x : string) (xs : list string) :
  String.concat EmptyString (x :: xs) = x ++ String.concat EmptyString xs.
Proof.
  destruct xs as [|y ys]; [simpl; now rewrite StringFacts.append_nil_r | reflexivity].
Qed.

Lemma concat_empty_app (a b : list string) :
  String.concat EmptyString (a ++ b)
  = String.concat EmptyString a ++ String.concat EmptyString b.
Proof.
  induction a as [|x a IH]; [reflexivity|].
  rewrite <- app_comm_cons. now rewrite !concat_empty_cons, IH, StringFacts.append_assoc.
Qed.

Lemma fold_render (f : node -> string) (cs : list node) (acc : string) :
  fold_left (fun result child => result ++ f child) cs acc
  = acc ++ String.concat EmptyString (map f cs).
Proof.
  revert acc. induction cs as [|c cs IH]; intros acc.
  - simpl. now rewrite StringFacts.append_nil_r.
  - cbn [fold_left map]. now rewrite IH, concat_empty_cons, StringFacts.append_assoc.
Qed.

Lemma unmarked_render_child (c : node) :
  Notions.unmarked c = true -> children c = [] ->
  render_child c = or_empty (text c) ++ or_empty (tail c).
Proof.
  unfold Notions.unmarked, named, render_child. intros H Hc.
  apply negb_true_iff in H.
  apply orb_false_elim in H as [H Hdate].
  apply orb_false_elim in H as [H Horg].
  apply orb_false_elim in H as [Hpers Hplace].
  now rewrite Hpers, Hplace, Horg, Hdate.
Qed.

Lemma itertext_childless (c : node) :
  children c = [] -> itertext c = or_empty (text c).
Proof.
  destruct c as [t a x cs tl]. cbn [children]. intros ->.
  cbn [text itertext flat_map]. rewrite app_nil_r. now destruct x.
Qed.

(** X24. Where every child of an element is an element that is no marked name
    nor date and has no children of its own, the text put on the page is
    the text of the element, the one the graph builder reads with
    [itertext]. A child that is a comment breaks this: its words reach
    the page, and [itertext] leaves them out. *)
Theorem plain_text_rendered_whole (element : node) :
  forallb Notions.plain (children element) = true ->
  process_element_text element = itertext element.
Proof.
  destruct element as [t a x cs tl]. unfold process_element_text.
  cbn [children text itertext]. intros H.
  rewrite fold_render, concat_empty_app. f_equal; [now destruct x|].
  induction cs as [|c cs IH]; [reflexivity|].
  cbn [forallb] in H. apply andb_prop in H as [Hc Hcs].
  unfold Notions.plain in Hc. apply andb_prop in Hc as [Hc Hn].
  apply andb_prop in Hc as [He Hu].
  assert (Hnil : children c = []) by now destruct (children c).
  cbn [map flat_map]. rewrite He.
  rewrite concat_empty_cons, concat_empty_app, (IH Hcs).
  f_equal. rewrite (unmarked_render_child c Hu Hnil).
  rewrite <- app_comm_cons, concat_empty_cons, (itertext_childless c Hnil).
  f_equal. now destruct (tail c).
Qed.

Lemma plain_text_rendered_whole_witness :
  (process_element_text Samples.plain_paragraph = "Signed today in Peking."
   /\ itertext Samples.plain_paragraph = "Signed today in Peking.")
  /\ process_element_text Samples.commented_paragraph = "Hello  secret  world"
  /\ itertext Samples.commented_paragraph = "Hello  world".
Proof.
  split; [|split; reflexivity].
  rewrite <- (plain_text_rendered_whole Samples.plain_paragraph eq_refl).
  split; reflexivity.
Defined.

End Rendering.

(** ** The statistics of [csv_to_rdf.py] *)

Module ReportFacts.
Import Py Rdf Reports Notions Examples.

(** *** The local name of a predicate *)

Lemma last_segment_from_plain (sep : ascii) (s acc : string) :
  contains (String sep EmptyString) s = false ->
  last_segment_from acc sep s = acc ++ s.
Proof.
  revert acc. induction s as [|c s IH]; intros acc H.
  - simpl. now rewrite StringFacts.append_nil_r.
  - rewrite StringFacts.contains_char_step in H.
    apply orb_false_elim in H as [Hc Hs].
    cbn [last_segment_from]. rewrite (Ascii.eqb_sym c sep), Hc, (IH _ Hs).
    now rewrite StringFacts.append_assoc.
Qed.

Lemma last_segment_from_cut (sep : ascii) (a b acc : string) :
  last_segment_from acc sep (a ++ String sep b) = last_segment sep b.
Proof.
  revert acc. induction a as [|c a IH]; intros acc.
  - cbn [append last_segment_from]. now rewrite Ascii.eqb_refl.
  - cbn [append last_segment_from]. destruct (Ascii.eqb c sep); apply IH.
Qed.

Lemma last_segment_from_app (sep : ascii) (s t acc : string) :
  contains (String sep EmptyString) t = false ->
  last_segment_from acc sep (s ++ t) = last_segment_from acc sep s ++ t.
Proof.
  intros Ht. revert acc. induction s as [|c s IH]; intros acc.
  - cbn [append last_segment_from]. now apply last_segment_from_plain.
  - cbn [append last_segment_from]. destruct (Ascii.eqb c sep); apply IH.
Qed.

(** X25. The name shown for a predicate is what follows the last [/] or [#]
    of its text: after a namespace that ends in one of them, a name
    without them is shown as it is. *)
Theorem local_name_round_trip (base name : string) (sep : ascii) :
  is_separator sep = true ->
  contains "/" name = false ->
  contains "#" name = false ->
  local_name (base ++ String sep name) = name.
Proof.
  unfold is_separator, local_name, last_segment. intros Hsep Hs Hh.
  apply orb_prop in Hsep as [E | E]; apply Ascii.eqb_eq in E; subst sep.
  - rewrite last_segment_from_cut. unfold last_segment.
    rewrite (last_segment_from_plain "/" name _ Hs). cbn [append].
    now rewrite (last_segment_from_plain "#" name _ Hh).
  - rewrite (last_segment_from_app "/" base (String "#" name)).
    + rewrite last_segment_from_cut. unfold last_segment.
      now rewrite (last_segment_from_plain "#" name _ Hh).
    + rewrite StringFacts.contains_char_step. now rewrite Hs.
Qed.

Lemma local_name_round_trip_witness :
  local_name "http://www.w3.org/2000/01/rdf-schema#label" = "label".
Proof.
  exact (local_name_round_trip "http://www.w3.org/2000/01/rdf-schema" "label"
           "#" eq_refl eq_refl eq_refl).
Defined.

(** *** The dictionary of predicate counts *)

Lemma lookup_increment (key k : string) (d : list (string * nat)) :
  lookup key (increment k d)
  = if String.eqb key k
    then Some (S (match lookup k d with Some n => n | None => 0 end))
    else lookup key d.
Proof.
  induction d as [|[k' n] d IH].
  - cbn [increment lookup]. now destruct (String.eqb key k).
  - cbn [increment lookup]. destruct (String.eqb k k') eqn:E.
    + apply String.eqb_eq in E. subst k'. cbn [lookup].
      now destruct (String.eqb key k).
    + cbn [lookup]. rewrite IH. destruct (String.eqb key k') eqn:E'.
      * apply String.eqb_eq in E'. subst k'.
        now rewrite (proj2 (String.eqb_neq key k))
          by (intros ->; now rewrite String.eqb_refl in E).
      * reflexivity.
Qed.

Lemma keys_increment (k : string) (d : list (string * nat)) (x : string) :
  In x (map fst (increment k d)) <-> x = k \/ In x (map fst d).
Proof.
  induction d as [|[k' n] d IH].
  - simpl. intuition.
  - cbn [increment]. destruct (String.eqb k k') eqn:E.
    + apply String.eqb_eq in E. subst k'. simpl. intuition.
    + cbn [map fst In]. rewrite IH. intuition.
Qed.

Lemma NoDup_increment (k : string) (d : list (string * nat)) :
  NoDup (map fst d) -> NoDup (map fst (increment k d)).
Proof.
  induction d as [|[k' n] d IH]; intros H.
  - simpl. constructor; [intros []|constructor].
  - cbn [increment]. destruct (String.eqb k k') eqn:E; [exact H|].
    cbn [map fst] in H |- *. inversion H as [|? ? Hn Hd]. subst.
    constructor; [|now apply IH].
    intros Hin. apply keys_increment in Hin as [-> | Hin]; [|now apply Hn].
    now rewrite String.eqb_refl in E.
Qed.

Lemma total_increment (k : string) (d : list (string * nat)) :
  total (increment k d) = S (total d).
Proof.
  unfold total. induction d as [|[k' n] d IH]; [reflexivity|].
  cbn [increment]. unfold list_sum in *.
  destruct (String.eqb k k'); cbn [map snd fold_right];
    [|rewrite IH]; lia.
Qed.

Lemma counts_from (g : Graph) (d : list (string * nat)) :
  let d' := fold_left (fun d t => increment (predicate_text t) d) g d in
  (NoDup (map fst d) -> NoDup (map fst d'))
  /\ total d' = total d + length g
  /\ forall key,
       lookup key d'
       = match lookup key d, uses key g with
         | None, 0 => None
         | None, S n => Some (S n)
         | Some m, n => Some (m + n)
         end.
Proof.
  revert d. induction g as [|t g IH]; intros d; cbn zeta.
  - cbn [fold_left length]. split; [auto|]. split; [lia|].
    intros key. unfold uses. cbn [filter length].
    destruct (lookup key d); [f_equal; lia | reflexivity].
  - cbn [fold_left]. destruct (IH (increment (predicate_text t) d))
      as (Hn & Ht & Hl). cbn zeta in Hn, Ht, Hl.
    split; [intros H; apply Hn; now apply NoDup_increment|].
    split; [rewrite Ht, total_increment; cbn [length]; lia|].
    intros key. rewrite Hl, lookup_increment. unfold uses. cbn [filter].
    destruct (String.eqb key (predicate_text t)) eqn:E.
    + apply String.eqb_eq in E. subst key. cbn [length].
      destruct (lookup (predicate_text t) d); f_equal; lia.
    + destruct (lookup key d); reflexivity.
Qed.

(** X26. The dictionary [predicate_counts] has one entry for each predicate
    text of the graph, holding the number of triples with that
    predicate, and no other entry; its counts add up to the number of
    triples. *)
Theorem predicate_counts_tally (g : Graph) :
  NoDup (map fst (predicate_counts g))
  /\ total (predicate_counts g) = length g
  /\ forall key,
       lookup key (predicate_counts g)
       = if (uses key g =? 0)%nat then None else Some (uses key g).
Proof.
  destruct (counts_from g []) as (Hn & Ht & Hl). cbn zeta in Hn, Ht, Hl.
  split; [apply Hn; constructor|]. split; [exact Ht|].
  intros key. unfold predicate_counts, predicate_text in *. rewrite Hl.
  cbn [lookup]. now destruct (uses key g).
Qed.

(** *** The four numbers *)

Lemma count_distinct_le (xs : list term) : count_distinct xs <= length xs.
Proof.
  unfold count_distinct. apply NoDup_incl_length; [apply NoDup_nodup|].
  intros x Hx. now apply nodup_In in Hx.
Qed.

Lemma count_distinct_zero (xs : list term) :
  count_distinct xs = 0 <-> xs = [].
Proof.
  unfold count_distinct. split.
  - destruct xs as [|x xs]; [reflexivity|]. intros H.
    assert (Hin : In x (nodup term_eq_dec (x :: xs)))
      by (apply nodup_In; now left).
    destruct (nodup term_eq_dec (x :: xs)); [destruct Hin | discriminate].
  - now intros ->.
Qed.

(** X27. None of the three counts of distinct terms exceeds the number of
    triples, and each of them is zero only for the empty graph. *)
Theorem statistics_bounds (g : Graph) :
  let s := generate_statistics g in
  unique_subjects s <= total_triples s
  /\ unique_predicates s <= total_triples s
  /\ unique_objects s <= total_triples s
  /\ (unique_subjects s = 0 <-> g = [])
  /\ (unique_predicates s = 0 <-> g = [])
  /\ (unique_objects s = 0 <-> g = []).
Proof.
  cbn zeta. unfold generate_statistics.
  cbn [unique_subjects unique_predicates unique_objects total_triples].
  repeat split;
    try (rewrite <- (length_map subject g); apply count_distinct_le);
    try (rewrite <- (length_map predicate g); apply count_distinct_le);
    try (rewrite <- (length_map object g); apply count_distinct_le);
    try (intros H; apply count_distinct_zero in H;
         now destruct g);
    try (intros ->; reflexivity).
Qed.

Lemma lookup_none_keys {A : Type} (key : string) (d : list (string * A)) :
  lookup key d = None <-> ~ In key (map fst d).
Proof.
  induction d as [|[k a] d IH]; [simpl; intuition|].
  cbn [lookup map fst In]. destruct (String.eqb key k) eqn:E.
  - apply String.eqb_eq in E. subst k. split; [discriminate|].
    intros H. exfalso. apply H. now left.
  - apply String.eqb_neq in E. rewrite IH. intuition congruence.
Qed.

Lemma uses_positive (key : string) (g : Graph) :
  uses key g <> 0 <-> In key (map predicate_text g).
Proof.
  unfold uses. induction g as [|t g IH]; [simpl; intuition|].
  cbn [filter map In]. destruct (String.eqb key (predicate_text t)) eqn:E.
  - apply String.eqb_eq in E. cbn [length]. split; [now left | discriminate].
  - apply String.eqb_neq in E. rewrite IH. intuition congruence.
Qed.

Lemma NoDup_map_term_str (ts : list term) :
  Forall (fun t => is_reference t = true) ts ->
  NoDup ts -> NoDup (map term_str ts).
Proof.
  induction ts as [|t ts IH]; intros Hr Hn; [constructor|].
  inversion Hr as [|? ? Ht Hts]. inversion Hn as [|? ? Hnot Hnd]. subst.
  cbn [map]. constructor; [|now apply IH].
  intros Hin. apply in_map_iff in Hin as (u & Hu & Hin). apply Hnot.
  rewrite Forall_forall in Hts. specialize (Hts u Hin).
  destruct t, u; try discriminate. cbn [term_str] in Hu. now subst.
Qed.

(** X28. When every predicate of the graph is a reference, as in the graphs
    the builder makes, the list under [Predicates used] has as many
    lines as the number printed as [Unique predicates]. *)
Theorem predicate_lines_match_unique (g : Graph) :
  Forall (fun t => is_reference (predicate t) = true) g ->
  length (predicate_counts g) = unique_predicates (generate_statistics g).
Proof.
  intros Hr. destruct (counts_from g []) as (Hn & _ & Hl).
  cbn zeta in Hn, Hl. specialize (Hn (NoDup_nil _)).
  unfold generate_statistics, count_distinct. cbn [unique_predicates].
  rewrite <- (length_map fst (predicate_counts g)).
  rewrite <- (length_map term_str (nodup term_eq_dec (map predicate g))).
  apply Permutation_length, NoDup_Permutation.
  - exact Hn.
  - apply NoDup_map_term_str; [|apply NoDup_nodup].
    apply Forall_forall. intros t Ht. apply nodup_In in Ht.
    apply in_map_iff in Ht as (x & <- & Hx).
    rewrite Forall_forall in Hr. now apply Hr.
  - intros key. unfold predicate_counts.
    transitivity (In key (map predicate_text g)).
    + rewrite <- uses_positive. split.
      * intros Hin E. unfold predicate_text in Hl.
        specialize (Hl key). rewrite E in Hl. cbn [lookup] in Hl.
        apply (proj1 (lookup_none_keys key _)) in Hl. now apply Hl.
      * intros Hu. destruct (in_dec string_dec key
          (map fst (fold_left
                      (fun d t => increment (term_str (predicate t)) d)
                      g []))) as [Hin | Hout]; [exact Hin|].
        apply (proj2 (lookup_none_keys key _)) in Hout.
        unfold predicate_text in Hl. rewrite (Hl key) in Hout.
        cbn [lookup] in Hout. destruct (uses key g); [now elim Hu|discriminate].
    + unfold predicate_text. rewrite !in_map_iff. split.
      * intros (t & <- & Ht). exists (predicate t). split; [reflexivity|].
        apply nodup_In. now apply in_map.
      * intros (p & <- & Hp). apply nodup_In in Hp.
        apply in_map_iff in Hp as (t & <- & Ht). now exists t.
Qed.

Lemma predicate_lines_match_unique_witness :
  length (predicate_counts boxers_graph)
  = unique_predicates (generate_statistics boxers_graph).
Proof.
  apply (predicate_lines_match_unique boxers_graph).
  repeat (apply Forall_cons; [reflexivity|]). apply Forall_nil.
Defined.

End ReportFacts.
